(** * TEAL debug adapter: request handlers of [TxnGroupDebugSession]

    A shallow embedding of [src/src/debugRequestHandlers.ts]: the request
    handlers of the transaction-group debug session ([initializeRequest],
    [disconnectRequest], [breakpointLocationsRequest], [scopesRequest],
    [variablesRequest], [evaluateRequest], with their helpers
    [convertAvmValue] and [expandAvmValue]) and the process bootstrap [run]
    that follows them in the same source file.

    The handlers are methods of a session object: they read the runtime,
    hand out variable handles and send messages.  They are embedded as
    functions in a state-and-error monad over the session; a JavaScript
    exception is the error.

    The handlers lean on JavaScript, on Node.js and on two libraries, and
    the parts they use are embedded with them:
    - numbers: doubles that hold integers, with rounding to 53 bits,
      comparison, addition, [parseInt] and [Number.prototype.toString];
    - strings: sequences of characters of eight bits; the characters the
      handlers look at (digits, brackets, the sign) are all of this kind;
    - arrays: lists, with [undefined] for an index that addresses nothing;
    - [Buffer.prototype.toString] for [hex], [base64] and [ascii];
    - the two hover regular expressions, as matchers proved to accept the
      languages of the expressions;
    - [Handles] of the debug-adapter library, as a finite map;
    - [algosdk.encodeAddress]: SHA-512/256 and base32;
    - [listen] of a [net.Server]: the validation of the port, and the
      binding, whose outcome is the operating system's.

    [utils.ts] and the runtime [TxnGroupWalkerRuntime] are not among the
    sources.  [isAsciiPrintable] is modelled from the specification,
    [limitArray] and the asset loader are parameters, and of the runtime
    only the two arrays the handlers read are kept. *)

From Stdlib Require Import ZArith NArith List Ascii String Strings.Byte.
From Stdlib Require Import DecimalString DecimalPos Lia.
From stdpp Require Import base option list gmap strings.
Import ListNotations.

Open Scope Z_scope.

(** ** JavaScript numbers

    Every number the handlers compute with is an integer-valued double, an
    infinity, or [NaN] ([parseInt] of a digit string, an array length, a sum
    of the two).  [Int z] stands for the double whose value is the integer
    [z]; negative zero behaves like zero in every operation used here
    (comparison, addition with a length, property access, [toString]) and is
    not kept apart. *)
Module JS.

Inductive number : Type :=
| Int (z : Z)
| PosInfinity
| NegInfinity
| NaN.

(** Round a positive integer to the nearest double, ties to even: 53 bits of
    mantissa are kept.  The result is the integer value of that double; it
    may reach [2^1024], which [of_Z] turns into an infinity. *)
Definition round_pos (p : Z) : Z :=
  if p <? 2 ^ 53 then p
  else
    let e := Z.log2 p - 52 in
    let q := p / 2 ^ e in
    let r := p mod 2 ^ e in
    let half := 2 ^ (e - 1) in
    let q' := if (half <? r) || ((r =? half) && Z.odd q) then q + 1 else q in
    q' * 2 ^ e.

(** The Number value for a mathematical integer. *)
Definition of_Z (z : Z) : number :=
  let r := round_pos (Z.abs z) in
  if 2 ^ 1024 <=? r then (if z <? 0 then NegInfinity else PosInfinity)
  else Int (Z.sgn z * r).

(** [a < b]: false as soon as one side is [NaN]. *)
Definition lt (a b : number) : bool :=
  match a, b with
  | Int x, Int y => x <? y
  | Int _, PosInfinity => true
  | NegInfinity, Int _ => true
  | NegInfinity, PosInfinity => true
  | _, _ => false
  end.

(** [a <= b] *)
Definition le (a b : number) : bool :=
  match a, b with
  | Int x, Int y => x <=? y
  | Int _, PosInfinity => true
  | NegInfinity, Int _ => true
  | NegInfinity, PosInfinity => true
  | NegInfinity, NegInfinity => true
  | PosInfinity, PosInfinity => true
  | _, _ => false
  end.

(** [a >= b] *)
Definition ge (a b : number) : bool := le b a.

(** [a + b] *)
Definition add (a b : number) : number :=
  match a, b with
  | NaN, _ | _, NaN => NaN
  | Int x, Int y => of_Z (x + y)
  | PosInfinity, NegInfinity | NegInfinity, PosInfinity => NaN
  | PosInfinity, _ | _, PosInfinity => PosInfinity
  | NegInfinity, _ | _, NegInfinity => NegInfinity
  end.

(** Decimal digits of an integer, with a leading minus sign when negative. *)
Definition decimal (z : Z) : string := NilZero.string_of_int (Z.to_int z).

(** The integers that are read back as the double [z >= 2^53], as bounds
    scaled by four to stay in the integers.  [z] has mantissa [m] and
    exponent [e >= 1]; the next double is [2^e] above, the previous one
    [2^e] below ([2^(e-1)] when [m = 2^52]), and the two midpoints belong to
    [z] when [m] is even. *)
Record interval : Type := {
  low4 : Z;
  high4 : Z;
  closed : bool;
}.

Definition read_interval (z : Z) : interval :=
  let e := Z.log2 z - 52 in
  let m := z / 2 ^ e in
  let up := 2 * 2 ^ e in
  let down := if m =? 2 ^ 52 then 2 ^ e else 2 * 2 ^ e in
  {| low4 := 4 * z - down; high4 := 4 * z + up; closed := Z.even m |}.

Definition reads_back (iv : interval) (c : Z) : bool :=
  if closed iv
  then (low4 iv <=? 4 * c) && (4 * c <=? high4 iv)
  else (low4 iv <? 4 * c) && (4 * c <? high4 iv).

(** The multiple of [t] that reads back as [z] and is closest to it, if
    there is one; of two equally close ones, the one with the even last
    digit. *)
Definition closest_multiple (iv : interval) (z t : Z) : option Z :=
  let c0 := (z / t) * t in
  let c1 := c0 + t in
  match reads_back iv c0, reads_back iv c1 with
  | true, true =>
      if z - c0 <? c1 - z then Some c0
      else if c1 - z <? z - c0 then Some c1
      else if Z.even (z / t) then Some c0 else Some c1
  | true, false => Some c0
  | false, true => Some c1
  | false, false => None
  end.

(** The shortest decimal that reads back as [z]: the candidate with the most
    trailing zeros.  A multiple of [10 * t] is a multiple of [t], so the
    search climbs from [t = 1] (where [z] itself is found) until no multiple
    of [t] reads back; [best] is the last one found. *)
Fixpoint shortest (iv : interval) (z t best : Z) (fuel : nat) : Z :=
  match fuel with
  | O => best
  | S fuel' =>
      match closest_multiple iv z t with
      | Some c => shortest iv z (10 * t) c fuel'
      | None => best
      end
  end.

(** Drop the zeros at the end of a digit string. *)
Fixpoint strip_zeros (s : string) : string :=
  match s with
  | EmptyString => EmptyString
  | String c s' =>
      match strip_zeros s' with
      | EmptyString => if Ascii.eqb c "0" then EmptyString else String c EmptyString
      | r => String c r
      end
  end.

(** [d1.d2...dk e+x] for a number of [n > 21] digits [ds]. *)
Definition exponential (ds : string) (n : Z) : string :=
  match strip_zeros ds with
  | EmptyString => EmptyString
  | String d EmptyString => String d ("e+" +:+ decimal (n - 1))
  | String d rest => String d ("." +:+ rest +:+ "e+" +:+ decimal (n - 1))
  end.

(** Number::toString for a positive integer-valued double: below [2^53] the
    integer is its own shortest decimal; a double has at most 309 digits. *)
Definition pos_toString (z : Z) : string :=
  if z <? 2 ^ 53 then decimal z
  else
    let ds := decimal (shortest (read_interval z) z 1 z 310) in
    let n := Z.of_nat (String.length ds) in
    if n <=? 21 then ds else exponential ds n.

(** [String(x)], [x.toString()] and [`${x}`] for a number. *)
Definition toString (x : number) : string :=
  match x with
  | NaN => "NaN"
  | PosInfinity => "Infinity"
  | NegInfinity => "-Infinity"
  | Int z =>
      if z =? 0 then "0"
      else if z <? 0 then "-" +:+ pos_toString (- z)
      else pos_toString z
  end.

(** *** Strings: digits, [parseInt], template pieces *)

Definition is_digit (c : ascii) : bool :=
  let n := N_of_ascii c in ((48 <=? n) && (n <=? 57))%N.

(** The white space [parseInt] skips, among the code units below 128. *)
Definition is_space (c : ascii) : bool :=
  let n := N_of_ascii c in (((9 <=? n) && (n <=? 13)) || (n =? 32))%N.

Fixpoint trim_start (s : string) : string :=
  match s with
  | String c s' => if is_space c then trim_start s' else s
  | EmptyString => EmptyString
  end.

(** The longest prefix of decimal digits, and what follows it. *)
Fixpoint span_digits (s : string) : string * string :=
  match s with
  | String c s' =>
      if is_digit c
      then let '(ds, rest) := span_digits s' in (String c ds, rest)
      else (EmptyString, s)
  | EmptyString => (EmptyString, EmptyString)
  end.

(** The integer a string of decimal digits denotes. *)
Definition digits_value (ds : string) : Z :=
  match NilEmpty.uint_of_string ds with
  | Some d => Z.of_uint d
  | None => 0
  end.

(** [parseInt(s, 10)]: skip white space, read a sign, then the longest run
    of digits; [NaN] when there is none; the value is rounded to a double. *)
Definition parseInt10 (s : string) : number :=
  let s1 := trim_start s in
  let '(negative, s2) :=
    match s1 with
    | String c r =>
        if Ascii.eqb c "-" then (true, r)
        else if Ascii.eqb c "+" then (false, r)
        else (false, s1)
    | EmptyString => (false, s1)
    end in
  let '(ds, _) := span_digits s2 in
  match ds with
  | EmptyString => NaN
  | _ => of_Z (if negative then - digits_value ds else digits_value ds)
  end.

(** [s.startsWith(p)], returning what follows the prefix. *)
Fixpoint strip_prefix (p s : string) : option string :=
  match p, s with
  | EmptyString, _ => Some s
  | String a p', String b s' => if Ascii.eqb a b then strip_prefix p' s' else None
  | String _ _, EmptyString => None
  end.

(** The sign and digits [(-?\d+)] at the start of [s], then a closing
    bracket and the end of the input: the part of both hover expressions
    after the opening bracket.  Greedy matching is deterministic here: a
    digit can only be consumed by [\d+], a minus sign only by [-?]. *)
Definition index_group (signed : bool) (s : string) : option string :=
  let '(sign, s1) :=
    match s with
    | String c r => if signed && Ascii.eqb c "-" then ("-", r) else (EmptyString, s)
    | EmptyString => (EmptyString, s)
    end in
  let '(ds, rest) := span_digits s1 in
  match ds, rest with
  | String _ _, String "]" EmptyString => Some (sign +:+ ds)
  | _, _ => None
  end.

(** [/^stack\[(-?\d+)\]$/.exec(s)]: the match array (the whole match, then
    the captured group) or [None] for [null]. *)
Definition stack_regex_exec (s : string) : option (list string) :=
  match strip_prefix "stack[" s with
  | Some rest =>
      match index_group true rest with
      | Some g => Some [s; g]
      | None => None
      end
  | None => None
  end.

(** [/^scratch\[(\d+)\]$/.exec(s)] *)
Definition scratch_regex_exec (s : string) : option (list string) :=
  match strip_prefix "scratch[" s with
  | Some rest =>
      match index_group false rest with
      | Some g => Some [s; g]
      | None => None
      end
  | None => None
  end.

(** [/^--server=(\d{4,5})$/.exec(s)] *)
Definition server_regex_exec (s : string) : option (list string) :=
  match strip_prefix "--server=" s with
  | Some rest =>
      let '(ds, tail) := span_digits rest in
      let n := String.length ds in
      match tail with
      | EmptyString =>
          if (Nat.leb 4 n && Nat.leb n 5)%bool then Some [s; ds] else None
      | _ => None
      end
  | None => None
  end.

(** The double-quote character, for the template literal of the
    unknown-expression reply. *)
Definition dquote : string := String (ascii_of_nat 34) EmptyString.

End JS.

(** ** Node.js [Buffer.from(bytes).toString(encoding)] *)
Module Buffer.

(** The digits [0-9] and [a-f]. *)
Definition hex_digit (n : N) : ascii :=
  (if n <? 10 then ascii_of_N (48 + n) else ascii_of_N (87 + n))%N.

(** ['hex']: two lower-case digits per byte. *)
Fixpoint hex (bs : list byte) : string :=
  match bs with
  | [] => EmptyString
  | b :: bs' =>
      let n := Byte.to_N b in
      String (hex_digit (n / 16)) (String (hex_digit (n mod 16)) (hex bs'))
  end.

(** The base64 alphabet: [A-Z], [a-z], [0-9], [+], [/]. *)
Definition base64_char (n : N) : ascii :=
  (if n <? 26 then ascii_of_N (65 + n)
   else if n <? 52 then ascii_of_N (97 + (n - 26))
   else if n <? 62 then ascii_of_N (48 + (n - 52))
   else if n =? 62 then "+"%char else "/"%char)%N.

(** ['base64']: three bytes give four characters; the last group is padded
    with [=]. *)
Fixpoint base64 (bs : list byte) : string :=
  match bs with
  | [] => EmptyString
  | [a] =>
      let n := (Byte.to_N a * 65536)%N in
      String (base64_char (n / 262144))
        (String (base64_char ((n / 4096) mod 64)) "==")
  | [a; b] =>
      let n := (Byte.to_N a * 65536 + Byte.to_N b * 256)%N in
      String (base64_char (n / 262144))
        (String (base64_char ((n / 4096) mod 64))
           (String (base64_char ((n / 64) mod 64)) "="))
  | a :: b :: c :: rest =>
      let n := (Byte.to_N a * 65536 + Byte.to_N b * 256 + Byte.to_N c)%N in
      String (base64_char (n / 262144))
        (String (base64_char ((n / 4096) mod 64))
           (String (base64_char ((n / 64) mod 64))
              (String (base64_char (n mod 64)) (base64 rest))))
  end.

(** ['ascii']: one character per byte, the high bit cleared. *)
Fixpoint ascii (bs : list byte) : string :=
  match bs with
  | [] => EmptyString
  | b :: bs' => String (ascii_of_N (Byte.to_N b mod 128)) (ascii bs')
  end.

(** The encodings [expandAvmValue] asks for. *)
Inductive BufferEncoding : Type := enc_hex | enc_base64 | enc_ascii.

Definition encoding_name (e : BufferEncoding) : string :=
  match e with
  | enc_hex => "hex"
  | enc_base64 => "base64"
  | enc_ascii => "ascii"
  end.

Definition toString (bs : list byte) (e : BufferEncoding) : string :=
  match e with
  | enc_hex => hex bs
  | enc_base64 => base64 bs
  | enc_ascii => ascii bs
  end.

End Buffer.

(** ** [algosdk.encodeAddress]

    The address of a 32-byte public key: the key followed by the last four
    bytes of its SHA-512/256 digest, in base32 without the padding. *)
Module Algosdk.

(** *** SHA-512/256 (FIPS 180-4), on 64-bit words held in [Z] *)

Definition w64 (x : Z) : Z := x mod 2 ^ 64.

Definition rotr (n x : Z) : Z :=
  w64 (Z.lor (Z.shiftr x n) (Z.shiftl x (64 - n))).

Definition Sigma0 (x : Z) : Z := Z.lxor (Z.lxor (rotr 28 x) (rotr 34 x)) (rotr 39 x).
Definition Sigma1 (x : Z) : Z := Z.lxor (Z.lxor (rotr 14 x) (rotr 18 x)) (rotr 41 x).
Definition sigma0 (x : Z) : Z := Z.lxor (Z.lxor (rotr 1 x) (rotr 8 x)) (Z.shiftr x 7).
Definition sigma1 (x : Z) : Z := Z.lxor (Z.lxor (rotr 19 x) (rotr 61 x)) (Z.shiftr x 6).

Definition Ch (x y z : Z) : Z :=
  Z.lxor (Z.land x y) (Z.land (Z.lxor x (2 ^ 64 - 1)) z).

Definition Maj (x y z : Z) : Z :=
  Z.lxor (Z.lxor (Z.land x y) (Z.land x z)) (Z.land y z).

(** The eighty round constants. *)
Definition K : list Z := [
    0x428a2f98d728ae22; 0x7137449123ef65cd; 0xb5c0fbcfec4d3b2f; 0xe9b5dba58189dbbc;
    0x3956c25bf348b538; 0x59f111f1b605d019; 0x923f82a4af194f9b; 0xab1c5ed5da6d8118;
    0xd807aa98a3030242; 0x12835b0145706fbe; 0x243185be4ee4b28c; 0x550c7dc3d5ffb4e2;
    0x72be5d74f27b896f; 0x80deb1fe3b1696b1; 0x9bdc06a725c71235; 0xc19bf174cf692694;
    0xe49b69c19ef14ad2; 0xefbe4786384f25e3; 0x0fc19dc68b8cd5b5; 0x240ca1cc77ac9c65;
    0x2de92c6f592b0275; 0x4a7484aa6ea6e483; 0x5cb0a9dcbd41fbd4; 0x76f988da831153b5;
    0x983e5152ee66dfab; 0xa831c66d2db43210; 0xb00327c898fb213f; 0xbf597fc7beef0ee4;
    0xc6e00bf33da88fc2; 0xd5a79147930aa725; 0x06ca6351e003826f; 0x142929670a0e6e70;
    0x27b70a8546d22ffc; 0x2e1b21385c26c926; 0x4d2c6dfc5ac42aed; 0x53380d139d95b3df;
    0x650a73548baf63de; 0x766a0abb3c77b2a8; 0x81c2c92e47edaee6; 0x92722c851482353b;
    0xa2bfe8a14cf10364; 0xa81a664bbc423001; 0xc24b8b70d0f89791; 0xc76c51a30654be30;
    0xd192e819d6ef5218; 0xd69906245565a910; 0xf40e35855771202a; 0x106aa07032bbd1b8;
    0x19a4c116b8d2d0c8; 0x1e376c085141ab53; 0x2748774cdf8eeb99; 0x34b0bcb5e19b48a8;
    0x391c0cb3c5c95a63; 0x4ed8aa4ae3418acb; 0x5b9cca4f7763e373; 0x682e6ff3d6b2b8a3;
    0x748f82ee5defb2fc; 0x78a5636f43172f60; 0x84c87814a1f0ab72; 0x8cc702081a6439ec;
    0x90befffa23631e28; 0xa4506cebde82bde9; 0xbef9a3f7b2c67915; 0xc67178f2e372532b;
    0xca273eceea26619c; 0xd186b8c721c0c207; 0xeada7dd6cde0eb1e; 0xf57d4f7fee6ed178;
    0x06f067aa72176fba; 0x0a637dc5a2c898a6; 0x113f9804bef90dae; 0x1b710b35131c471b;
    0x28db77f523047d84; 0x32caab7b40c72493; 0x3c9ebe0a15c9bebc; 0x431d67c49c100d4c;
    0x4cc5d4becb3e42b6; 0x597f299cfc657e2a; 0x5fcb6fab3ad6faec; 0x6c44198c4a475817 ].

Record hash_state : Type := {
  ha : Z; hb : Z; hc : Z; hd : Z; he : Z; hf : Z; hg : Z; hh : Z;
}.

(** The initial hash value of SHA-512/256. *)
Definition IV : hash_state :=
  {| ha := 0x22312194fc2bf72c; hb := 0x9f555fa3c84c64c2;
     hc := 0x2393b86b6f53b151; hd := 0x963877195940eabd;
     he := 0x96283ee2a88effe3; hf := 0xbe5e1e2553863992;
     hg := 0x2b0199fc2c85b8aa; hh := 0x0eb72ddc81c52ca2 |}.

(** One round per constant.  [w] is the window [W_t .. W_(t+15)] of the
    message schedule; each round consumes [W_t] and appends [W_(t+16)]. *)
Fixpoint rounds (ks : list Z) (w : list Z) (s : hash_state) : hash_state :=
  match ks with
  | [] => s
  | k :: ks' =>
      let w0 := nth 0 w 0 in
      let t1 := w64 (hh s + Sigma1 (he s) + Ch (he s) (hf s) (hg s) + k + w0) in
      let t2 := w64 (Sigma0 (ha s) + Maj (ha s) (hb s) (hc s)) in
      let wn := w64 (sigma1 (nth 14 w 0) + nth 9 w 0 + sigma0 (nth 1 w 0) + w0) in
      rounds ks' (tl w ++ [wn])
        {| ha := w64 (t1 + t2); hb := ha s; hc := hb s; hd := hc s;
           he := w64 (hd s + t1); hf := he s; hg := hf s; hh := hg s |}
  end.

(** Big-endian bytes of a word and back. *)
Definition byte_at (x : Z) (i : Z) : byte :=
  match Byte.of_N (Z.to_N (Z.shiftr x (8 * i) mod 256)) with
  | Some b => b
  | None => x00
  end.

Definition word_bytes (x : Z) : list byte :=
  [byte_at x 7; byte_at x 6; byte_at x 5; byte_at x 4;
   byte_at x 3; byte_at x 2; byte_at x 1; byte_at x 0].

Definition word_of_bytes (bs : list byte) : Z :=
  fold_left (fun acc b => acc * 256 + Z.of_N (Byte.to_N b)) bs 0.

(** The sixteen words of a 128-byte block. *)
Fixpoint block_words (n : nat) (bs : list byte) : list Z :=
  match n with
  | O => []
  | S n' => word_of_bytes (firstn 8 bs) :: block_words n' (skipn 8 bs)
  end.

Definition compress (s : hash_state) (block : list byte) : hash_state :=
  let r := rounds K (block_words 16 block) s in
  {| ha := w64 (ha s + ha r); hb := w64 (hb s + hb r);
     hc := w64 (hc s + hc r); hd := w64 (hd s + hd r);
     he := w64 (he s + he r); hf := w64 (hf s + hf r);
     hg := w64 (hg s + hg r); hh := w64 (hh s + hh r) |}.

(** The message, a one bit, zeros, and the bit length on sixteen bytes, up
    to a multiple of 128 bytes. *)
Definition pad (msg : list byte) : list byte :=
  let l := Z.of_nat (length msg) in
  msg ++ [x80] ++ repeat x00 (Z.to_nat ((111 - l) mod 128))
      ++ word_bytes (Z.shiftr (8 * l) 64) ++ word_bytes (w64 (8 * l)).

Fixpoint blocks (n : nat) (s : hash_state) (bs : list byte) : hash_state :=
  match n with
  | O => s
  | S n' => blocks n' (compress s (firstn 128 bs)) (skipn 128 bs)
  end.

(** [nacl.genericHash]: the first four words of the final state. *)
Definition genericHash (msg : list byte) : list byte :=
  let p := pad msg in
  let s := blocks (length p / 128) IV p in
  word_bytes (ha s) ++ word_bytes (hb s) ++ word_bytes (hc s) ++ word_bytes (hd s).

(** *** Base32 (RFC 4648) *)

(** The alphabet [A-Z], [2-7]. *)
Definition base32_char (n : N) : ascii :=
  (if n <? 26 then ascii_of_N (65 + n) else ascii_of_N (50 + (n - 26)))%N.

(** The character for bits [5 * (7 - i) ..] of a 40-bit group. *)
Definition group_char (n : N) (i : N) : ascii :=
  base32_char ((n / 2 ^ (5 * (7 - i))) mod 32)%N.

(** A group of up to five bytes as a 40-bit number, missing bytes zero. *)
Definition group_value (bs : list byte) : N :=
  (Byte.to_N (nth 0 bs x00) * 2 ^ 32 + Byte.to_N (nth 1 bs x00) * 2 ^ 24
   + Byte.to_N (nth 2 bs x00) * 2 ^ 16 + Byte.to_N (nth 3 bs x00) * 2 ^ 8
   + Byte.to_N (nth 4 bs x00))%N.

(** The eight characters of a group: [k] data characters, then padding. *)
Definition group_chars (bs : list byte) (k : nat) : string :=
  let n := group_value bs in
  string_of_list_ascii
    (map (fun i => if Nat.ltb i k then group_char n (N.of_nat i) else "="%char)
         (seq 0 8)).

Fixpoint base32_encode (bs : list byte) : string :=
  match bs with
  | [] => EmptyString
  | [_] => group_chars bs 2
  | [_; _] => group_chars bs 4
  | [_; _; _] => group_chars bs 5
  | [_; _; _; _] => group_chars bs 7
  | a :: b :: c :: d :: e :: rest =>
      group_chars [a; b; c; d; e] 8 +:+ base32_encode rest
  end.

(** [bytes.slice(from, to)] *)
Definition slice {A : Type} (from to : nat) (l : list A) : list A :=
  firstn (to - from) (skipn from l).

(** [encodeAddress]: the checksum is bytes 28 to 31 of the hash; the six
    padding characters of the base32 text are cut off. *)
Definition encodeAddress (address : list byte) : string :=
  let checksum := slice 28 32 (genericHash address) in
  let addr := base32_encode (address ++ checksum) in
  String.substring 0 58 addr.

End Algosdk.

(** ** [utils.ts] *)
Module Utils.

(** Modelled from the spec: [isAsciiPrintable] lives in [utils.ts], which is
    not part of the sources at hand; the [ascii] rendering is offered "only
    if all bytes are printable ASCII", the codes 32 (space) to 126 (tilde). *)
Definition isAsciiPrintable (data : list byte) : bool :=
  forallb (fun b => let n := Byte.to_N b in ((32 <=? n) && (n <=? 126))%N) data.

End Utils.

(** ** Errors and the handler monad *)

(** A thrown [Error] (or [TypeError]) with its message. *)
Record Error : Type := mkError { message : string }.

Inductive Result (A : Type) : Type :=
| Ok (a : A)
| Throw (err : Error).
Arguments Ok {A} a.
Arguments Throw {A} err.

(** ** Data of the Debug Adapter Protocol and of the session *)

(** [algosdk.modelsv2.AvmValue]: [type] 1 is a byte string, 2 a uint64;
    [uint] is a [number] or a [bigint]. *)
Inductive Uint : Type :=
| num (x : JS.number)
| big (z : Z).

Module AvmValue.
Record t : Type := mk {
  type : Z;
  bytes : option (list byte);
  uint : option Uint;
}.
End AvmValue.

(** [type AvmValueScope = 'stack' | 'scratch'] *)
Inductive AvmValueScope : Type := stack | scratch.

Definition scope_name (s : AvmValueScope) : string :=
  match s with
  | stack => "stack"
  | scratch => "scratch"
  end.

(** [class AvmValueReference] *)
Module AvmValueReference.
Record t : Type := mk {
  scope : AvmValueScope;
  index : JS.number;
}.
End AvmValueReference.

(** What a variables reference stands for:
    ['execution' | 'chain' | AvmValueScope | AvmValueReference]. *)
Inductive HandleValue : Type :=
| execution
| chain
| of_scope (s : AvmValueScope)
| of_reference (r : AvmValueReference.t).

(** [Handles<T>] of the debug-adapter library: handles are handed out from
    1000 upwards and never reused. *)
Module Handles.
Record t : Type := mk {
  _nextHandle : Z;
  _handleMap : gmap Z HandleValue;
}.

Definition START_HANDLE : Z := 1000.

Definition empty : t := {| _nextHandle := START_HANDLE; _handleMap := ∅ |}.

Definition create (h : t) (value : HandleValue) : Z * t :=
  let handle := _nextHandle h in
  (handle, {| _nextHandle := handle + 1; _handleMap := <[handle := value]> (_handleMap h) |}).

Definition get (h : t) (handle : Z) : option HandleValue := _handleMap h !! handle.
End Handles.

Module VariablePresentationHint.
Record t : Type := mk {
  kind : option string;
  attributes : option (list string);
}.
End VariablePresentationHint.

(** [DebugProtocol.Variable] *)
Module DapVariable.
Record t : Type := mk {
  name : string;
  value : string;
  type : option string;
  variablesReference : Z;
  namedVariables : option Z;
  indexedVariables : option Z;
  presentationHint : option VariablePresentationHint.t;
  evaluateName : option string;
}.
End DapVariable.

(** [new Scope(name, reference, expensive)] *)
Module Scope.
Record t : Type := mk {
  name : string;
  variablesReference : Z;
  expensive : bool;
}.
End Scope.

(** [DebugProtocol.BreakpointLocation] *)
Module BreakpointLocation.
Record t : Type := mk {
  line : Z;
  column : option Z;
  endLine : option Z;
  endColumn : option Z;
}.
End BreakpointLocation.

Module ExceptionBreakpointsFilter.
Record t : Type := mk {
  filter : string;
  label : string;
  description : string;
  default : bool;
  supportsCondition : bool;
  conditionDescription : option string;
}.
End ExceptionBreakpointsFilter.

(** The fields of [DebugProtocol.Capabilities] that [initializeRequest]
    assigns, and the two it names in comments but leaves as they are
    ([supportsSetVariable], [supportsSetExpression]); an absent field is
    [None]. *)
Module Capabilities.
Record t : Type := mk {
  supportsConfigurationDoneRequest : option bool;
  supportsEvaluateForHovers : option bool;
  supportsStepBack : option bool;
  supportsCancelRequest : option bool;
  supportsBreakpointLocationsRequest : option bool;
  supportsStepInTargetsRequest : option bool;
  supportsSingleThreadExecutionRequests : option bool;
  supportsTerminateThreadsRequest : option bool;
  supportsExceptionFilterOptions : option bool;
  exceptionBreakpointFilters : option (list ExceptionBreakpointsFilter.t);
  supportSuspendDebuggee : option bool;
  supportTerminateDebuggee : option bool;
  supportsDelayedStackTraceLoading : option bool;
  supportsSetVariable : option bool;
  supportsSetExpression : option bool;
}.

(** The empty object [{}]. *)
Definition empty : t :=
  mk None None None None None None None None None None None None None None None.
End Capabilities.

(** The body of an evaluate response. *)
Module EvaluateBody.
Record t : Type := mk {
  result : string;
  type : option string;
  variablesReference : Z;
  presentationHint : option VariablePresentationHint.t;
}.
End EvaluateBody.

(** What a handler puts on the wire: [sendResponse] with the body it built,
    or [sendEvent]. *)
Inductive Body : Type :=
| body_initialize (c : Capabilities.t)
| body_breakpointLocations (breakpoints : list BreakpointLocation.t)
| body_scopes (scopes : list Scope.t)
| body_variables (variables : list DapVariable.t)
| body_evaluate (b : EvaluateBody.t).

Inductive Message : Type :=
| Response (body : Body)
| InitializedEvent.

(** What the handlers read from [TxnGroupWalkerRuntime]: [getStackValues()]
    and [getScratchValues()] at the current stop. *)
Module Runtime.
Record t : Type := mk {
  stackValues : list AvmValue.t;
  scratchValues : list AvmValue.t;
}.
End Runtime.

(** The debug session: the runtime, the handle table, the messages sent so
    far (oldest first), the lines written with [console.log], and whether
    [shutdown()] of the base class has been called. *)
Module Session.
Record t : Type := mk {
  _runtime : Runtime.t;
  _variableHandles : Handles.t;
  sent : list Message;
  console : list string;
  shutdown_called : bool;
}.

(** A session right after construction. *)
Definition create (runtime : Runtime.t) : t :=
  {| _runtime := runtime; _variableHandles := Handles.empty;
     sent := []; console := []; shutdown_called := false |}.
End Session.

(** Handlers run on the session and may throw. *)
Definition M (A : Type) : Type := Session.t -> Result (A * Session.t).

Definition ret {A : Type} (a : A) : M A := fun s => Ok (a, s).

Definition bind {A B : Type} (m : M A) (k : A -> M B) : M B :=
  fun s => match m s with
           | Ok (a, s') => k a s'
           | Throw err => Throw err
           end.

Definition throw {A : Type} (msg : string) : M A :=
  fun _ => Throw (mkError msg).

Notation "'let*' x ':=' m 'in' k" := (bind m (fun x => k))
  (at level 10, x pattern, m at level 100, k at level 200).

(** [this._runtime.getStackValues()] *)
Definition getStackValues : M (list AvmValue.t) :=
  fun s => Ok (Runtime.stackValues (Session._runtime s), s).

(** [this._runtime.getScratchValues()] *)
Definition getScratchValues : M (list AvmValue.t) :=
  fun s => Ok (Runtime.scratchValues (Session._runtime s), s).

(** [this._variableHandles.create(value)] *)
Definition createHandle (value : HandleValue) : M Z :=
  fun s =>
    let '(handle, h) := Handles.create (Session._variableHandles s) value in
    Ok (handle, {| Session._runtime := Session._runtime s;
                   Session._variableHandles := h;
                   Session.sent := Session.sent s;
                   Session.console := Session.console s;
                   Session.shutdown_called := Session.shutdown_called s |}).

(** [this._variableHandles.get(handle)] *)
Definition getHandle (handle : Z) : M (option HandleValue) :=
  fun s => Ok (Handles.get (Session._variableHandles s) handle, s).

Definition send (m : Message) : M unit :=
  fun s =>
    Ok (tt, {| Session._runtime := Session._runtime s;
               Session._variableHandles := Session._variableHandles s;
               Session.sent := Session.sent s ++ [m];
               Session.console := Session.console s;
               Session.shutdown_called := Session.shutdown_called s |}).

(** [this.sendResponse(response)] *)
Definition sendResponse (body : Body) : M unit := send (Response body).

(** [this.sendEvent(event)] *)
Definition sendEvent (event : Message) : M unit := send event.

(** [console.log(line)] *)
Definition console_log (line : string) : M unit :=
  fun s =>
    Ok (tt, {| Session._runtime := Session._runtime s;
               Session._variableHandles := Session._variableHandles s;
               Session.sent := Session.sent s;
               Session.console := Session.console s ++ [line];
               Session.shutdown_called := Session.shutdown_called s |}).

(** [session.shutdown()] of the base class. *)
Definition shutdown : M unit :=
  fun s =>
    Ok (tt, {| Session._runtime := Session._runtime s;
               Session._variableHandles := Session._variableHandles s;
               Session.sent := Session.sent s;
               Session.console := Session.console s;
               Session.shutdown_called := true |}).

(** [array.length] *)
Definition array_length {A : Type} (l : list A) : JS.number :=
  JS.Int (Z.of_nat (length l)).

(** [array[i]] for a number [i]: [None] is [undefined]. *)
Definition array_get {A : Type} (l : list A) (i : JS.number) : option A :=
  match i with
  | JS.Int z => if 0 <=? z then l !! Z.to_nat z else None
  | _ => None
  end.

(** Reading a property of [undefined] throws a [TypeError]. *)
Definition defined {A : Type} (x : option A) (property : string) : M A :=
  match x with
  | Some a => ret a
  | None =>
      throw ("Cannot read properties of undefined (reading '" +:+ property +:+ "')")
  end.

(** ** The request handlers of [TxnGroupDebugSession] *)

(** [initializeRequest]: the capabilities are written into the body already
    on the response, or into a fresh object; then the response and the
    [InitializedEvent] are sent. *)
Definition initializeRequest (response_body : option Capabilities.t) : M unit :=
  let body := default Capabilities.empty response_body in
  let body :=
    {| Capabilities.supportsConfigurationDoneRequest := Some true;
       Capabilities.supportsEvaluateForHovers := Some true;
       Capabilities.supportsStepBack := Some true;
       Capabilities.supportsCancelRequest := Some false;
       Capabilities.supportsBreakpointLocationsRequest := Some true;
       Capabilities.supportsStepInTargetsRequest := Some true;
       Capabilities.supportsSingleThreadExecutionRequests := Some false;
       Capabilities.supportsTerminateThreadsRequest := Some false;
       Capabilities.supportsExceptionFilterOptions := Some true;
       Capabilities.exceptionBreakpointFilters := Some [
         {| ExceptionBreakpointsFilter.filter := "namedException";
            ExceptionBreakpointsFilter.label := "Named Exception";
            ExceptionBreakpointsFilter.description :=
              "Break on named exceptions. Enter the exception's name as the Condition.";
            ExceptionBreakpointsFilter.default := false;
            ExceptionBreakpointsFilter.supportsCondition := true;
            ExceptionBreakpointsFilter.conditionDescription :=
              Some "Enter the exception's name" |};
         {| ExceptionBreakpointsFilter.filter := "otherExceptions";
            ExceptionBreakpointsFilter.label := "Other Exceptions";
            ExceptionBreakpointsFilter.description := "This is a other exception";
            ExceptionBreakpointsFilter.default := true;
            ExceptionBreakpointsFilter.supportsCondition := false;
            ExceptionBreakpointsFilter.conditionDescription := None |} ];
       Capabilities.supportSuspendDebuggee := Some true;
       Capabilities.supportTerminateDebuggee := Some true;
       Capabilities.supportsDelayedStackTraceLoading := Some true;
       Capabilities.supportsSetVariable := Capabilities.supportsSetVariable body;
       Capabilities.supportsSetExpression := Capabilities.supportsSetExpression body |} in
  let* _ := sendResponse (body_initialize body) in
  sendEvent InitializedEvent.

(** [`${b}`] for an optional boolean. *)
Definition show_flag (b : option bool) : string :=
  match b with
  | Some true => "true"
  | Some false => "false"
  | None => "undefined"
  end.

Module DisconnectArguments.
Record t : Type := mk {
  suspendDebuggee : option bool;
  terminateDebuggee : option bool;
}.
End DisconnectArguments.

(** [disconnectRequest]: one line on the console, nothing else. *)
Definition disconnectRequest (args : DisconnectArguments.t) : M unit :=
  console_log ("disconnectRequest suspend: "
               +:+ show_flag (DisconnectArguments.suspendDebuggee args)
               +:+ ", terminate: "
               +:+ show_flag (DisconnectArguments.terminateDebuggee args)).

Module BreakpointLocationsArguments.
Record t : Type := mk {
  source_path : option string;
  line : Z;
  column : option Z;
  endLine : option Z;
  endColumn : option Z;
}.
End BreakpointLocationsArguments.

(** Is a string-or-undefined value truthy? *)
Definition truthy (s : option string) : bool :=
  match s with
  | Some (String _ _) => true
  | _ => false
  end.

(** [breakpointLocationsRequest] *)
Definition breakpointLocationsRequest (args : BreakpointLocationsArguments.t) : M unit :=
  let body :=
    if truthy (BreakpointLocationsArguments.source_path args)
    then body_breakpointLocations
           [ {| BreakpointLocation.line := BreakpointLocationsArguments.line args;
                BreakpointLocation.column := None;
                BreakpointLocation.endLine := None;
                BreakpointLocation.endColumn := None |} ]
    else body_breakpointLocations [] in
  sendResponse body.

(** [scopesRequest] *)
Definition scopesRequest : M unit :=
  let* h1 := createHandle execution in
  let* h2 := createHandle chain in
  sendResponse (body_scopes [
    {| Scope.name := "Execution State"; Scope.variablesReference := h1;
       Scope.expensive := false |};
    {| Scope.name := "On-chain State"; Scope.variablesReference := h2;
       Scope.expensive := false |} ]).

(** [avmValue.uint || 0]: an absent, zero or [NaN] value gives the number 0. *)
Definition uint_or_zero (u : option Uint) : Uint :=
  match u with
  | Some (num (JS.Int z)) => if z =? 0 then num (JS.Int 0) else num (JS.Int z)
  | Some (num JS.NaN) => num (JS.Int 0)
  | Some (num x) => num x
  | Some (big z) => if z =? 0 then num (JS.Int 0) else big z
  | None => num (JS.Int 0)
  end.

(** [uint.toString()] *)
Definition uint_toString (u : Uint) : string :=
  match u with
  | num x => JS.toString x
  | big z => JS.decimal z
  end.

Definition data_hint : VariablePresentationHint.t :=
  {| VariablePresentationHint.kind := Some "data";
     VariablePresentationHint.attributes := None |}.

(** [convertAvmValue]: a byte string gets a handle of its own, through which
    it can be expanded. *)
Definition convertAvmValue (scope : AvmValueScope) (avmValue : AvmValue.t)
    (index : JS.number) : M DapVariable.t :=
  let evaluateName := scope_name scope +:+ "[" +:+ JS.toString index +:+ "]" in
  if AvmValue.type avmValue =? 1 then
    let bytes := default [] (AvmValue.bytes avmValue) in
    let convertedValue := "0x" +:+ Buffer.toString bytes Buffer.enc_hex in
    let namedVariables := if Utils.isAsciiPrintable bytes then 3 else 2 in
    let indexedVariables := Z.of_nat (length bytes) in
    let* variablesReference :=
      createHandle (of_reference (AvmValueReference.mk scope index)) in
    ret {| DapVariable.name := JS.toString index;
           DapVariable.value := convertedValue;
           DapVariable.type := Some "byte[]";
           DapVariable.variablesReference := variablesReference;
           DapVariable.namedVariables := Some namedVariables;
           DapVariable.indexedVariables := Some indexedVariables;
           DapVariable.presentationHint :=
             Some {| VariablePresentationHint.kind := Some "data";
                     VariablePresentationHint.attributes := Some ["rawString"] |};
           DapVariable.evaluateName := Some evaluateName |}
  else
    let uint := uint_or_zero (AvmValue.uint avmValue) in
    ret {| DapVariable.name := JS.toString index;
           DapVariable.value := uint_toString uint;
           DapVariable.type := Some "uint64";
           DapVariable.variablesReference := 0;
           DapVariable.namedVariables := None;
           DapVariable.indexedVariables := None;
           DapVariable.presentationHint := None;
           DapVariable.evaluateName := Some evaluateName |}.

(** [DebugProtocol.VariablesArguments['filter']] *)
Inductive Filter : Type := indexed | named.

Definition filter_is (f : option Filter) (g : Filter) : bool :=
  match f, g with
  | Some indexed, indexed | Some named, named => true
  | _, _ => false
  end.

(** A child without children of its own. *)
Definition leaf (name type value : string) : DapVariable.t :=
  {| DapVariable.name := name;
     DapVariable.value := value;
     DapVariable.type := Some type;
     DapVariable.variablesReference := 0;
     DapVariable.namedVariables := None;
     DapVariable.indexedVariables := None;
     DapVariable.presentationHint := None;
     DapVariable.evaluateName := None |}.

(** [expandAvmValue]: the named children (the renderings, the address, the
    length), then one child per byte. *)
Definition expandAvmValue (avmValue : AvmValue.t) (filter : option Filter)
    : list DapVariable.t :=
  if negb (AvmValue.type avmValue =? 1) then []
  else
    let bytes := default [] (AvmValue.bytes avmValue) in
    let values : list DapVariable.t := [] in
    let values :=
      if negb (filter_is filter indexed) then
        let formats := [Buffer.enc_hex; Buffer.enc_base64] in
        let formats :=
          if Utils.isAsciiPrintable bytes then formats ++ [Buffer.enc_ascii]
          else formats in
        let formats := if Nat.eqb (length bytes) 0 then [] else formats in
        let values :=
          values ++ map (fun format =>
                           leaf (Buffer.encoding_name format) "string"
                                (Buffer.toString bytes format)) formats in
        let values :=
          if Nat.eqb (length bytes) 32
          then values ++ [leaf "address" "string" (Algosdk.encodeAddress bytes)]
          else values in
        values ++ [leaf "length" "number" (JS.toString (array_length bytes))]
      else values in
    if negb (filter_is filter named) then
      values ++ imap (fun i b =>
                        leaf (JS.toString (JS.Int (Z.of_nat i))) "uint8"
                             (JS.toString (JS.Int (Z.of_N (Byte.to_N b))))) bytes
    else values.

(** [array.map((value, index) => f(value, index))] for a callback with
    effects on the session, run from the first element on. *)
Fixpoint map_indexed {A B : Type} (f : A -> JS.number -> M B) (i : nat)
    (l : list A) : M (list B) :=
  match l with
  | [] => ret []
  | x :: l' =>
      let* y := f x (JS.Int (Z.of_nat i)) in
      let* ys := map_indexed f (S i) l' in
      ret (y :: ys)
  end.

Module VariablesArguments.
Record t : Type := mk {
  variablesReference : Z;
  filter : option Filter;
  start : option Z;
  count : option Z;
}.
End VariablesArguments.

Section VariablesRequest.

(** [limitArray(array, start, count)] of [utils.ts], which is not part of
    the sources at hand and of which the specification says nothing. *)
Variable limitArray :
  forall A : Type, list A -> option Z -> option Z -> list A.

(** [variablesRequest].  The last branch of the source, which throws on an
    [AvmValueReference] whose scope is neither ['stack'] nor ['scratch'],
    cannot be reached: [AvmValueScope] has no third value. *)
Definition variablesRequest (args : VariablesArguments.t) : M unit :=
  let* v := getHandle (VariablesArguments.variablesReference args) in
  let* variables :=
    match v with
    | Some execution =>
        let* stackValues := getStackValues in
        let* h1 := createHandle (of_scope stack) in
        let* h2 := createHandle (of_scope scratch) in
        ret [ {| DapVariable.name := "stack";
                 DapVariable.value :=
                   if Nat.eqb (length stackValues) 0 then "[]" else "[...]";
                 DapVariable.type := Some "array";
                 DapVariable.variablesReference := h1;
                 DapVariable.namedVariables := Some 1;
                 DapVariable.indexedVariables := Some (Z.of_nat (length stackValues));
                 DapVariable.presentationHint := Some data_hint;
                 DapVariable.evaluateName := None |};
              {| DapVariable.name := "scratch";
                 DapVariable.value := "[...]";
                 DapVariable.type := Some "array";
                 DapVariable.variablesReference := h2;
                 DapVariable.namedVariables := None;
                 DapVariable.indexedVariables := Some 256;
                 DapVariable.presentationHint := Some data_hint;
                 DapVariable.evaluateName := None |} ]
    | Some chain => ret []
    | Some (of_scope stack) =>
        let* stackValues := getStackValues in
        if negb (filter_is (VariablesArguments.filter args) named) then
          let* variables := map_indexed (convertAvmValue stack) 0 stackValues in
          ret (limitArray _ variables (VariablesArguments.start args)
                          (VariablesArguments.count args))
        else ret []
    | Some (of_scope scratch) =>
        let* scratchValues := getScratchValues in
        if negb (filter_is (VariablesArguments.filter args) named) then
          let* variables := map_indexed (convertAvmValue scratch) 0 scratchValues in
          ret (limitArray _ variables (VariablesArguments.start args)
                          (VariablesArguments.count args))
        else ret []
    | Some (of_reference r) =>
        let* values :=
          match AvmValueReference.scope r with
          | stack => getStackValues
          | scratch => getScratchValues
          end in
        let* toExpand := defined (array_get values (AvmValueReference.index r)) "type" in
        let variables := expandAvmValue toExpand (VariablesArguments.filter args) in
        ret (limitArray _ variables (VariablesArguments.start args)
                        (VariablesArguments.count args))
    | None => ret []
    end in
  sendResponse (body_variables variables).

End VariablesRequest.

Module EvaluateArguments.
Record t : Type := mk {
  expression : string;
}.
End EvaluateArguments.

(** [m && m.length === 2], then [m[1]]: the captured group of a match. *)
Definition group_of (m : option (list string)) : option string :=
  match m with
  | Some l => if Nat.eqb (length l) 2 then l !! 1%nat else None
  | None => None
  end.

(** [`${scope}[${index}] out of range`] *)
Definition out_of_range (scope : AvmValueScope) (index : JS.number) : string :=
  scope_name scope +:+ "[" +:+ JS.toString index +:+ "] out of range".

(** [`unknown expression: "${expression}"`] *)
Definition unknown_expression (expression : string) : string :=
  "unknown expression: " +:+ JS.dquote +:+ expression +:+ JS.dquote.

(** [reply || fallback] for a string-or-undefined [reply]. *)
Definition or_else (reply : option string) (fallback : string) : string :=
  match reply with
  | Some (String c r) => String c r
  | _ => fallback
  end.

(** [evaluateRequest]: [reply] and [rv] are the two locals of the source,
    computed by the branch for the expression that matched. *)
Definition evaluateRequest (args : EvaluateArguments.t) : M unit :=
  let expression := EvaluateArguments.expression args in
  let stackMatches := JS.stack_regex_exec expression in
  let scratchMatches := JS.scratch_regex_exec expression in
  let* (reply, rv) :=
    match group_of stackMatches, group_of scratchMatches with
    | Some g, _ =>
        let index := JS.parseInt10 g in
        let* stackValues := getStackValues in
        let '(reply, index) :=
          if JS.lt index (JS.Int 0) then
            let adjustedIndex := JS.add index (array_length stackValues) in
            if JS.lt adjustedIndex (JS.Int 0)
            then (Some (out_of_range stack index), index)
            else (None, adjustedIndex)
          else (None, index) in
        if JS.le (JS.Int 0) index && JS.lt index (array_length stackValues) then
          let* value := defined (array_get stackValues index) "type" in
          let* rv := convertAvmValue stack value index in
          ret (reply, Some rv)
        else if JS.lt index (JS.Int 0)
                && JS.ge (JS.add (array_length stackValues) index) (JS.Int 0) then
          let* value :=
            defined (array_get stackValues (JS.add (array_length stackValues) index))
                    "type" in
          let* rv := convertAvmValue stack value index in
          ret (reply, Some rv)
        else ret (Some (out_of_range stack index), None)
    | None, Some g =>
        let index := JS.parseInt10 g in
        let* scratchValues := getScratchValues in
        if JS.le (JS.Int 0) index && JS.lt index (array_length scratchValues) then
          let* value := defined (array_get scratchValues index) "type" in
          let* rv := convertAvmValue scratch value index in
          ret (None, Some rv)
        else ret (Some (out_of_range scratch index), None)
    | None, None => ret (None, None)
    end in
  match rv with
  | Some rv =>
      sendResponse (body_evaluate
        {| EvaluateBody.result := DapVariable.value rv;
           EvaluateBody.type := DapVariable.type rv;
           EvaluateBody.variablesReference := DapVariable.variablesReference rv;
           EvaluateBody.presentationHint := DapVariable.presentationHint rv |})
  | None =>
      sendResponse (body_evaluate
        {| EvaluateBody.result := or_else reply (unknown_expression expression);
           EvaluateBody.type := None;
           EvaluateBody.variablesReference := 0;
           EvaluateBody.presentationHint := None |})
  end.

(** ** Node.js [net]: what [listen] does with a port *)
Module Net.

(** [ERR_SOCKET_BAD_PORT]: the [RangeError] for a port out of range, with
    the message Node.js gives it for a number. *)
Definition ERR_SOCKET_BAD_PORT (name : string) (port : JS.number) : Error :=
  mkError (name +:+ " should be >= 0 and < 65536. Received type number ("
                +:+ JS.toString port +:+ ").").

(** [validatePort(port, 'options.port')], the first thing [listen(port)]
    does, before anything is bound: an integer from 0 to 65535 is a port,
    any other number throws. *)
Definition validatePort (port : JS.number) : Result Z :=
  match port with
  | JS.Int z =>
      if (0 <=? z) && (z <=? 65535) then Ok z
      else Throw (ERR_SOCKET_BAD_PORT "options.port" port)
  | _ => Throw (ERR_SOCKET_BAD_PORT "options.port" port)
  end.

End Net.

(** ** The process bootstrap: [run] and its [catch] *)

(** What the bootstrap starts: nothing, a server that creates a session per
    connection, or the single session on standard input and output. *)
Inductive Started : Type :=
| nothing_started
| server_listening (port : JS.number)
| stdio_session.

(** What is written to standard error: an error, printed with its message
    and stack (by [console.error], or by Node.js when nothing catches it),
    or a line of text. *)
Inductive Printed : Type :=
| printed_error (err : Error)
| printed_line (text : string).

(** How [run] ends: its promise resolves when the server or the session
    has been started; its promise is rejected (by a [throw], by the
    rejected load, or by [listen] refusing the port); or the server
    reports that it could not bind the port, and the ['error'] handler
    that [run] has installed throws that error, which nothing catches. *)
Inductive Ending : Type :=
| resolved (started : Started)
| rejected (err : Error)
| uncaught (err : Error).

(** How the process ends up: what was written to standard error, the status
    the process exits with if it exits, and what was started. *)
Module Outcome.
Record t : Type := mk {
  stderr : list Printed;
  exit_status : option Z;
  started : Started;
}.
End Outcome.

(** The process and what surrounds it: the environment variables, the
    command line, and the answer of the operating system when a server
    binds a port: the error of the ['error'] event ([EADDRINUSE],
    [EACCES], ...), or nothing when the port is bound. *)
Module Process.
Record t : Type := mk {
  env : gmap string string;
  argv : list string;
  bind : Z -> option Error;
}.
End Process.

Section Bootstrap.

(** The assets and their loader [TEALDebuggingAssets.loadFromFiles] belong
    to [utils.ts]; [path.resolve] to Node.js.  The loader may reject. *)
Variable TEALDebuggingAssets : Type.
Variable loadFromFiles : string -> string -> Result TEALDebuggingAssets.
Variable path_resolve : string -> string.

(** [args.forEach(...)]: every argument of the form [--server=<4 or 5
    digits>] sets the port. *)
Definition parse_port (args : list string) : JS.number :=
  fold_left (fun port val =>
               match JS.server_regex_exec val with
               | Some portMatch => JS.parseInt10 (nth 1 portMatch EmptyString)
               | None => port
               end) args (JS.Int 0).

(** [Net.createServer(...).listen(port)], with the ['error'] handler that
    rethrows: the port is validated, then bound. *)
Definition listen (process : Process.t) (port : JS.number) : Ending :=
  match Net.validatePort port with
  | Throw err => rejected err
  | Ok z =>
      match Process.bind process z with
      | Some err => uncaught err
      | None => resolved (server_listening port)
      end
  end.

(** [run]: what it has printed, and how it ends.  The constructor of the
    session, which belongs to the runtime, is taken to return. *)
Definition run (process : Process.t) : list Printed * Ending :=
  let simulateResponsePath := Process.env process !! "ALGORAND_SIMULATION_RESPONSE_PATH" in
  let txnGroupSourcesDescriptionPath :=
    Process.env process !! "ALGORAND_TXN_GROUP_SOURCES_DESCRIPTION_PATH" in
  let args := skipn 2 (Process.argv process) in
  let port := parse_port args in
  match simulateResponsePath with
  | None => ([], rejected (mkError "missing ALGORAND_SIMULATION_RESPONSE_PATH"))
  | Some simulateResponsePath =>
      match txnGroupSourcesDescriptionPath with
      | None =>
          ([], rejected (mkError "missing ALGORAND_TXN_GROUP_SOURCES_DESCRIPTION_PATH"))
      | Some txnGroupSourcesDescriptionPath =>
          match loadFromFiles (path_resolve simulateResponsePath)
                              (path_resolve txnGroupSourcesDescriptionPath) with
          | Throw err => ([], rejected err)
          | Ok assets =>
              if JS.lt (JS.Int 0) port
              then ([printed_line ("waiting for debug protocol on port "
                                   +:+ JS.toString port)],
                    listen process port)
              else ([], resolved stdio_session)
          end
      end
  end.

(** [run().catch((err) => { console.error(err); process.exit(1); })]; an
    error that nothing catches is printed by Node.js, which then exits with
    status 1 as well. *)
Definition main (process : Process.t) : Outcome.t :=
  match run process with
  | (printed, resolved started) =>
      {| Outcome.stderr := printed; Outcome.exit_status := None;
         Outcome.started := started |}
  | (printed, rejected err) =>
      {| Outcome.stderr := printed ++ [printed_error err];
         Outcome.exit_status := Some 1;
         Outcome.started := nothing_started |}
  | (printed, uncaught err) =>
      {| Outcome.stderr := printed ++ [printed_error err];
         Outcome.exit_status := Some 1;
         Outcome.started := nothing_started |}
  end.

End Bootstrap.

(** ** What the specification asks of [breakpointLocationsRequest] *)

(** Modelled from the spec: the source-map index is not part of the sources
    at hand.  For a file and a line range the request "returns the union of
    (line, column) pairs of all recorded entries, deduplicated, sorted by
    (line, column)".  An entry is a file with a line and a column. *)
Definition location_lt (a b : Z * Z) : bool :=
  (fst a <? fst b) || ((fst a =? fst b) && (snd a <? snd b)).

Fixpoint insert_location (x : Z * Z) (l : list (Z * Z)) : list (Z * Z) :=
  match l with
  | [] => [x]
  | y :: l' =>
      if location_lt x y then x :: l
      else if location_lt y x then y :: insert_location x l'
      else l
  end.

Definition breakpoint_locations_spec (entries : list (string * Z * Z))
    (file : string) (line endLine : Z) : list (Z * Z) :=
  fold_right insert_location []
    (omap (fun e : string * Z * Z =>
             let '(f, l, c) := e in
             if String.eqb f file && (line <=? l) && (l <=? endLine)
             then Some (l, c) else None) entries).

(** The locations the test suite expects for its source-map fixture
    ([sourcemap-test.teal] and the [lib.teal] it includes). *)
Definition sourcemap_test_entries : list (string * Z * Z) :=
  map (fun lc : Z * Z => ("sourcemap-test.teal", fst lc, snd lc))
      [(4, 1); (4, 20); (4, 27); (4, 31); (7, 5); (7, 12); (7, 19);
       (8, 5); (8, 12); (8, 19); (12, 5); (13, 5)]
  ++ map (fun lc : Z * Z => ("lib.teal", fst lc, snd lc)) [(2, 22); (2, 26)].

(** ** Vocabulary of the statements about [evaluateRequest] *)

(** The hover expression an [evaluate] argument is, if it is one: which
    array it indexes and with which number. *)
Definition hover_index (expression : string) : option (AvmValueScope * JS.number) :=
  match group_of (JS.stack_regex_exec expression),
        group_of (JS.scratch_regex_exec expression) with
  | Some g, _ => Some (stack, JS.parseInt10 g)
  | None, Some g => Some (scratch, JS.parseInt10 g)
  | None, None => None
  end.

(** Does the index address an element?  The stack is addressed by
    [-n .. n-1], the scratch space by [0 .. n-1], [n] the array's length. *)
Definition in_range (scope : AvmValueScope) (index : JS.number) (s : Session.t) : bool :=
  match scope, index with
  | stack, JS.Int z =>
      let n := Z.of_nat (length (Runtime.stackValues (Session._runtime s))) in
      (- n <=? z) && (z <? n)
  | scratch, JS.Int z =>
      let n := Z.of_nat (length (Runtime.scratchValues (Session._runtime s))) in
      (0 <=? z) && (z <? n)
  | _, _ => false
  end.

(** The session after one more response. *)
Definition respond (s : Session.t) (body : Body) : Session.t :=
  {| Session._runtime := Session._runtime s;
     Session._variableHandles := Session._variableHandles s;
     Session.sent := Session.sent s ++ [Response body];
     Session.console := Session.console s;
     Session.shutdown_called := Session.shutdown_called s |}.

(** The evaluate body that carries only a message. *)
Definition message_body (text : string) : Body :=
  body_evaluate {| EvaluateBody.result := text;
                   EvaluateBody.type := None;
                   EvaluateBody.variablesReference := 0;
                   EvaluateBody.presentationHint := None |}.

(** The evaluate body for a converted value. *)
Definition value_body (rv : DapVariable.t) : Body :=
  body_evaluate {| EvaluateBody.result := DapVariable.value rv;
                   EvaluateBody.type := DapVariable.type rv;
                   EvaluateBody.variablesReference := DapVariable.variablesReference rv;
                   EvaluateBody.presentationHint := DapVariable.presentationHint rv |}.

(** A byte string and a uint64 held as a number, for the examples. *)
Definition avm_bytes (bs : list byte) : AvmValue.t :=
  {| AvmValue.type := 1; AvmValue.bytes := Some bs; AvmValue.uint := None |}.

Definition avm_uint (n : Z) : AvmValue.t :=
  {| AvmValue.type := 2; AvmValue.bytes := None; AvmValue.uint := Some (num (JS.Int n)) |}.

(** The stack of the stack-and-scratch test at line 35 of its program:
    [10, 30, b"1!", b"5!"], with an empty scratch space. *)
Definition example_runtime : Runtime.t :=
  {| Runtime.stackValues :=
       [avm_uint 10; avm_uint 30; avm_bytes [x31; x21]; avm_bytes [x35; x21]];
     Runtime.scratchValues := [] |}.

Definition example_session : Session.t := Session.create example_runtime.

(** A process with only the sources description in its environment and a
    server port on its command line. *)
Definition example_process : Process.t :=
  {| Process.env :=
       {[ "ALGORAND_TXN_GROUP_SOURCES_DESCRIPTION_PATH" := "sources.json" ]};
     Process.argv := ["node"; "debugAdapter.js"; "--server=4711"];
     Process.bind := fun _ => None |}.

(** Is every character a decimal digit? *)
Fixpoint all_digits (s : string) : bool :=
  match s with
  | EmptyString => true
  | String c s' => JS.is_digit c && all_digits s'
  end.

(** The summary value [convertAvmValue] gives an AVM value: the bytes in
    hexadecimal after [0x], or the number in decimal. *)
Definition rendering (v : AvmValue.t) : string :=
  if AvmValue.type v =? 1
  then "0x" +:+ Buffer.hex (default [] (AvmValue.bytes v))
  else uint_toString (uint_or_zero (AvmValue.uint v)).

(** The array a hover expression indexes. *)
Definition values_of (scope : AvmValueScope) (s : Session.t) : list AvmValue.t :=
  match scope with
  | stack => Runtime.stackValues (Session._runtime s)
  | scratch => Runtime.scratchValues (Session._runtime s)
  end.

(** The position an in-range index addresses in an array of [n] elements:
    negative indices count from the end. *)
Definition position (z n : Z) : Z := if z <? 0 then z + n else z.

(** The byte string [b"1!"] at position 2 of the example stack, converted:
    the variable, and the session with the handle of the variable. *)
Definition example_converted : DapVariable.t * Session.t :=
  match convertAvmValue stack (avm_bytes [x31; x21]) (JS.Int 2) example_session with
  | Ok converted => converted
  | Throw _ => (leaf EmptyString EmptyString EmptyString, example_session)
  end.

(** A process with both variables in its environment and a server port on
    its command line. *)
Definition example_server_process : Process.t :=
  {| Process.env :=
       {[ "ALGORAND_SIMULATION_RESPONSE_PATH" := "response.json";
          "ALGORAND_TXN_GROUP_SOURCES_DESCRIPTION_PATH" := "sources.json" ]};
     Process.argv := ["node"; "debugAdapter.js"; "--server=4711"];
     Process.bind := fun _ => None |}.

(** The same process started with [--server=99999], and started with
    [--server=4711] while port 4711 is in use. *)
Definition example_bad_port_process : Process.t :=
  {| Process.env := Process.env example_server_process;
     Process.argv := ["node"; "debugAdapter.js"; "--server=99999"];
     Process.bind := fun _ => None |}.

Definition example_busy_port_process : Process.t :=
  {| Process.env := Process.env example_server_process;
     Process.argv := Process.argv example_server_process;
     Process.bind := fun port =>
       if port =? 4711
       then Some (mkError "listen EADDRINUSE: address already in use :::4711")
       else None |}.

(** ** Vocabulary of the statements about the handle table *)

(** The handle table holds exactly the handles handed out so far, which
    start at [START_HANDLE]. *)
Definition handles_wf (h : Handles.t) : Prop :=
  Handles.START_HANDLE <= Handles._nextHandle h
  /\ forall handle : Z,
       is_Some (Handles.get h handle)
       <-> Handles.START_HANDLE <= handle < Handles._nextHandle h.

(** [s'] continues [s]: the runtime is where it was, [shutdown()] has not
    been called in between, every handle of [s] stands for what it stood
    for, and the table is still well formed. *)
Definition continues (s s' : Session.t) : Prop :=
  Session._runtime s' = Session._runtime s
  /\ Session.shutdown_called s' = Session.shutdown_called s
  /\ Handles._nextHandle (Session._variableHandles s)
     <= Handles._nextHandle (Session._variableHandles s')
  /\ (forall handle : Z,
        handle < Handles._nextHandle (Session._variableHandles s) ->
        Handles.get (Session._variableHandles s') handle
        = Handles.get (Session._variableHandles s) handle)
  /\ (handles_wf (Session._variableHandles s) ->
      handles_wf (Session._variableHandles s')).

(** One request served: [s'] is the session after one of the handlers has
    returned on [s]. *)
Inductive request
    (limitArray : forall A : Type, list A -> option Z -> option Z -> list A)
    : Session.t -> Session.t -> Prop :=
| request_initialize (response_body : option Capabilities.t) (s s' : Session.t) :
    initializeRequest response_body s = Ok (tt, s') -> request limitArray s s'
| request_disconnect (args : DisconnectArguments.t) (s s' : Session.t) :
    disconnectRequest args s = Ok (tt, s') -> request limitArray s s'
| request_breakpointLocations (args : BreakpointLocationsArguments.t) (s s' : Session.t) :
    breakpointLocationsRequest args s = Ok (tt, s') -> request limitArray s s'
| request_scopes (s s' : Session.t) :
    scopesRequest s = Ok (tt, s') -> request limitArray s s'
| request_variables (args : VariablesArguments.t) (s s' : Session.t) :
    variablesRequest limitArray args s = Ok (tt, s') -> request limitArray s s'
| request_evaluate (args : EvaluateArguments.t) (s s' : Session.t) :
    evaluateRequest args s = Ok (tt, s') -> request limitArray s s'.

(** A computation of a handler after which the session continues the one it
    started on. *)
Definition keeps {A : Type} (m : M A) : Prop :=
  forall (s s' : Session.t) (a : A), m s = Ok (a, s') -> continues s s'.

(** The session with the runtime at another stop, where a step or continue
    request has taken it: the handlers read the stack and scratch values of
    [runtime]; the handle table stays, no handler ever resets it. *)
Definition at_stop (s : Session.t) (runtime : Runtime.t) : Session.t :=
  {| Session._runtime := runtime;
     Session._variableHandles := Session._variableHandles s;
     Session.sent := Session.sent s;
     Session.console := Session.console s;
     Session.shutdown_called := Session.shutdown_called s |}.

(** What [convertAvmValue] returns for the element [v] at [index] of the
    array of [scope]: the fields of the variable [rv], and for a byte
    string the reference that the handle of [rv] stands for in [s']. *)
Definition converted (scope : AvmValueScope) (v : AvmValue.t) (index : JS.number)
    (s' : Session.t) (rv : DapVariable.t) : Prop :=
  DapVariable.name rv = JS.toString index
  /\ DapVariable.value rv = rendering v
  /\ DapVariable.type rv = Some (if AvmValue.type v =? 1 then "byte[]" else "uint64")
  /\ DapVariable.evaluateName rv
     = Some (scope_name scope +:+ "[" +:+ JS.toString index +:+ "]")
  /\ (if AvmValue.type v =? 1
      then Handles.get (Session._variableHandles s') (DapVariable.variablesReference rv)
           = Some (of_reference (AvmValueReference.mk scope index))
      else DapVariable.variablesReference rv = 0).

(** ** More examples *)

(** The session after a handler has run, for the examples; the session
    itself if the handler throws. *)
Definition session_after {A : Type} (m : M A) (s : Session.t) : Session.t :=
  match m s with
  | Ok (_, s') => s'
  | Throw _ => s
  end.

(** The example session once the scopes have been asked for (handles 1000
    and 1001), and once "Execution State" has been opened (handles 1002 for
    the stack and 1003 for the scratch space). *)
Definition example_scoped : Session.t := session_after scopesRequest example_session.

Definition example_expanded : Session.t :=
  session_after
    (variablesRequest (fun _ l _ _ => l) (VariablesArguments.mk 1000 None None None))
    example_scoped.

(** A runtime with only [10] and [30] on the stack, as at an earlier
    stop. *)
Definition example_runtime_before : Runtime.t :=
  {| Runtime.stackValues := [avm_uint 10; avm_uint 30];
     Runtime.scratchValues := [] |}.

(** * Properties *)

(** Comparisons of integers as booleans, as they come out of the tests of
    the handlers. *)
Ltac cmp :=
  symmetry;
  first [apply Z.ltb_lt | apply Z.ltb_ge | apply Z.leb_le | apply Z.leb_gt]; lia.

(** ** [initializeRequest] *)

(** C6: the initialize response advertises [supportsStepBack],
    [supportsBreakpointLocationsRequest], [supportsEvaluateForHovers] and
    [supportsDelayedStackTraceLoading] as true and
    [supportsSingleThreadExecutionRequests] as false, whatever body the
    response already had; the response is followed by the initialized
    event. *)
Theorem initializeRequest_capabilities :
  forall (response_body : option Capabilities.t) (s : Session.t),
  exists (c : Capabilities.t) (s' : Session.t),
    initializeRequest response_body s = Ok (tt, s')
    /\ Session.sent s' = Session.sent s ++ [Response (body_initialize c); InitializedEvent]
    /\ Capabilities.supportsStepBack c = Some true
    /\ Capabilities.supportsBreakpointLocationsRequest c = Some true
    /\ Capabilities.supportsEvaluateForHovers c = Some true
    /\ Capabilities.supportsDelayedStackTraceLoading c = Some true
    /\ Capabilities.supportsSingleThreadExecutionRequests c = Some false.
Proof.
  intros response_body s.
  unfold initializeRequest, bind, sendResponse, sendEvent, send; cbn.
  eexists _, _. split; [reflexivity|].
  cbn. rewrite <- app_assoc. repeat split; reflexivity.
Qed.

(** ** [disconnectRequest] *)

(** C7 (what the code does): a disconnect request writes one line to the
    console; no response is sent and [shutdown] is not called, so the
    session goes on as before. *)
Theorem disconnectRequest_only_logs :
  forall (args : DisconnectArguments.t) (s : Session.t),
  exists s' : Session.t,
    disconnectRequest args s = Ok (tt, s')
    /\ Session.sent s' = Session.sent s
    /\ Session.shutdown_called s' = Session.shutdown_called s
    /\ Session._runtime s' = Session._runtime s
    /\ Session._variableHandles s' = Session._variableHandles s
    /\ exists line : string, Session.console s' = Session.console s ++ [line].
Proof.
  intros args s. unfold disconnectRequest, console_log.
  eexists. split; [reflexivity|]. cbn. repeat split. eexists. reflexivity.
Qed.

(** The path [disconnectRequest] leaves out: [shutdown], which the [SIGTERM]
    handler of [run] calls, marks the session as shut down. *)
Lemma shutdown_marks_session (s : Session.t) :
  exists s' : Session.t,
    shutdown s = Ok (tt, s') /\ Session.shutdown_called s' = true.
Proof. eexists. split; reflexivity. Qed.

(** ** [breakpointLocationsRequest] *)

(** C1 (what the code does): for a file with a path the response is the one
    location [{line: args.line}], without a column, whatever was recorded
    for the file.  On the request of the test suite (lines 0 to 100 of
    [sourcemap-test.teal]) that is the single line 0, where the
    specification asks for the twelve recorded locations. *)
Theorem breakpointLocationsRequest_echoes_line :
  (forall (args : BreakpointLocationsArguments.t) (s : Session.t),
      breakpointLocationsRequest args s =
      Ok (tt, respond s
                (body_breakpointLocations
                   (if truthy (BreakpointLocationsArguments.source_path args)
                    then [BreakpointLocation.mk
                            (BreakpointLocationsArguments.line args) None None None]
                    else []))))
  /\ breakpointLocationsRequest
       (BreakpointLocationsArguments.mk (Some "sourcemap-test.teal") 0 None (Some 100) None)
       example_session
     = Ok (tt, respond example_session
                 (body_breakpointLocations [BreakpointLocation.mk 0 None None None]))
  /\ breakpoint_locations_spec sourcemap_test_entries "sourcemap-test.teal" 0 100
     = [(4, 1); (4, 20); (4, 27); (4, 31); (7, 5); (7, 12); (7, 19);
        (8, 5); (8, 12); (8, 19); (12, 5); (13, 5)].
Proof.
  split; [|split; reflexivity].
  intros args s. unfold breakpointLocationsRequest, sendResponse, send, respond.
  destruct (truthy _); reflexivity.
Qed.

(** ** [scopesRequest] and [variablesRequest] *)

(** A handle just created stands for the value it was created with, and
    older handles keep their values. *)
Lemma getHandle_after_create (h : Handles.t) (value : HandleValue) :
  Handles.get (snd (Handles.create h value)) (Handles._nextHandle h) = Some value.
Proof. unfold Handles.get, Handles.create; cbn. apply lookup_insert_eq. Qed.

Lemma getHandle_older (h : Handles.t) (value : HandleValue) (handle : Z) :
  handle <> Handles._nextHandle h ->
  Handles.get (snd (Handles.create h value)) handle = Handles.get h handle.
Proof.
  intros Hne. unfold Handles.get, Handles.create; cbn.
  apply lookup_insert_ne. congruence.
Qed.

(** C2 (what the code does): the scopes request answers with the two scopes
    [Execution State] and [On-chain State], in this order and with fresh
    references; expanding the first gives the two children [stack] and
    [scratch]; expanding the second gives no children at all, whatever the
    trace holds. *)
Theorem scopes_and_their_children :
  forall (limitArray : forall A : Type, list A -> option Z -> option Z -> list A)
         (s : Session.t) (filter : option Filter) (start count : option Z),
  let h1 := Handles._nextHandle (Session._variableHandles s) in
  let h2 := h1 + 1 in
  exists s1 : Session.t,
    scopesRequest s = Ok (tt, s1)
    /\ Session.sent s1 =
       Session.sent s ++ [Response (body_scopes
         [Scope.mk "Execution State" h1 false; Scope.mk "On-chain State" h2 false])]
    /\ (exists (s2 : Session.t) (stackVar scratchVar : DapVariable.t),
          variablesRequest limitArray (VariablesArguments.mk h1 filter start count) s1
          = Ok (tt, s2)
          /\ Session.sent s2 =
             Session.sent s1 ++ [Response (body_variables [stackVar; scratchVar])]
          /\ DapVariable.name stackVar = "stack"
          /\ DapVariable.name scratchVar = "scratch")
    /\ variablesRequest limitArray (VariablesArguments.mk h2 filter start count) s1
       = Ok (tt, respond s1 (body_variables [])).
Proof.
  intros limitArray s filter start count h1 h2.
  unfold scopesRequest, bind, createHandle, sendResponse, send; cbn.
  eexists. split; [reflexivity|]. split; [reflexivity|].
  assert (Hget1 : forall m : gmap Z HandleValue,
             (<[h1 + 1 := chain]> (<[h1 := execution]> m)) !! h1 = Some execution).
  { intros m. rewrite lookup_insert_ne by lia. apply lookup_insert_eq. }
  assert (Hget2 : forall m : gmap Z HandleValue,
             (<[h1 + 1 := chain]> (<[h1 := execution]> m)) !! h2 = Some chain).
  { intros m. apply lookup_insert_eq. }
  split.
  - unfold variablesRequest, bind, getHandle, Handles.get; cbn.
    fold h1. rewrite Hget1. cbn.
    eexists _, _, _. split; [reflexivity|]. cbn. repeat split; reflexivity.
  - unfold variablesRequest, bind, getHandle, Handles.get; cbn.
    fold h1. fold h2. rewrite Hget2. reflexivity.
Qed.

(** ** The bootstrap *)

(** C8: when [ALGORAND_SIMULATION_RESPONSE_PATH] or
    [ALGORAND_TXN_GROUP_SOURCES_DESCRIPTION_PATH] is not in the environment,
    the process prints one error that names an unset variable, exits with
    status 1, and has started neither a server nor a session; the command
    line and the loader play no part. *)
Theorem main_missing_environment :
  forall (TEALDebuggingAssets : Type)
         (loadFromFiles : string -> string -> Result TEALDebuggingAssets)
         (path_resolve : string -> string) (process : Process.t),
    Process.env process !! "ALGORAND_SIMULATION_RESPONSE_PATH" = None
    \/ Process.env process !! "ALGORAND_TXN_GROUP_SOURCES_DESCRIPTION_PATH" = None ->
    exists name : string,
      (name = "ALGORAND_SIMULATION_RESPONSE_PATH"
       \/ name = "ALGORAND_TXN_GROUP_SOURCES_DESCRIPTION_PATH")
      /\ Process.env process !! name = None
      /\ main TEALDebuggingAssets loadFromFiles path_resolve process =
         {| Outcome.stderr := [printed_error (mkError ("missing " +:+ name))];
            Outcome.exit_status := Some 1;
            Outcome.started := nothing_started |}.
Proof.
  intros A load resolve process H.
  unfold main, run.
  destruct (Process.env process !! "ALGORAND_SIMULATION_RESPONSE_PATH") as [p1|] eqn:E1.
  - destruct H as [H|H]; [discriminate|].
    exists "ALGORAND_TXN_GROUP_SOURCES_DESCRIPTION_PATH".
    split; [by right|]. split; [exact H|].
    rewrite H. reflexivity.
  - exists "ALGORAND_SIMULATION_RESPONSE_PATH".
    split; [by left|]. split; [exact E1|]. reflexivity.
Qed.

(** A process started with only the sources description in its environment
    and a server port on its command line. *)
Lemma main_missing_environment_witness :
  exists name : string,
    (name = "ALGORAND_SIMULATION_RESPONSE_PATH"
     \/ name = "ALGORAND_TXN_GROUP_SOURCES_DESCRIPTION_PATH")
    /\ Process.env example_process !! name = None
    /\ main unit (fun _ _ => Ok tt) (fun p => p) example_process =
       {| Outcome.stderr := [printed_error (mkError ("missing " +:+ name))];
          Outcome.exit_status := Some 1;
          Outcome.started := nothing_started |}.
Proof.
  apply (main_missing_environment unit (fun _ _ => Ok tt) (fun p => p) example_process).
  left. vm_compute. reflexivity.
Defined.

(** ** Strings *)

(** The length of a concatenation. *)
Lemma string_length_append (a b : string) :
  String.length (a +:+ b) = (String.length a + String.length b)%nat.
Proof. induction a as [|c a IH]; simpl; [reflexivity | f_equal; exact IH]. Qed.

(** [s.slice(0, n)] has [n] characters when [s] has at least [n]. *)
Lemma substring_prefix_length (n : nat) (s : string) :
  (n <= String.length s)%nat -> String.length (substring 0 n s) = n.
Proof.
  revert s. induction n as [|n IH]; intros s Hn.
  - destruct s; reflexivity.
  - destruct s as [|c s]; cbn in *; [lia|]. rewrite IH; [reflexivity | lia].
Qed.

(** Appending the empty string changes nothing. *)
Lemma string_app_nil (s : string) : s +:+ EmptyString = s.
Proof.
  induction s as [|c s IH]; [reflexivity|].
  change (String c s +:+ EmptyString) with (String c (s +:+ EmptyString)).
  now rewrite IH.
Qed.

(** What [strip_prefix] returns follows the prefix, and conversely. *)
Lemma strip_prefix_inv (p s r : string) :
  JS.strip_prefix p s = Some r -> s = p +:+ r.
Proof.
  revert s. induction p as [|a p IH]; intros s H.
  - simpl in H. now injection H as ->.
  - destruct s as [|b s]; [discriminate|]. simpl in H.
    destruct (Ascii.eqb_spec a b) as [->|]; [|discriminate].
    change (String b p +:+ r) with (String b (p +:+ r)). f_equal. now apply IH.
Qed.

Lemma strip_prefix_app (p r : string) : JS.strip_prefix p (p +:+ r) = Some r.
Proof.
  induction p as [|a p IH]; [reflexivity|].
  change (String a p +:+ r) with (String a (p +:+ r)). simpl.
  now rewrite Ascii.eqb_refl.
Qed.

(** Every character [string_of_uint] writes is a digit. *)
Lemma string_of_uint_digits (d : Decimal.uint) :
  all_digits (NilEmpty.string_of_uint d) = true.
Proof. induction d; cbn; auto. Qed.

(** Digits followed by something that is no digit are split there. *)
Lemma span_digits_app (ds rest : string) :
  all_digits ds = true ->
  match rest with String c _ => JS.is_digit c = false | EmptyString => True end ->
  JS.span_digits (ds +:+ rest) = (ds, rest).
Proof.
  intros Hds Hrest. induction ds as [|c ds IH].
  - change (EmptyString +:+ rest) with rest.
    destruct rest as [|c r]; [reflexivity|]. simpl. now rewrite Hrest.
  - change (String c ds +:+ rest) with (String c (ds +:+ rest)).
    simpl in Hds. apply andb_true_iff in Hds as [Hc Hds].
    simpl. rewrite Hc, (IH Hds). reflexivity.
Qed.

Lemma span_digits_all (ds : string) :
  all_digits ds = true -> JS.span_digits ds = (ds, EmptyString).
Proof.
  intros H. rewrite <- (string_app_nil ds) at 1. now apply span_digits_app.
Qed.

(** [span_digits] splits its argument, and the first part is all digits. *)
Lemma span_digits_inv (s ds rest : string) :
  JS.span_digits s = (ds, rest) ->
  s = ds +:+ rest /\ all_digits ds = true.
Proof.
  revert ds rest. induction s as [|c s IH]; intros ds rest H; simpl in H.
  - injection H as <- <-. split; reflexivity.
  - destruct (JS.is_digit c) eqn:Hc.
    + destruct (JS.span_digits s) as [ds' rest'] eqn:E.
      injection H as <- <-. destruct (IH _ _ eq_refl) as [-> Hd].
      split; [reflexivity|]. simpl. now rewrite Hc, Hd.
    + injection H as <- <-. split; reflexivity.
Qed.

(** A digit is neither white space nor a sign. *)
Lemma digit_is_no_sign_or_space (c : ascii) :
  JS.is_digit c = true ->
  JS.is_space c = false /\ Ascii.eqb c "-" = false /\ Ascii.eqb c "+" = false.
Proof.
  intros Hc. split; [|split].
  - revert Hc. unfold JS.is_digit, JS.is_space.
    generalize (N_of_ascii c). intros n H. apply andb_true_iff in H as [H1 H2].
    apply N.leb_le in H1. apply N.leb_le in H2.
    apply orb_false_iff. split; [apply andb_false_iff; right; apply N.leb_gt; lia
                                | apply N.eqb_neq; lia].
  - destruct (Ascii.eqb_spec c "-") as [->|]; [discriminate Hc | reflexivity].
  - destruct (Ascii.eqb_spec c "+") as [->|]; [discriminate Hc | reflexivity].
Qed.

(** The digits of a positive number: not empty, all digits, and read back
    as the number. *)
Lemma digits_of_positive (p : positive) :
  let ds := NilEmpty.string_of_uint (Pos.to_uint p) in
  NilZero.string_of_uint (Pos.to_uint p) = ds
  /\ ds <> EmptyString
  /\ all_digits ds = true
  /\ JS.digits_value ds = Z.pos p.
Proof.
  intros ds. pose proof (DecimalPos.Unsigned.to_uint_nonnil p) as Hnil.
  split; [|split; [|split]].
  - unfold ds. destruct (Pos.to_uint p); [contradiction | reflexivity..].
  - unfold ds. destruct (Pos.to_uint p); [contradiction | discriminate..].
  - apply string_of_uint_digits.
  - unfold JS.digits_value, ds. rewrite NilEmpty.usu.
    unfold Z.of_uint. now rewrite DecimalPos.Unsigned.of_to.
Qed.

(** The decimal digits of a number that is not negative. *)
Lemma decimal_nonnegative (i : Z) :
  0 <= i -> JS.decimal i <> EmptyString /\ all_digits (JS.decimal i) = true.
Proof.
  intros Hi. unfold JS.decimal. destruct i as [|p|p]; [split; [discriminate|reflexivity]| |lia].
  simpl Z.to_int. simpl NilZero.string_of_int.
  destruct (digits_of_positive p) as (-> & Hne & Hd & _). split; assumption.
Qed.

(** [parseInt] reads back the decimal digits of an integer, up to rounding. *)
Lemma parseInt10_decimal (i : Z) : JS.parseInt10 (JS.decimal i) = JS.of_Z i.
Proof.
  unfold JS.decimal. destruct i as [|p|p]; [reflexivity| |]; simpl Z.to_int;
    destruct (digits_of_positive p) as (Hz & Hne & Hd & Hv);
    simpl NilZero.string_of_int; rewrite Hz;
    set (ds := NilEmpty.string_of_uint (Pos.to_uint p)) in *.
  - unfold JS.parseInt10.
    destruct ds as [|c ds'] eqn:E; [contradiction|].
    pose proof Hd as Hd0. simpl in Hd0. apply andb_true_iff in Hd0 as [Hc Hd'].
    destruct (digit_is_no_sign_or_space c Hc) as (Hsp & Hm & Hp).
    simpl JS.trim_start. rewrite Hsp, Hm, Hp, (span_digits_all _ Hd), Hv.
    reflexivity.
  - unfold JS.parseInt10. simpl JS.trim_start. cbn [Ascii.eqb Bool.eqb].
    rewrite (span_digits_all _ Hd), Hv.
    destruct ds; [contradiction | reflexivity].
Qed.

(** ** The hover expressions *)

(** Digits and a closing bracket: the group is the digits. *)
Lemma index_group_digits (signed : bool) (ds : string) :
  ds <> EmptyString -> all_digits ds = true ->
  JS.index_group signed (ds +:+ "]") = Some ds.
Proof.
  intros Hne Hd. unfold JS.index_group.
  destruct ds as [|c ds']; [contradiction|].
  pose proof Hd as Hd0. simpl in Hd0. apply andb_true_iff in Hd0 as [Hc Hd'].
  destruct (digit_is_no_sign_or_space c Hc) as (_ & Hm & _).
  change (String c ds' +:+ "]") with (String c (ds' +:+ "]")).
  cbv beta iota. rewrite Hm, andb_false_r.
  change (String c (ds' +:+ "]")) with (String c ds' +:+ "]").
  rewrite (span_digits_app _ "]" Hd); reflexivity.
Qed.

(** A minus sign, digits and a closing bracket, where a sign may stand. *)
Lemma index_group_minus (ds : string) :
  ds <> EmptyString -> all_digits ds = true ->
  JS.index_group true (String "-" ds +:+ "]") = Some (String "-" ds).
Proof.
  intros Hne Hd. unfold JS.index_group.
  change (String "-" ds +:+ "]") with (String "-" (ds +:+ "]")).
  cbv beta iota. cbn [Ascii.eqb Bool.eqb andb].
  rewrite (span_digits_app _ "]" Hd); [|reflexivity].
  destruct ds; [contradiction | reflexivity].
Qed.

(** What [index_group] accepts: an optional sign (if signs are allowed),
    one digit or more, and the closing bracket at the end of the input. *)
Lemma index_group_inv (signed : bool) (s g : string) :
  JS.index_group signed s = Some g ->
  exists sign ds : string,
    (sign = EmptyString \/ (signed = true /\ sign = "-"))
    /\ ds <> EmptyString /\ all_digits ds = true
    /\ s = sign +:+ ds +:+ "]" /\ g = sign +:+ ds.
Proof.
  unfold JS.index_group. intros H.
  assert (Hgen : forall sign s1 : string,
             (let '(ds, rest) := JS.span_digits s1 in
              match ds, rest with
              | String _ _, String "]" EmptyString => Some (sign +:+ ds)
              | _, _ => None
              end) = Some g ->
             exists ds : string,
               ds <> EmptyString /\ all_digits ds = true
               /\ s1 = ds +:+ "]" /\ g = sign +:+ ds).
  { intros sign s1. destruct (JS.span_digits s1) as [ds rest] eqn:E.
    destruct (span_digits_inv _ _ _ E) as [-> Hd].
    destruct ds as [|c ds]; [discriminate|].
    destruct rest as [|c' rest]; [discriminate|].
    destruct (Ascii.eqb_spec c' "]") as [->|Hne].
    - destruct rest; [|discriminate]. intros [= <-].
      exists (String c ds). repeat split; [discriminate | exact Hd].
    - intros Hg. exfalso. revert Hg.
      destruct c' as [[] [] [] [] [] [] [] []]; try discriminate.
      now contradiction Hne. }
  destruct s as [|c r].
  - destruct (Hgen EmptyString EmptyString H) as (ds & H1 & H2 & H3 & H4).
    exists EmptyString, ds. repeat split; auto.
  - destruct (signed && Ascii.eqb c "-") eqn:Es.
    + apply andb_true_iff in Es as [-> Ec].
      destruct (Ascii.eqb_spec c "-") as [->|]; [|discriminate].
      destruct (Hgen "-" r H) as (ds & H1 & H2 & -> & H4).
      exists "-", ds. repeat split; auto.
    + destruct (Hgen EmptyString (String c r) H) as (ds & H1 & H2 & H3 & H4).
      exists EmptyString, ds. repeat split; auto.
Qed.

(** X1: the two matchers accept exactly the languages of the regular
    expressions of [evaluateRequest]: a stack expression is [stack], an
    opening bracket, an optional minus sign, one digit or more and a closing
    bracket, and the group captures the sign with the digits; a scratch
    expression is [scratch], an opening bracket, one digit or more and a
    closing bracket, and the group captures the digits.  The match array has
    the whole input first. *)
Theorem hover_regex_language :
  forall (s : string) (m : list string),
    (JS.stack_regex_exec s = Some m <->
     exists sign ds : string,
       (sign = EmptyString \/ sign = "-")
       /\ ds <> EmptyString /\ all_digits ds = true
       /\ s = "stack[" +:+ sign +:+ ds +:+ "]" /\ m = [s; sign +:+ ds])
    /\ (JS.scratch_regex_exec s = Some m <->
        exists ds : string,
          ds <> EmptyString /\ all_digits ds = true
          /\ s = "scratch[" +:+ ds +:+ "]" /\ m = [s; ds]).
Proof.
  intros s m. split; split.
  - unfold JS.stack_regex_exec. intros H.
    destruct (JS.strip_prefix "stack[" s) as [rest|] eqn:Ep; [|discriminate].
    destruct (JS.index_group true rest) as [g|] eqn:Eg; [|discriminate].
    injection H as <-. apply strip_prefix_inv in Ep.
    destruct (index_group_inv _ _ _ Eg) as (sign & ds & Hs & Hne & Hd & -> & ->).
    exists sign, ds. repeat split; auto. destruct Hs as [?|[_ ?]]; auto.
  - intros (sign & ds & Hs & Hne & Hd & -> & ->).
    unfold JS.stack_regex_exec. rewrite strip_prefix_app.
    destruct Hs as [->| ->].
    + change (EmptyString +:+ ds +:+ "]") with (ds +:+ "]").
      now rewrite index_group_digits.
    + change ("-" +:+ ds +:+ "]") with (String "-" ds +:+ "]").
      now rewrite index_group_minus.
  - unfold JS.scratch_regex_exec. intros H.
    destruct (JS.strip_prefix "scratch[" s) as [rest|] eqn:Ep; [|discriminate].
    destruct (JS.index_group false rest) as [g|] eqn:Eg; [|discriminate].
    injection H as <-. apply strip_prefix_inv in Ep.
    destruct (index_group_inv _ _ _ Eg) as (sign & ds & Hs & Hne & Hd & -> & ->).
    destruct Hs as [->|[? _]]; [|discriminate].
    exists ds. repeat split; auto.
  - intros (ds & Hne & Hd & -> & ->).
    unfold JS.scratch_regex_exec. rewrite strip_prefix_app.
    now rewrite index_group_digits.
Qed.

(** The decimal digits of an integer between the brackets of [stack[...]]
    match the stack expression, with the digits as the group. *)
Lemma stack_regex_decimal (i : Z) :
  group_of (JS.stack_regex_exec ("stack[" +:+ JS.decimal i +:+ "]")) = Some (JS.decimal i).
Proof.
  unfold JS.stack_regex_exec. rewrite strip_prefix_app.
  assert (H : JS.index_group true (JS.decimal i +:+ "]") = Some (JS.decimal i));
    [|rewrite H; reflexivity].
  destruct (Z.leb_spec 0 i) as [Hi|Hi].
  - destruct (decimal_nonnegative i Hi) as [Hne Hd]. now apply index_group_digits.
  - unfold JS.decimal. destruct i as [|p|p]; [lia | lia |].
    simpl Z.to_int. simpl NilZero.string_of_int.
    destruct (digits_of_positive p) as (-> & Hne & Hd & _).
    now apply index_group_minus.
Qed.

(** The canonical spelling of a stack expression, and the number it
    indexes with. *)
Lemma hover_index_stack_decimal (i : Z) :
  hover_index ("stack[" +:+ JS.decimal i +:+ "]") = Some (stack, JS.of_Z i).
Proof.
  unfold hover_index. now rewrite stack_regex_decimal, parseInt10_decimal.
Qed.

(** The canonical spelling of a scratch expression. *)
Lemma hover_index_scratch_decimal (i : Z) :
  0 <= i ->
  hover_index ("scratch[" +:+ JS.decimal i +:+ "]") = Some (scratch, JS.of_Z i).
Proof.
  intros Hi. destruct (decimal_nonnegative i Hi) as [Hne Hd].
  unfold hover_index.
  change (JS.stack_regex_exec ("scratch[" +:+ JS.decimal i +:+ "]")) with (@None (list string)).
  unfold JS.scratch_regex_exec. rewrite strip_prefix_app, index_group_digits by assumption.
  cbn [group_of length Nat.eqb]. cbn. now rewrite parseInt10_decimal.
Qed.

(** ** Addresses have 58 characters *)

(** A group is written with eight characters, padding included. *)
Lemma group_chars_length (bs : list byte) (k : nat) :
  String.length (Algosdk.group_chars bs k) = 8%nat.
Proof. reflexivity. Qed.

(** Five bytes give eight characters; what is left over gives eight more. *)
Lemma base32_encode_length (q r : nat) (bs : list byte) :
  (r < 5)%nat -> length bs = (5 * q + r)%nat ->
  String.length (Algosdk.base32_encode bs)
  = (8 * q + (if Nat.eqb r 0 then 0 else 8))%nat.
Proof.
  intros Hr. revert bs. induction q as [|q IH]; intros bs Hlen.
  - destruct bs as [|a [|b [|c [|d [|e rest]]]]]; cbn in Hlen;
      try (exfalso; lia);
      (destruct r as [|r]; [try discriminate; reflexivity|]);
      try discriminate; reflexivity.
  - destruct bs as [|a [|b [|c [|d [|e rest]]]]]; cbn in Hlen; try (exfalso; lia).
    change (Algosdk.base32_encode (a :: b :: c :: d :: e :: rest))
      with (Algosdk.group_chars [a; b; c; d; e] 8 +:+ Algosdk.base32_encode rest).
    rewrite string_length_append, group_chars_length, (IH rest) by lia. lia.
Qed.

(** The digest has 32 bytes. *)
Lemma genericHash_length (msg : list byte) :
  length (Algosdk.genericHash msg) = 32%nat.
Proof. unfold Algosdk.genericHash. rewrite !length_app. reflexivity. Qed.

(** The address of a 32-byte key has 58 characters. *)
Lemma encodeAddress_length (address : list byte) :
  length address = 32%nat -> String.length (Algosdk.encodeAddress address) = 58%nat.
Proof.
  intros Hlen. unfold Algosdk.encodeAddress.
  apply substring_prefix_length.
  rewrite (base32_encode_length 7 1); [cbn; lia | lia |].
  rewrite length_app, Hlen. unfold Algosdk.slice.
  rewrite length_take, length_drop, genericHash_length. reflexivity.
Qed.

(** ** [expandAvmValue] *)

(** C9: without a filter, a byte string of length 0 (absent or empty bytes)
    expands to the single child [length] with value ["0"]; a value whose
    type is not 1, a uint64, expands to no children under any filter. *)
Theorem expandAvmValue_empty_and_uint :
  forall (v : AvmValue.t) (filter : option Filter),
    (AvmValue.type v = 1 -> length (default [] (AvmValue.bytes v)) = 0%nat ->
     expandAvmValue v None = [leaf "length" "number" "0"])
    /\ (AvmValue.type v <> 1 -> expandAvmValue v filter = []).
Proof.
  intros v filter. split.
  - intros Ht Hl. unfold expandAvmValue. rewrite Ht. cbn.
    destruct (default [] (AvmValue.bytes v)) as [|b bs]; [|discriminate].
    reflexivity.
  - intros Ht. unfold expandAvmValue.
    destruct (Z.eqb_spec (AvmValue.type v) 1) as [E|E]; [contradiction|reflexivity].
Qed.

(** The byte string with no bytes, and the uint64 10 under a filter. *)
Lemma expandAvmValue_empty_and_uint_witness :
  expandAvmValue (avm_bytes []) None = [leaf "length" "number" "0"]
  /\ expandAvmValue (avm_uint 10) (Some named) = [].
Proof.
  split.
  - apply (proj1 (expandAvmValue_empty_and_uint (avm_bytes []) None)); reflexivity.
  - apply (proj2 (expandAvmValue_empty_and_uint (avm_uint 10) (Some named))).
    cbn. discriminate.
Defined.

(** C3 (as the code has it): without a filter, a byte string that is not
    empty expands, in this order, to [hex] (lower-case digits, no [0x] in
    front), [base64], [ascii] exactly when every byte is printable ASCII,
    [address] exactly when there are 32 bytes (an address of 58
    characters), [length], and one child per byte.  For [b"1!"] these are
    [hex = 3121], [base64 = MSE=], [ascii = 1!], [length = 2], [0 = 49] and
    [1 = 33], and there is no address. *)
Theorem expandAvmValue_bytes :
  forall v : AvmValue.t,
  let bytes := default [] (AvmValue.bytes v) in
  AvmValue.type v = 1 -> bytes <> [] ->
  expandAvmValue v None =
    [leaf "hex" "string" (Buffer.hex bytes);
     leaf "base64" "string" (Buffer.base64 bytes)]
    ++ (if Utils.isAsciiPrintable bytes
        then [leaf "ascii" "string" (Buffer.ascii bytes)] else [])
    ++ (if Nat.eqb (length bytes) 32
        then [leaf "address" "string" (Algosdk.encodeAddress bytes)] else [])
    ++ [leaf "length" "number" (JS.toString (JS.Int (Z.of_nat (length bytes))))]
    ++ imap (fun i b => leaf (JS.toString (JS.Int (Z.of_nat i))) "uint8"
                             (JS.toString (JS.Int (Z.of_N (Byte.to_N b))))) bytes
  /\ (Utils.isAsciiPrintable bytes = true <->
      Forall (fun b => (32 <= Byte.to_N b <= 126)%N) bytes)
  /\ (length bytes = 32%nat -> String.length (Algosdk.encodeAddress bytes) = 58%nat)
  /\ expandAvmValue (avm_bytes [x31; x21]) None =
     [leaf "hex" "string" "3121"; leaf "base64" "string" "MSE=";
      leaf "ascii" "string" "1!"; leaf "length" "number" "2";
      leaf "0" "uint8" "49"; leaf "1" "uint8" "33"].
Proof.
  intros v bytes Ht Hne. split; [|split; [|split]].
  - unfold expandAvmValue. rewrite Ht. cbn. fold bytes.
    destruct bytes as [|b bs] eqn:E; [contradiction|].
    rewrite <- E. replace (Nat.eqb (length bytes) 0) with false by (rewrite E; reflexivity).
    unfold array_length.
    destruct (Utils.isAsciiPrintable bytes), (Nat.eqb (length bytes) 32); reflexivity.
  - unfold Utils.isAsciiPrintable. rewrite forallb_forall, List.Forall_forall.
    split; intros H b Hb; specialize (H b Hb).
    + apply andb_true_iff in H as [H1 H2].
      apply N.leb_le in H1. apply N.leb_le in H2. lia.
    + apply andb_true_iff. split; apply N.leb_le; lia.
  - apply encodeAddress_length.
  - vm_compute. reflexivity.
Qed.

(** The byte string [b"1!"] of the stack-and-scratch test. *)
Lemma expandAvmValue_bytes_witness :
  expandAvmValue (avm_bytes [x31; x21]) None =
  [leaf "hex" "string" (Buffer.hex [x31; x21]);
   leaf "base64" "string" (Buffer.base64 [x31; x21])]
  ++ (if Utils.isAsciiPrintable [x31; x21]
      then [leaf "ascii" "string" (Buffer.ascii [x31; x21])] else [])
  ++ (if Nat.eqb (length [x31; x21]) 32
      then [leaf "address" "string" (Algosdk.encodeAddress [x31; x21])] else [])
  ++ [leaf "length" "number" (JS.toString (JS.Int (Z.of_nat (length [x31; x21]))))]
  ++ imap (fun i b => leaf (JS.toString (JS.Int (Z.of_nat i))) "uint8"
                           (JS.toString (JS.Int (Z.of_N (Byte.to_N b))))) [x31; x21].
Proof.
  refine (proj1 (expandAvmValue_bytes (avm_bytes [x31; x21]) _ _));
    [reflexivity | discriminate].
Defined.

(** C3 as the specification words it fails on the code: the [hex] child of
    [b"1!"] is ["3121"], not ["0x3121"]; the empty byte string, all of whose
    bytes are printable, has no [ascii] child (nor [hex], nor [base64]); and
    under the filter ['indexed'] the renderings and the length are left
    out. *)
Lemma expandAvmValue_hex_has_no_prefix :
  map (fun c => (DapVariable.name c, DapVariable.value c))
      (expandAvmValue (avm_bytes [x31; x21]) None)
  = [("hex", "3121"); ("base64", "MSE="); ("ascii", "1!"); ("length", "2");
     ("0", "49"); ("1", "33")]
  /\ ~ In ("hex", "0x3121")
        (map (fun c => (DapVariable.name c, DapVariable.value c))
             (expandAvmValue (avm_bytes [x31; x21]) None))
  /\ Utils.isAsciiPrintable [] = true
  /\ map DapVariable.name (expandAvmValue (avm_bytes []) None) = ["length"]
  /\ map DapVariable.name (expandAvmValue (avm_bytes [x31; x21]) (Some indexed))
     = ["0"; "1"].
Proof.
  split; [vm_compute; reflexivity|]. split; [|repeat split; reflexivity].
  vm_compute. intros H.
  repeat (destruct H as [H|H]; [discriminate H|]). exact H.
Qed.

(** X2: the filter of a variables request splits the children of a byte
    string: ['indexed'] keeps exactly the children for the bytes, one per
    byte, and the children without a filter are those under ['named']
    followed by those under ['indexed']. *)
Theorem expandAvmValue_filters :
  forall v : AvmValue.t,
  let bytes := default [] (AvmValue.bytes v) in
  AvmValue.type v = 1 ->
  expandAvmValue v (Some indexed) =
    imap (fun i b => leaf (JS.toString (JS.Int (Z.of_nat i))) "uint8"
                          (JS.toString (JS.Int (Z.of_N (Byte.to_N b))))) bytes
  /\ expandAvmValue v None
     = expandAvmValue v (Some named) ++ expandAvmValue v (Some indexed)
  /\ length (expandAvmValue v (Some indexed)) = length bytes.
Proof.
  intros v bytes Ht.
  assert (H1 : expandAvmValue v (Some indexed) =
    imap (fun i b => leaf (JS.toString (JS.Int (Z.of_nat i))) "uint8"
                          (JS.toString (JS.Int (Z.of_N (Byte.to_N b))))) bytes).
  { unfold expandAvmValue. rewrite Ht. reflexivity. }
  split; [exact H1|]. split.
  - rewrite H1. unfold expandAvmValue. rewrite Ht. reflexivity.
  - rewrite H1. apply length_imap.
Qed.

(** The byte string [b"1!"] under both filters. *)
Lemma expandAvmValue_filters_witness :
  expandAvmValue (avm_bytes [x31; x21]) (Some indexed) =
    imap (fun i b => leaf (JS.toString (JS.Int (Z.of_nat i))) "uint8"
                          (JS.toString (JS.Int (Z.of_N (Byte.to_N b))))) [x31; x21]
  /\ expandAvmValue (avm_bytes [x31; x21]) None
     = expandAvmValue (avm_bytes [x31; x21]) (Some named)
       ++ expandAvmValue (avm_bytes [x31; x21]) (Some indexed)
  /\ length (expandAvmValue (avm_bytes [x31; x21]) (Some indexed)) = 2%nat.
Proof.
  apply (expandAvmValue_filters (avm_bytes [x31; x21])). reflexivity.
Defined.

(** ** Doubles that hold integers *)

(** Below [2^53] nothing is rounded. *)
Lemma round_pos_small (p : Z) : p < 2 ^ 53 -> JS.round_pos p = p.
Proof.
  intros H. unfold JS.round_pos.
  destruct (Z.ltb_spec p (2 ^ 53)); [reflexivity | lia].
Qed.

(** Rounding a positive integer gives a positive integer. *)
Lemma round_pos_positive (p : Z) : 0 < p -> 0 < JS.round_pos p.
Proof.
  intros Hp. unfold JS.round_pos.
  destruct (Z.ltb_spec p (2 ^ 53)) as [|Hge]; [assumption|].
  set (e := Z.log2 p - 52).
  assert (He : 0 <= e).
  { assert (53 <= Z.log2 p) by (apply Z.log2_le_pow2; lia). lia. }
  assert (Hpow : 0 < 2 ^ e) by (apply Z.pow_pos_nonneg; lia).
  assert (Hle : 2 ^ e <= p).
  { transitivity (2 ^ Z.log2 p);
      [apply Z.pow_le_mono_r; lia | apply Z.log2_spec; lia]. }
  assert (Hq : 1 <= p / 2 ^ e) by (apply Z.div_le_lower_bound; lia).
  destruct (_ || _); nia.
Qed.

(** Integers below [2^53] in absolute value are doubles. *)
Lemma of_Z_small (z : Z) : Z.abs z < 2 ^ 53 -> JS.of_Z z = JS.Int z.
Proof.
  intros H. unfold JS.of_Z. rewrite round_pos_small by assumption.
  assert (Hpow : 2 ^ 53 < 2 ^ 1024) by (apply Z.pow_lt_mono_r; lia).
  destruct (Z.leb_spec (2 ^ 1024) (Z.abs z)) as [Hbig|_]; [lia|].
  f_equal. destruct z; cbn; try reflexivity; now rewrite Pos.mul_1_l.
Qed.

(** Rounding keeps the sign. *)
Lemma of_Z_sign (x : Z) :
  match JS.of_Z x with
  | JS.Int y => (x < 0 -> y < 0) /\ (0 <= x -> 0 <= y)
  | JS.PosInfinity => 0 <= x
  | JS.NegInfinity => x < 0
  | JS.NaN => False
  end.
Proof.
  unfold JS.of_Z.
  destruct (Z.leb_spec (2 ^ 1024) (JS.round_pos (Z.abs x))) as [_|_].
  - destruct (Z.ltb_spec x 0); lia.
  - split; intros Hx.
    + pose proof (round_pos_positive (Z.abs x)). nia.
    + destruct (Z.eq_dec x 0) as [->|Hne]; [cbn; lia|].
      pose proof (round_pos_positive (Z.abs x)). nia.
Qed.

(** A negative integer stays below zero. *)
Lemma of_Z_negative (x : Z) :
  x < 0 ->
  JS.lt (JS.of_Z x) (JS.Int 0) = true /\ JS.le (JS.Int 0) (JS.of_Z x) = false.
Proof.
  intros Hx. pose proof (of_Z_sign x) as H.
  destruct (JS.of_Z x) as [y| | |]; cbn; [|lia|split; reflexivity|contradiction].
  destruct H as [H _]. specialize (H Hx). split; [apply Z.ltb_lt | apply Z.leb_gt]; lia.
Qed.

(** The comparisons on doubles that hold integers. *)
Lemma lt_Int (a b : Z) : JS.lt (JS.Int a) (JS.Int b) = (a <? b).
Proof. reflexivity. Qed.

Lemma le_Int (a b : Z) : JS.le (JS.Int a) (JS.Int b) = (a <=? b).
Proof. reflexivity. Qed.

(** Addition commutes, rounding included. *)
Lemma number_add_comm (a b : JS.number) : JS.add a b = JS.add b a.
Proof. destruct a, b; cbn; try reflexivity. now rewrite Z.add_comm. Qed.

(** [a < b] excludes [b <= a]. *)
Lemma lt_not_le (a b : JS.number) : JS.lt a b = true -> JS.le b a = false.
Proof.
  destruct a, b; cbn; try discriminate; try reflexivity.
  intros H. apply Z.ltb_lt in H. apply Z.leb_gt. lia.
Qed.

(** ** [convertAvmValue] *)

(** [convertAvmValue] never throws; it sends nothing and leaves the runtime
    alone. *)
Lemma convertAvmValue_returns (scope : AvmValueScope) (v : AvmValue.t)
    (index : JS.number) (s : Session.t) :
  exists (rv : DapVariable.t) (s' : Session.t),
    convertAvmValue scope v index s = Ok (rv, s')
    /\ Session.sent s' = Session.sent s
    /\ Session._runtime s' = Session._runtime s.
Proof.
  unfold convertAvmValue. destruct (AvmValue.type v =? 1).
  - unfold bind, createHandle, ret; cbn. eexists _, _. repeat split.
  - unfold ret. eexists _, _. repeat split.
Qed.

(** The value and the name of the converted variable. *)
Lemma convertAvmValue_value (scope : AvmValueScope) (v : AvmValue.t)
    (index : JS.number) (s s' : Session.t) (rv : DapVariable.t) :
  convertAvmValue scope v index s = Ok (rv, s') ->
  DapVariable.value rv = rendering v
  /\ DapVariable.name rv = JS.toString index.
Proof.
  unfold convertAvmValue, rendering. destruct (AvmValue.type v =? 1).
  - unfold bind, createHandle, ret; cbn. intros [= <- _]. split; reflexivity.
  - unfold ret. intros [= <- _]. split; reflexivity.
Qed.

(** An index that passes the range test of the source addresses an
    element. *)
Lemma array_get_defined {A : Type} (l : list A) (index : JS.number) :
  JS.le (JS.Int 0) index && JS.lt index (array_length l) = true ->
  is_Some (array_get l index).
Proof.
  destruct index as [z| | |]; cbn; try discriminate.
  intros H. apply andb_true_iff in H as [H1 H2].
  rewrite H1. apply lookup_lt_is_Some. apply Z.leb_le in H1. apply Z.ltb_lt in H2. lia.
Qed.

(** ** [evaluateRequest] *)

(** An out-of-range message is never empty, so it is the reply. *)
Lemma or_else_out_of_range (scope : AvmValueScope) (index : JS.number)
    (fallback : string) :
  or_else (Some (out_of_range scope index)) fallback = out_of_range scope index.
Proof. destruct scope; reflexivity. Qed.

(** A hover expression whose index addresses no element is answered with
    the out-of-range message. *)
Lemma evaluate_out_of_range_general (s : Session.t) (expression : string)
    (scope : AvmValueScope) (index : JS.number) :
  hover_index expression = Some (scope, index) ->
  in_range scope index s = false ->
  evaluateRequest (EvaluateArguments.mk expression) s =
  Ok (tt, respond s (message_body (out_of_range scope index))).
Proof.
  intros Hh Hr. unfold evaluateRequest.
  cbn [EvaluateArguments.expression].
  unfold hover_index in Hh. revert Hh.
  assert (Hdone : forall reply : string,
             (let* (reply0, rv) := ret (Some (out_of_range scope index), None) in
              match rv with
              | Some rv => sendResponse (value_body rv)
              | None => sendResponse (message_body (or_else reply0 reply))
              end) s
             = Ok (tt, respond s (message_body (out_of_range scope index)))).
  { intros reply. unfold bind, ret. now rewrite or_else_out_of_range. }
  destruct (group_of (JS.stack_regex_exec expression)) as [g|] eqn:Eg.
  - intros Hh. injection Hh as <- <-.
    generalize dependent (JS.parseInt10 g). intros index Hr Hdone.
    unfold bind at 1. unfold bind at 1. unfold getStackValues.
    unfold in_range in Hr.
    set (stackValues := Runtime.stackValues (Session._runtime s)) in *.
    set (n := Z.of_nat (length stackValues)) in *.
    destruct index as [z| | |]; try exact (Hdone _).
    unfold array_length. fold n. cbn [JS.add]. rewrite !lt_Int.
    destruct (Z.ltb_spec z 0) as [Hneg|Hpos].
    + assert (Hsum : z + n < 0).
      { destruct (Z.leb_spec (- n) z); [|lia].
        destruct (Z.ltb_spec z n); [discriminate|lia]. }
      destruct (of_Z_negative _ Hsum) as [H1 H2]. rewrite H1. cbn beta iota.
      rewrite !le_Int, !lt_Int.
      replace (0 <=? z) with false by cmp.
      unfold JS.ge. rewrite Z.add_comm in H2. rewrite H2, andb_false_r.
      exact (Hdone _).
    + cbn beta iota. rewrite !le_Int, !lt_Int.
      replace (z <? n) with false.
      2:{ destruct (Z.leb_spec (- n) z); [|lia]. cbn in Hr. congruence. }
      replace (z <? 0) with false by cmp.
      rewrite andb_false_r. exact (Hdone _).
  - destruct (group_of (JS.scratch_regex_exec expression)) as [g|] eqn:Eg'; [|discriminate].
    intros Hh. injection Hh as <- <-.
    generalize dependent (JS.parseInt10 g). intros index Hr Hdone.
    unfold bind at 1. unfold bind at 1. unfold getScratchValues.
    unfold in_range in Hr.
    set (scratchValues := Runtime.scratchValues (Session._runtime s)) in *.
    destruct index as [z| | |]; try exact (Hdone _).
    unfold array_length. rewrite le_Int, lt_Int, Hr. exact (Hdone _).
Qed.

(** An expression that matches neither regular expression. *)
Lemma evaluate_no_match (s : Session.t) (expression : string) :
  JS.stack_regex_exec expression = None ->
  JS.scratch_regex_exec expression = None ->
  evaluateRequest (EvaluateArguments.mk expression) s =
  Ok (tt, respond s (message_body (unknown_expression expression))).
Proof.
  intros H1 H2. unfold evaluateRequest. cbn [EvaluateArguments.expression].
  rewrite H1, H2. reflexivity.
Qed.

(** The tail of [evaluateRequest] once [reply] and [rv] are known. *)
Lemma evaluate_tail (expression : string) (m : M (option string * option DapVariable.t))
    (s : Session.t) :
  (exists reply rv s', m s = Ok ((reply, rv), s') /\ Session.sent s' = Session.sent s) ->
  exists (body : EvaluateBody.t) (s' : Session.t),
    (let* (reply, rv) := m in
     match rv with
     | Some rv => sendResponse (value_body rv)
     | None => sendResponse (message_body (or_else reply (unknown_expression expression)))
     end) s = Ok (tt, s')
    /\ Session.sent s' = Session.sent s ++ [Response (body_evaluate body)].
Proof.
  intros (reply & rv & s' & Hm & Hsent). unfold bind. rewrite Hm.
  destruct rv as [rv|]; unfold sendResponse, send; eexists _, _;
    (split; [reflexivity|]); cbn; rewrite Hsent; reflexivity.
Qed.

(** Reading an element that the guard of the source found in range, and
    converting it. *)
Lemma convert_element (scope : AvmValueScope) (values : list AvmValue.t)
    (at_index index : JS.number) (reply : option string) (s : Session.t) :
  JS.le (JS.Int 0) at_index && JS.lt at_index (array_length values) = true ->
  exists rv s',
    (let* value := defined (array_get values at_index) "type" in
     let* rv := convertAvmValue scope value index in
     ret (reply, Some rv)) s = Ok ((reply, rv), s')
    /\ Session.sent s' = Session.sent s.
Proof.
  intros Hin. destruct (array_get_defined values at_index Hin) as [v Hv].
  destruct (convertAvmValue_returns scope v index s) as (rv & s' & Hc & Hs & _).
  exists (Some rv), s'. unfold bind, defined, ret. rewrite Hv. cbn. rewrite Hc.
  split; [reflexivity | exact Hs].
Qed.

(** [evaluateRequest] always returns, with one response sent. *)
Lemma evaluate_total (args : EvaluateArguments.t) (s : Session.t) :
  exists (body : EvaluateBody.t) (s' : Session.t),
    evaluateRequest args s = Ok (tt, s')
    /\ Session.sent s' = Session.sent s ++ [Response (body_evaluate body)].
Proof.
  unfold evaluateRequest. apply evaluate_tail.
  destruct (group_of (JS.stack_regex_exec _)) as [g|].
  - generalize (JS.parseInt10 g). intros index.
    unfold bind at 1. unfold getStackValues.
    set (stackValues := Runtime.stackValues (Session._runtime s)).
    destruct (JS.lt index (JS.Int 0)) eqn:E1;
      [destruct (JS.lt (JS.add index (array_length stackValues)) (JS.Int 0)) eqn:E2|];
      cbn beta iota.
    + (* negative and still negative after the adjustment *)
      destruct (JS.le (JS.Int 0) index && JS.lt index (array_length stackValues)) eqn:Ec1.
      * destruct (convert_element stack stackValues index index
                    (Some (out_of_range stack index)) s Ec1) as (rv & s' & H & Hs).
        eexists _, _, _. split; [exact H | exact Hs].
      * rewrite E1. unfold JS.ge. rewrite number_add_comm, (lt_not_le _ _ E2). cbn.
        eexists _, _, _. split; reflexivity.
    + (* negative, adjusted *)
      set (adjusted := JS.add index (array_length stackValues)) in *.
      destruct (JS.le (JS.Int 0) adjusted && JS.lt adjusted (array_length stackValues)) eqn:Ec1.
      * destruct (convert_element stack stackValues adjusted adjusted None s Ec1)
          as (rv & s' & H & Hs).
        eexists _, _, _. split; [exact H | exact Hs].
      * rewrite E2. cbn. eexists _, _, _. split; reflexivity.
    + destruct (JS.le (JS.Int 0) index && JS.lt index (array_length stackValues)) eqn:Ec1.
      * destruct (convert_element stack stackValues index index None s Ec1)
          as (rv & s' & H & Hs).
        eexists _, _, _. split; [exact H | exact Hs].
      * rewrite E1. cbn. eexists _, _, _. split; reflexivity.
  - destruct (group_of (JS.scratch_regex_exec _)) as [g|].
    + generalize (JS.parseInt10 g). intros index.
      unfold bind at 1. unfold getScratchValues.
      set (scratchValues := Runtime.scratchValues (Session._runtime s)).
      destruct (JS.le (JS.Int 0) index && JS.lt index (array_length scratchValues)) eqn:Ec1.
      * destruct (convert_element scratch scratchValues index index None s Ec1)
          as (rv & s' & H & Hs).
        eexists _, _, _. split; [exact H | exact Hs].
      * eexists _, _, _. split; reflexivity.
    + eexists _, _, _. split; reflexivity.
Qed.

(** A hover expression whose index addresses an element is answered with
    the conversion of that element.  The array is shorter than [2^53], so
    that adding its length to a negative index is exact. *)
Lemma evaluate_element (s : Session.t) (expression : string)
    (scope : AvmValueScope) (z : Z) :
  let n := Z.of_nat (length (values_of scope s)) in
  hover_index expression = Some (scope, JS.Int z) ->
  in_range scope (JS.Int z) s = true ->
  n < 2 ^ 53 ->
  exists (v : AvmValue.t) (rv : DapVariable.t) (s1 : Session.t),
    values_of scope s !! Z.to_nat (position z n) = Some v
    /\ convertAvmValue scope v (JS.Int (position z n)) s = Ok (rv, s1)
    /\ evaluateRequest (EvaluateArguments.mk expression) s
       = Ok (tt, respond s1 (value_body rv)).
Proof.
  intros n Hh Hr Hn. unfold in_range in Hr.
  assert (Hpos : 0 <= position z n < n).
  { unfold position. destruct scope; fold (values_of stack s) in Hr;
      fold (values_of scratch s) in Hr; fold n in Hr;
      apply andb_true_iff in Hr as [H1 H2];
      apply Z.leb_le in H1; apply Z.ltb_lt in H2;
      destruct (Z.ltb_spec z 0); lia. }
  destruct (lookup_lt_is_Some_2 (values_of scope s) (Z.to_nat (position z n)))
    as [v Hv]; [lia|].
  destruct (convertAvmValue_returns scope v (JS.Int (position z n)) s)
    as (rv & s1 & Hc & _).
  exists v, rv, s1. split; [exact Hv|]. split; [exact Hc|].
  unfold evaluateRequest. cbn [EvaluateArguments.expression].
  unfold hover_index in Hh. revert Hh.
  destruct (group_of (JS.stack_regex_exec expression)) as [g|].
  - intros [= <- Hg]. rewrite Hg. cbn [values_of] in *.
    unfold bind at 1. unfold bind at 1. unfold getStackValues.
    unfold array_length. fold n. rewrite lt_Int. unfold position in *.
    destruct (Z.ltb_spec z 0) as [Hneg|Hnn].
    + cbn [JS.add]. rewrite of_Z_small by lia. rewrite lt_Int.
      replace (z + n <? 0) with false by cmp.
      cbn beta iota. rewrite le_Int, lt_Int.
      replace (0 <=? z + n) with true by cmp.
      replace (z + n <? n) with true by cmp.
      cbn [andb]. unfold bind, defined, ret, array_get.
      replace (0 <=? z + n) with true by cmp.
      rewrite Hv, Hc. reflexivity.
    + cbn beta iota. rewrite le_Int, lt_Int.
      replace (0 <=? z) with true by cmp.
      replace (z <? n) with true by cmp.
      cbn [andb]. unfold bind, defined, ret, array_get.
      replace (0 <=? z) with true by cmp.
      rewrite Hv, Hc. reflexivity.
  - destruct (group_of (JS.scratch_regex_exec expression)) as [g|]; [|discriminate].
    intros [= <- Hg]. rewrite Hg. cbn [values_of] in *.
    unfold bind at 1. unfold bind at 1. unfold getScratchValues.
    unfold array_length. fold n. unfold position in *.
    assert (Hz : 0 <= z).
    { apply andb_true_iff in Hr as [H1 _]. now apply Z.leb_le in H1. }
    destruct (Z.ltb_spec z 0) as [Hneg|Hnn]; [lia|].
    rewrite le_Int, lt_Int.
    replace (0 <=? z) with true by cmp.
    replace (z <? n) with true by cmp.
    cbn [andb]. unfold bind, defined, ret, array_get.
    replace (0 <=? z) with true by cmp.
    rewrite Hv, Hc. reflexivity.
Qed.

(** C5: on a stack of [n] values (an array, so [n < 2^32]) and for
    [-n <= i <= -1], evaluating [stack[i]] answers with the conversion of
    the element at position [n + i] from the bottom, whose summary value is
    the response's result; for [i = -1] this is the top of the stack. *)
Theorem evaluate_stack_negative_index :
  forall (s : Session.t) (i : Z),
  let stackValues := Runtime.stackValues (Session._runtime s) in
  let n := Z.of_nat (length stackValues) in
  n < 2 ^ 32 -> - n <= i <= -1 ->
  exists (v : AvmValue.t) (rv : DapVariable.t) (s1 : Session.t),
    stackValues !! Z.to_nat (n + i) = Some v
    /\ convertAvmValue stack v (JS.Int (n + i)) s = Ok (rv, s1)
    /\ evaluateRequest (EvaluateArguments.mk ("stack[" +:+ JS.decimal i +:+ "]")) s
       = Ok (tt, respond s1 (value_body rv))
    /\ DapVariable.value rv = rendering v
    /\ (i = -1 -> last stackValues = Some v).
Proof.
  intros s i stackValues n Hn Hi.
  assert (Hh : hover_index ("stack[" +:+ JS.decimal i +:+ "]") = Some (stack, JS.Int i)).
  { rewrite hover_index_stack_decimal. now rewrite of_Z_small by lia. }
  destruct (evaluate_element s _ stack i Hh) as (v & rv & s1 & Hv & Hc & He).
  - unfold in_range. fold stackValues. fold n.
    apply andb_true_iff. split; [apply Z.leb_le | apply Z.ltb_lt]; lia.
  - cbn [values_of]. fold stackValues. fold n. lia.
  - unfold position in Hv, Hc. cbn [values_of] in Hv, Hc.
    fold stackValues in Hv, Hc. fold n in Hv, Hc.
    replace (i <? 0) with true in Hv, Hc by cmp.
    rewrite (Z.add_comm i n) in Hv, Hc.
    exists v, rv, s1. split; [exact Hv|]. split; [exact Hc|]. split; [exact He|].
    split; [exact (proj1 (convertAvmValue_value _ _ _ _ _ _ Hc))|].
    intros ->. rewrite last_lookup, <- Hv. f_equal. lia.
Qed.

(** The top of the example stack [10, 30, b"1!", b"5!"]. *)
Lemma evaluate_stack_negative_index_witness :
  exists (v : AvmValue.t) (rv : DapVariable.t) (s1 : Session.t),
    Runtime.stackValues example_runtime !! 3%nat = Some v
    /\ convertAvmValue stack v (JS.Int 3) example_session = Ok (rv, s1)
    /\ evaluateRequest (EvaluateArguments.mk "stack[-1]") example_session
       = Ok (tt, respond s1 (value_body rv))
    /\ DapVariable.value rv = rendering v
    /\ (-1 = -1 -> last (Runtime.stackValues example_runtime) = Some v).
Proof.
  apply (evaluate_stack_negative_index example_session (-1)); cbn; lia.
Defined.

(** C4: an evaluate request for a stack or scratch expression whose index
    addresses no element succeeds, and its response carries the message
    [<scope>[<index>] out of range] with variables reference 0; no handle is
    created and nothing is thrown.  With fewer than 1001 values on the
    stack, [stack[1000]] is answered with ["stack[1000] out of range"]. *)
Theorem evaluateRequest_out_of_range :
  (forall (s : Session.t) (expression : string) (scope : AvmValueScope)
          (index : JS.number),
      hover_index expression = Some (scope, index) ->
      in_range scope index s = false ->
      evaluateRequest (EvaluateArguments.mk expression) s =
      Ok (tt, respond s (message_body (out_of_range scope index))))
  /\ (forall s : Session.t,
        (length (Runtime.stackValues (Session._runtime s)) < 1001)%nat ->
        evaluateRequest (EvaluateArguments.mk "stack[1000]") s =
        Ok (tt, respond s (message_body "stack[1000] out of range"))).
Proof.
  split; [exact evaluate_out_of_range_general|].
  intros s Hlen.
  apply (evaluate_out_of_range_general s "stack[1000]" stack (JS.Int 1000));
    [reflexivity|].
  unfold in_range. apply andb_false_iff. right. apply Z.ltb_ge. lia.
Qed.

(** The example session has four values on its stack and none in its
    scratch space. *)
Lemma evaluateRequest_out_of_range_witness :
  evaluateRequest (EvaluateArguments.mk "scratch[0]") example_session =
  Ok (tt, respond example_session (message_body "scratch[0] out of range"))
  /\ evaluateRequest (EvaluateArguments.mk "stack[-5]") example_session =
     Ok (tt, respond example_session (message_body "stack[-5] out of range"))
  /\ evaluateRequest (EvaluateArguments.mk "stack[1000]") example_session =
     Ok (tt, respond example_session (message_body "stack[1000] out of range")).
Proof.
  split; [|split].
  - apply (proj1 evaluateRequest_out_of_range example_session "scratch[0]"
             scratch (JS.Int 0)); reflexivity.
  - apply (proj1 evaluateRequest_out_of_range example_session "stack[-5]"
             stack (JS.Int (-5))); reflexivity.
  - apply (proj2 evaluateRequest_out_of_range example_session). cbn. lia.
Defined.

(** C10: an expression that matches neither hover expression is answered
    with the text [unknown expression: ] followed by the expression between
    double quotes (character 34), with no type and variables reference 0;
    and whatever the expression, the request returns without throwing,
    having sent exactly one evaluate response. *)
Theorem evaluateRequest_unknown_expression :
  (forall (s : Session.t) (expression : string),
      JS.stack_regex_exec expression = None ->
      JS.scratch_regex_exec expression = None ->
      evaluateRequest (EvaluateArguments.mk expression) s =
      Ok (tt, respond s
                (body_evaluate
                   {| EvaluateBody.result :=
                        "unknown expression: "
                        +:+ String "034" (expression +:+ String "034" EmptyString);
                      EvaluateBody.type := None;
                      EvaluateBody.variablesReference := 0;
                      EvaluateBody.presentationHint := None |})))
  /\ (forall (s : Session.t) (args : EvaluateArguments.t),
        exists (body : EvaluateBody.t) (s' : Session.t),
          evaluateRequest args s = Ok (tt, s')
          /\ Session.sent s' = Session.sent s ++ [Response (body_evaluate body)]).
Proof.
  split.
  - intros s expression Hstack Hscratch.
    rewrite (evaluate_no_match s expression Hstack Hscratch).
    unfold message_body, unknown_expression, JS.dquote. reflexivity.
  - intros s args. apply evaluate_total.
Qed.

(** An expression that is no hover expression: the answer is
    [unknown expression: "pc + 1"], 28 characters of which the 21st and the
    last are the double quotes. *)
Lemma evaluateRequest_unknown_expression_witness :
  evaluateRequest (EvaluateArguments.mk "pc + 1") example_session =
  Ok (tt, respond example_session
            (body_evaluate
               {| EvaluateBody.result :=
                    "unknown expression: "
                    +:+ String "034" ("pc + 1" +:+ String "034" EmptyString);
                  EvaluateBody.type := None;
                  EvaluateBody.variablesReference := 0;
                  EvaluateBody.presentationHint := None |}))
  /\ String.length
       ("unknown expression: " +:+ String "034" ("pc + 1" +:+ String "034" EmptyString))
     = 28%nat
  /\ String.get 20 ("unknown expression: "
                    +:+ String "034" ("pc + 1" +:+ String "034" EmptyString))
     = Some (ascii_of_nat 34)
  /\ String.get 27 ("unknown expression: "
                    +:+ String "034" ("pc + 1" +:+ String "034" EmptyString))
     = Some (ascii_of_nat 34)
  /\ substring 21 6 ("unknown expression: "
                     +:+ String "034" ("pc + 1" +:+ String "034" EmptyString))
     = "pc + 1".
Proof.
  split; [|repeat split].
  apply (proj1 evaluateRequest_unknown_expression example_session "pc + 1");
    reflexivity.
Defined.

(** X3: for [0 <= i < n], [n] the length of the stack or of the scratch
    space, evaluating [stack[i]] or [scratch[i]] answers with the conversion
    of the element at position [i], whose summary value is the response's
    result. *)
Theorem evaluate_nonnegative_index :
  forall (s : Session.t) (scope : AvmValueScope) (i : Z),
  let values := values_of scope s in
  Z.of_nat (length values) < 2 ^ 32 -> 0 <= i < Z.of_nat (length values) ->
  exists (v : AvmValue.t) (rv : DapVariable.t) (s1 : Session.t),
    values !! Z.to_nat i = Some v
    /\ convertAvmValue scope v (JS.Int i) s = Ok (rv, s1)
    /\ evaluateRequest
         (EvaluateArguments.mk (scope_name scope +:+ "[" +:+ JS.decimal i +:+ "]")) s
       = Ok (tt, respond s1 (value_body rv))
    /\ DapVariable.value rv = rendering v.
Proof.
  intros s scope i values Hn Hi.
  assert (Hh : hover_index (scope_name scope +:+ "[" +:+ JS.decimal i +:+ "]")
               = Some (scope, JS.Int i)).
  { rewrite <- (of_Z_small i) by lia.
    destruct scope; [apply hover_index_stack_decimal | apply hover_index_scratch_decimal; lia]. }
  destruct (evaluate_element s _ scope i Hh) as (v & rv & s1 & Hv & Hc & He).
  - unfold in_range. fold values.
    destruct scope; fold (values_of stack s); fold (values_of scratch s); fold values;
      apply andb_true_iff; split; [apply Z.leb_le | apply Z.ltb_lt | apply Z.leb_le | apply Z.ltb_lt]; lia.
  - fold values. lia.
  - unfold position in *. fold values in Hv, Hc.
    replace (i <? 0) with false in * by cmp.
    exists v, rv, s1. repeat split; try assumption.
    exact (proj1 (convertAvmValue_value _ _ _ _ _ _ Hc)).
Qed.

(** The bottom of the example stack [10, 30, b"1!", b"5!"]. *)
Lemma evaluate_nonnegative_index_witness :
  exists (v : AvmValue.t) (rv : DapVariable.t) (s1 : Session.t),
    values_of stack example_session !! 0%nat = Some v
    /\ convertAvmValue stack v (JS.Int 0) example_session = Ok (rv, s1)
    /\ evaluateRequest (EvaluateArguments.mk "stack[0]") example_session
       = Ok (tt, respond s1 (value_body rv))
    /\ DapVariable.value rv = rendering v.
Proof.
  apply (evaluate_nonnegative_index example_session stack 0); cbn; lia.
Defined.

(** ** From a converted byte string to its children *)

(** X4: the variables reference [convertAvmValue] gives a byte string of
    the stack or of the scratch space leads [variablesRequest] back to that
    value: the response holds its expansion under the filter of the request,
    cut by [limitArray]. *)
Theorem expand_through_reference :
  forall (limitArray : forall A : Type, list A -> option Z -> option Z -> list A)
         (s s1 : Session.t) (scope : AvmValueScope) (i : nat) (v : AvmValue.t)
         (rv : DapVariable.t) (filter : option Filter) (start count : option Z),
    values_of scope s !! i = Some v ->
    AvmValue.type v = 1 ->
    convertAvmValue scope v (JS.Int (Z.of_nat i)) s = Ok (rv, s1) ->
    variablesRequest limitArray
      (VariablesArguments.mk (DapVariable.variablesReference rv) filter start count) s1
    = Ok (tt, respond s1 (body_variables
                            (limitArray _ (expandAvmValue v filter) start count))).
Proof.
  intros limitArray s s1 scope i v rv filter start count Hv Ht Hc.
  unfold convertAvmValue in Hc. rewrite Ht in Hc. cbn in Hc.
  unfold bind, createHandle, ret in Hc. cbn in Hc. injection Hc as <- <-.
  unfold variablesRequest, bind, getHandle, Handles.get. cbn.
  rewrite lookup_insert_eq. cbn.
  assert (Hget : array_get (values_of scope s) (JS.Int (Z.of_nat i)) = Some v).
  { unfold array_get. replace (0 <=? Z.of_nat i) with true by cmp.
    now rewrite Nat2Z.id. }
  destruct scope; cbn in *; unfold getStackValues, getScratchValues; cbn;
    rewrite Hget; reflexivity.
Qed.

(** The byte string [b"1!"] at position 2 of the example stack. *)
Lemma expand_through_reference_witness :
  variablesRequest (fun A l _ _ => l)
    (VariablesArguments.mk (DapVariable.variablesReference (fst example_converted))
                           None None None)
    (snd example_converted)
  = Ok (tt, respond (snd example_converted)
              (body_variables (expandAvmValue (avm_bytes [x31; x21]) None))).
Proof.
  apply (expand_through_reference (fun A l _ _ => l) example_session
           (snd example_converted) stack 2 (avm_bytes [x31; x21])
           (fst example_converted)); reflexivity.
Defined.

(** ** Digit strings and their values *)

(** A number below [2^53] in absolute value prints as its decimal digits. *)
Lemma toString_small (z : Z) : Z.abs z < 2 ^ 53 -> JS.toString (JS.Int z) = JS.decimal z.
Proof.
  intros Hz. unfold JS.toString.
  destruct (Z.eqb_spec z 0) as [->|Hnz]; [reflexivity|].
  destruct (Z.ltb_spec z 0) as [Hneg|Hpos]; unfold JS.pos_toString.
  - replace (- z <? 2 ^ 53) with true by cmp.
    destruct z as [|p|p]; try lia. reflexivity.
  - replace (z <? 2 ^ 53) with true by cmp. reflexivity.
Qed.

(** A string of digits is read as a numeral with as many digits. *)
Lemma uint_of_digits (ds : string) :
  all_digits ds = true ->
  exists d : Decimal.uint,
    NilEmpty.uint_of_string ds = Some d
    /\ Decimal.nb_digits d = String.length ds.
Proof.
  induction ds as [|c ds IH]; intros H.
  - exists Decimal.Nil. split; reflexivity.
  - simpl in H. apply andb_true_iff in H as [Hc Hd].
    destruct (IH Hd) as (d & Hu & Hn).
    cbn [NilEmpty.uint_of_string]. rewrite Hu.
    destruct c as [[] [] [] [] [] [] [] []]; try discriminate Hc;
      eexists; (split; [reflexivity|]); cbn; now rewrite Hn.
Qed.

(** The value of a numeral is below the power of ten of its length. *)
Lemma of_uint_acc_bound (d : Decimal.uint) (acc : positive) :
  Z.pos (Pos.of_uint_acc d acc) < (Z.pos acc + 1) * 10 ^ Z.of_nat (Decimal.nb_digits d).
Proof.
  revert acc. induction d; intros acc; cbn [Pos.of_uint_acc Decimal.nb_digits];
    [simpl; lia | rewrite Nat2Z.inj_succ, Z.pow_succ_r by lia;
                  match goal with |- Z.pos (Pos.of_uint_acc _ ?a) < _ =>
                    specialize (IHd a) end; nia ..].
Qed.

Lemma of_uint_bound (d : Decimal.uint) :
  0 <= Z.of_uint d < 10 ^ Z.of_nat (Decimal.nb_digits d).
Proof.
  unfold Z.of_uint. split; [lia|].
  induction d; cbn [Pos.of_uint Decimal.nb_digits];
    [simpl; lia | rewrite Nat2Z.inj_succ, Z.pow_succ_r by lia ..].
  1: lia.
  all: match goal with |- Z.of_N (N.pos (Pos.of_uint_acc ?d ?a)) < _ =>
         pose proof (of_uint_acc_bound d a) end; cbn [Z.of_N]; nia.
Qed.

(** The value of a string of digits is below the power of ten of its
    length. *)
Lemma digits_value_bound (ds : string) :
  all_digits ds = true ->
  0 <= JS.digits_value ds < 10 ^ Z.of_nat (String.length ds).
Proof.
  intros H. destruct (uint_of_digits ds H) as (d & Hu & Hn).
  unfold JS.digits_value. rewrite Hu, <- Hn. apply of_uint_bound.
Qed.

(** [parseInt] of a string of digits is its value, rounded. *)
Lemma parseInt10_digits (ds : string) :
  ds <> EmptyString -> all_digits ds = true ->
  JS.parseInt10 ds = JS.of_Z (JS.digits_value ds).
Proof.
  intros Hne Hd. unfold JS.parseInt10.
  destruct ds as [|c ds'] eqn:E; [contradiction|].
  pose proof Hd as Hd0. simpl in Hd0. apply andb_true_iff in Hd0 as [Hc Hd'].
  destruct (digit_is_no_sign_or_space c Hc) as (Hsp & Hm & Hp).
  simpl JS.trim_start. rewrite Hsp, Hm, Hp, (span_digits_all _ Hd). reflexivity.
Qed.

(** [parseInt] of a minus sign and digits is the negated value, rounded. *)
Lemma parseInt10_minus_digits (ds : string) :
  ds <> EmptyString -> all_digits ds = true ->
  JS.parseInt10 (String "-" ds) = JS.of_Z (- JS.digits_value ds).
Proof.
  intros Hne Hd. unfold JS.parseInt10. simpl JS.trim_start. cbn [Ascii.eqb Bool.eqb].
  rewrite (span_digits_all _ Hd). destruct ds; [contradiction | reflexivity].
Qed.

(** ** The command line of the bootstrap *)

(** What the regular expression of the server argument accepts. *)
Lemma server_regex_inv (s : string) (m : list string) :
  JS.server_regex_exec s = Some m ->
  exists ds : string,
    all_digits ds = true /\ (4 <= String.length ds <= 5)%nat
    /\ s = "--server=" +:+ ds /\ m = [s; ds].
Proof.
  unfold JS.server_regex_exec. intros H.
  destruct (JS.strip_prefix "--server=" s) as [rest|] eqn:Ep; [|discriminate].
  destruct (JS.span_digits rest) as [ds tail] eqn:Es.
  destruct (span_digits_inv _ _ _ Es) as [-> Hd].
  destruct tail; [|discriminate].
  destruct (Nat.leb 4 (String.length ds) && Nat.leb (String.length ds) 5)%bool eqn:El;
    [|discriminate].
  injection H as <-. apply andb_true_iff in El as [H4 H5].
  apply Nat.leb_le in H4. apply Nat.leb_le in H5.
  apply strip_prefix_inv in Ep. rewrite string_app_nil in Ep.
  exists ds. repeat split; assumption.
Qed.

(** Four or five digits after [--server=] match, with the digits as the
    group. *)
Lemma server_regex_digits (ds : string) :
  all_digits ds = true -> (4 <= String.length ds <= 5)%nat ->
  JS.server_regex_exec ("--server=" +:+ ds) = Some ["--server=" +:+ ds; ds].
Proof.
  intros Hd [H4 H5]. unfold JS.server_regex_exec.
  rewrite strip_prefix_app, (span_digits_all _ Hd).
  apply Nat.leb_le in H4. apply Nat.leb_le in H5. now rewrite H4, H5.
Qed.

(** Four or five digits denote a number up to 99999, which [parseInt]
    reads exactly. *)
Lemma server_digits_value (ds : string) :
  all_digits ds = true -> (4 <= String.length ds <= 5)%nat ->
  JS.parseInt10 ds = JS.Int (JS.digits_value ds) /\ 0 <= JS.digits_value ds <= 99999.
Proof.
  intros Hd [H4 H5]. pose proof (digits_value_bound ds Hd) as Hb.
  assert (Hpow : 10 ^ Z.of_nat (String.length ds) <= 10 ^ 5)
    by (apply Z.pow_le_mono_r; lia).
  change (10 ^ 5) with 100000 in Hpow.
  split; [|lia].
  rewrite parseInt10_digits; [apply of_Z_small; lia | | exact Hd].
  intros ->. simpl in H4. lia.
Qed.

(** The port a matching argument sets. *)
Lemma server_port_range (s : string) (m : list string) :
  JS.server_regex_exec s = Some m ->
  exists p : Z, JS.parseInt10 (nth 1 m EmptyString) = JS.Int p /\ 0 <= p <= 99999.
Proof.
  intros H. destruct (server_regex_inv _ _ H) as (ds & Hd & Hl & -> & ->).
  exists (JS.digits_value ds). cbn [nth]. now apply server_digits_value.
Qed.

(** Arguments that do not match leave the port as it is. *)
Lemma fold_port_no_match (args : list string) (port : JS.number) :
  Forall (fun val => JS.server_regex_exec val = None) args ->
  fold_left (fun port val =>
               match JS.server_regex_exec val with
               | Some portMatch => JS.parseInt10 (nth 1 portMatch EmptyString)
               | None => port
               end) args port = port.
Proof.
  intros H. revert port. induction H as [|a args Ha _ IH]; intros port; [reflexivity|].
  cbn [fold_left]. rewrite Ha. apply IH.
Qed.

(** Whatever the arguments, the port is an integer from 0 to 99999. *)
Lemma parse_port_range (args : list string) :
  exists p : Z, parse_port args = JS.Int p /\ 0 <= p <= 99999.
Proof.
  unfold parse_port.
  assert (H : exists p : Z, JS.Int 0 = JS.Int p /\ 0 <= p <= 99999)
    by (exists 0; split; [reflexivity | lia]).
  revert H. generalize (JS.Int 0). induction args as [|a args IH]; intros port H;
    [exact H|].
  cbn [fold_left]. apply IH.
  destruct (JS.server_regex_exec a) as [m|] eqn:E; [|exact H].
  exact (server_port_range _ _ E).
Qed.

(** X5: the matcher of the server argument accepts exactly the language of
    the regular expression of [run]: [--server=] followed by four or five
    decimal digits and nothing else, the group capturing the digits; and the
    port read from a match is an integer from 0 to 99999. *)
Theorem server_argument_language :
  forall (s : string) (m : list string),
    (JS.server_regex_exec s = Some m <->
     exists ds : string,
       all_digits ds = true /\ (4 <= String.length ds <= 5)%nat
       /\ s = "--server=" +:+ ds /\ m = [s; ds])
    /\ (JS.server_regex_exec s = Some m ->
        exists p : Z, JS.parseInt10 (nth 1 m EmptyString) = JS.Int p /\ 0 <= p <= 99999).
Proof.
  intros s m. split; [split|].
  - apply server_regex_inv.
  - intros (ds & Hd & Hl & -> & ->). now apply server_regex_digits.
  - apply server_port_range.
Qed.

(** X6: of the arguments on the command line the last one that matches
    sets the port, to the number its digits denote; without a matching
    argument the port stays 0. *)
Theorem parse_port_last_server_argument :
  (forall (before after : list string) (ds : string),
      all_digits ds = true -> (4 <= String.length ds <= 5)%nat ->
      Forall (fun val => JS.server_regex_exec val = None) after ->
      parse_port (before ++ ("--server=" +:+ ds) :: after) = JS.Int (JS.digits_value ds))
  /\ (forall args : list string,
        Forall (fun val => JS.server_regex_exec val = None) args ->
        parse_port args = JS.Int 0).
Proof.
  split.
  - intros before after ds Hd Hl Hafter. unfold parse_port.
    rewrite fold_left_app. cbn [fold_left].
    rewrite (server_regex_digits ds Hd Hl), (fold_port_no_match _ _ Hafter).
    cbn [nth]. now apply server_digits_value.
  - intros args H. apply fold_port_no_match, H.
Qed.

(** Two server arguments, the second with a leading zero, among arguments
    that do not match; and arguments of which none matches. *)
Lemma parse_port_last_server_argument_witness :
  parse_port (["--server=8080"] ++ ("--server=" +:+ "04711") :: ["--verbose"; "--server=123"])
  = JS.Int 4711
  /\ parse_port ["--server"; "--server=123456"; "--server=47x1"; " --server=4711"] = JS.Int 0.
Proof.
  split.
  - apply (proj1 parse_port_last_server_argument ["--server=8080"]
             ["--verbose"; "--server=123"] "04711"); [reflexivity | simpl; lia |].
    repeat constructor.
  - apply (proj2 parse_port_last_server_argument). repeat constructor.
Defined.

(** X7: with both variables in the environment the outcome depends on the
    loader, the port and the binding of the port only.  If the load is
    rejected, the process prints that error, exits with status 1 and has
    started nothing.  Otherwise, with port 0 (no server argument, or one
    whose digits are all zeros) the single session on standard input and
    output is started, nothing is printed and nothing exits.  With any other
    port the line [waiting for debug protocol on port <port>] is printed
    first; then a port above 65535, which the server argument allows up to
    99999, makes [listen] throw its [RangeError], and a port that cannot be
    bound makes the server report an error that its handler rethrows: both
    times the error is printed, the process exits with status 1 and nothing
    is listening; only a port from 1 to 65535 that can be bound leaves the
    server listening on it. *)
Theorem main_with_environment :
  forall (TEALDebuggingAssets : Type)
         (loadFromFiles : string -> string -> Result TEALDebuggingAssets)
         (path_resolve : string -> string) (process : Process.t)
         (simulateResponsePath txnGroupSourcesDescriptionPath : string),
    Process.env process !! "ALGORAND_SIMULATION_RESPONSE_PATH" = Some simulateResponsePath ->
    Process.env process !! "ALGORAND_TXN_GROUP_SOURCES_DESCRIPTION_PATH"
      = Some txnGroupSourcesDescriptionPath ->
    exists p : Z,
      parse_port (skipn 2 (Process.argv process)) = JS.Int p /\ 0 <= p <= 99999
      /\ main TEALDebuggingAssets loadFromFiles path_resolve process =
         match loadFromFiles (path_resolve simulateResponsePath)
                             (path_resolve txnGroupSourcesDescriptionPath) with
         | Throw err =>
             {| Outcome.stderr := [printed_error err];
                Outcome.exit_status := Some 1;
                Outcome.started := nothing_started |}
         | Ok _ =>
             let waiting :=
               printed_line ("waiting for debug protocol on port " +:+ JS.decimal p) in
             if p =? 0
             then {| Outcome.stderr := [];
                     Outcome.exit_status := None;
                     Outcome.started := stdio_session |}
             else if 65535 <? p
             then {| Outcome.stderr :=
                       [waiting;
                        printed_error
                          (mkError ("options.port should be >= 0 and < 65536. "
                                    +:+ "Received type number ("
                                    +:+ JS.decimal p +:+ ")."))];
                     Outcome.exit_status := Some 1;
                     Outcome.started := nothing_started |}
             else match Process.bind process p with
                  | Some err =>
                      {| Outcome.stderr := [waiting; printed_error err];
                         Outcome.exit_status := Some 1;
                         Outcome.started := nothing_started |}
                  | None =>
                      {| Outcome.stderr := [waiting];
                         Outcome.exit_status := None;
                         Outcome.started := server_listening (JS.Int p) |}
                  end
         end.
Proof.
  intros A load resolve process a b Ha Hb.
  destruct (parse_port_range (skipn 2 (Process.argv process))) as (p & Hp & Hr).
  exists p. split; [exact Hp|]. split; [exact Hr|].
  unfold main, run. rewrite Ha, Hb, Hp.
  destruct (load (resolve a) (resolve b)) as [assets|err]; [|reflexivity].
  rewrite lt_Int. destruct (Z.eqb_spec p 0) as [->|Hnz]; [reflexivity|].
  replace (0 <? p) with true by cmp.
  rewrite toString_small by lia.
  unfold listen, Net.validatePort, Net.ERR_SOCKET_BAD_PORT.
  replace (0 <=? p) with true by cmp.
  rewrite toString_small by lia. cbn [andb].
  destruct (Z.ltb_spec 65535 p) as [Hbig|Hsmall].
  - replace (p <=? 65535) with false by cmp. reflexivity.
  - replace (p <=? 65535) with true by cmp.
    destruct (Process.bind process p); reflexivity.
Qed.

(** Three processes with both variables set and a loader that succeeds:
    started with [--server=4711] on a free port, with [--server=99999], and
    with [--server=4711] while the port is in use. *)
Lemma main_with_environment_witness :
  main unit (fun _ _ => Ok tt) (fun path => path) example_server_process
  = {| Outcome.stderr := [printed_line "waiting for debug protocol on port 4711"];
       Outcome.exit_status := None;
       Outcome.started := server_listening (JS.Int 4711) |}
  /\ main unit (fun _ _ => Ok tt) (fun path => path) example_bad_port_process
     = {| Outcome.stderr :=
            [printed_line "waiting for debug protocol on port 99999";
             printed_error
               (mkError
                  "options.port should be >= 0 and < 65536. Received type number (99999).")];
          Outcome.exit_status := Some 1;
          Outcome.started := nothing_started |}
  /\ main unit (fun _ _ => Ok tt) (fun path => path) example_busy_port_process
     = {| Outcome.stderr :=
            [printed_line "waiting for debug protocol on port 4711";
             printed_error (mkError "listen EADDRINUSE: address already in use :::4711")];
          Outcome.exit_status := Some 1;
          Outcome.started := nothing_started |}.
Proof.
  assert (H : forall process : Process.t,
             Process.env process = Process.env example_server_process ->
             exists p : Z,
               parse_port (skipn 2 (Process.argv process)) = JS.Int p
               /\ main unit (fun _ _ => Ok tt) (fun path => path) process
                  = (let waiting :=
                       printed_line ("waiting for debug protocol on port "
                                     +:+ JS.decimal p) in
                     if p =? 0
                     then {| Outcome.stderr := [];
                             Outcome.exit_status := None;
                             Outcome.started := stdio_session |}
                     else if 65535 <? p
                     then {| Outcome.stderr :=
                               [waiting;
                                printed_error
                                  (mkError ("options.port should be >= 0 and < 65536. "
                                            +:+ "Received type number ("
                                            +:+ JS.decimal p +:+ ")."))];
                             Outcome.exit_status := Some 1;
                             Outcome.started := nothing_started |}
                     else match Process.bind process p with
                          | Some err =>
                              {| Outcome.stderr := [waiting; printed_error err];
                                 Outcome.exit_status := Some 1;
                                 Outcome.started := nothing_started |}
                          | None =>
                              {| Outcome.stderr := [waiting];
                                 Outcome.exit_status := None;
                                 Outcome.started := server_listening (JS.Int p) |}
                          end)).
  { intros process Henv.
    destruct (main_with_environment unit (fun _ _ => Ok tt) (fun path => path) process
                "response.json" "sources.json") as (p & Hp & _ & Hmain);
      [rewrite Henv; vm_compute; reflexivity ..|].
    exists p. split; assumption. }
  split; [|split].
  - destruct (H example_server_process eq_refl) as (p & Hp & Hmain).
    vm_compute in Hp. injection Hp as <-. rewrite Hmain. vm_compute. reflexivity.
  - destruct (H example_bad_port_process eq_refl) as (p & Hp & Hmain).
    vm_compute in Hp. injection Hp as <-. rewrite Hmain. vm_compute. reflexivity.
  - destruct (H example_busy_port_process eq_refl) as (p & Hp & Hmain).
    vm_compute in Hp. injection Hp as <-. rewrite Hmain. vm_compute. reflexivity.
Defined.

(** ** More on the hover expressions *)

(** X8: the scratch space cannot be indexed with a sign: whatever follows
    [scratch[-], the expression is answered with the text
    [unknown expression: ] followed by the expression between double quotes
    (character 34) and variables reference 0.  This is no out-of-range
    message: the answer is not of the form [scratch[<index>] out of
    range]. *)
Theorem evaluate_scratch_negative_index :
  forall (s : Session.t) (rest : string),
    let expression := "scratch[-" +:+ rest in
    let result :=
      "unknown expression: " +:+ String "034" (expression +:+ String "034" EmptyString) in
    evaluateRequest (EvaluateArguments.mk expression) s
    = Ok (tt, respond s
                (body_evaluate
                   {| EvaluateBody.result := result;
                      EvaluateBody.type := None;
                      EvaluateBody.variablesReference := 0;
                      EvaluateBody.presentationHint := None |}))
    /\ forall index : string, result <> "scratch[" +:+ index +:+ "] out of range".
Proof.
  intros s rest expression result. split.
  - unfold expression. rewrite evaluate_no_match by reflexivity.
    unfold message_body, unknown_expression, JS.dquote. reflexivity.
  - intros index H. discriminate H.
Qed.

(** The number a hover expression indexes with, whatever the spelling of
    its digits. *)
Lemma hover_index_digits (scope : AvmValueScope) (ds : string) :
  ds <> EmptyString -> all_digits ds = true ->
  hover_index (scope_name scope +:+ "[" +:+ ds +:+ "]")
  = Some (scope, JS.of_Z (JS.digits_value ds)).
Proof.
  intros Hne Hd. unfold hover_index. destruct scope; cbn [scope_name].
  - change ("stack" +:+ "[" +:+ ds +:+ "]") with ("stack[" +:+ ds +:+ "]").
    unfold JS.stack_regex_exec. rewrite strip_prefix_app, index_group_digits by assumption.
    cbn [group_of length Nat.eqb]. cbn. now rewrite parseInt10_digits.
  - change (JS.stack_regex_exec ("scratch" +:+ "[" +:+ ds +:+ "]")) with (@None (list string)).
    change ("scratch" +:+ "[" +:+ ds +:+ "]") with ("scratch[" +:+ ds +:+ "]").
    unfold JS.scratch_regex_exec. rewrite strip_prefix_app, index_group_digits by assumption.
    cbn [group_of length Nat.eqb]. cbn. now rewrite parseInt10_digits.
Qed.

Lemma hover_index_minus_digits (ds : string) :
  ds <> EmptyString -> all_digits ds = true ->
  hover_index ("stack[" +:+ "-" +:+ ds +:+ "]")
  = Some (stack, JS.of_Z (- JS.digits_value ds)).
Proof.
  intros Hne Hd. unfold hover_index.
  unfold JS.stack_regex_exec. rewrite strip_prefix_app.
  change ("-" +:+ ds +:+ "]") with (String "-" ds +:+ "]").
  rewrite index_group_minus by assumption.
  cbn [group_of length Nat.eqb]. cbn. now rewrite parseInt10_minus_digits.
Qed.

(** Two expressions that index the same array with the same number are
    answered alike. *)
Lemma evaluate_by_hover_index (s : Session.t) (e1 e2 : string)
    (scope : AvmValueScope) (index : JS.number) :
  Z.of_nat (length (values_of scope s)) < 2 ^ 53 ->
  hover_index e1 = Some (scope, index) ->
  hover_index e2 = Some (scope, index) ->
  evaluateRequest (EvaluateArguments.mk e1) s = evaluateRequest (EvaluateArguments.mk e2) s.
Proof.
  intros Hn H1 H2. destruct (in_range scope index s) eqn:Hr.
  - destruct index as [z| | |]; try (destruct scope; discriminate Hr).
    destruct (evaluate_element s e1 scope z H1 Hr Hn) as (v1 & rv1 & s1 & Hv1 & Hc1 & He1).
    destruct (evaluate_element s e2 scope z H2 Hr Hn) as (v2 & rv2 & s2 & Hv2 & Hc2 & He2).
    rewrite He1, He2. congruence.
  - now rewrite (evaluate_out_of_range_general s e1 scope index H1 Hr),
                (evaluate_out_of_range_general s e2 scope index H2 Hr).
Qed.

(** X9: the index of a hover expression counts as the number its digits
    denote, not as text: an expression with any spelling of the digits
    (leading zeros, a negative zero) is answered exactly as the expression
    with the plain decimal digits of the same number, in the result or in
    the out-of-range message and in the handle that is created.  A sign is
    for stack expressions only. *)
Theorem evaluate_reads_index_as_number :
  forall (s : Session.t) (scope : AvmValueScope) (negative : bool) (ds : string),
    ds <> EmptyString -> all_digits ds = true ->
    (negative = true -> scope = stack) ->
    Z.of_nat (length (values_of scope s)) < 2 ^ 32 ->
    evaluateRequest
      (EvaluateArguments.mk
         (scope_name scope +:+ "[" +:+ (if negative then "-" else EmptyString)
                     +:+ ds +:+ "]")) s
    = evaluateRequest
        (EvaluateArguments.mk
           (scope_name scope +:+ "[" +:+
            JS.decimal (if negative then - JS.digits_value ds else JS.digits_value ds)
            +:+ "]")) s.
Proof.
  intros s scope negative ds Hne Hd Hsign Hn.
  pose proof (digits_value_bound ds Hd) as Hb.
  destruct negative.
  - rewrite (Hsign eq_refl) in *.
    apply (evaluate_by_hover_index s _ _ stack (JS.of_Z (- JS.digits_value ds)));
      [lia | now apply hover_index_minus_digits | apply hover_index_stack_decimal].
  - apply (evaluate_by_hover_index s _ _ scope (JS.of_Z (JS.digits_value ds)));
      [lia | now apply hover_index_digits |].
    destruct scope; [apply hover_index_stack_decimal | apply hover_index_scratch_decimal; lia].
Qed.

(** [stack[-0002]] on the example stack is [stack[-2]]. *)
Lemma evaluate_reads_index_as_number_witness :
  evaluateRequest (EvaluateArguments.mk "stack[-0002]") example_session
  = evaluateRequest (EvaluateArguments.mk "stack[-2]") example_session.
Proof.
  apply (evaluate_reads_index_as_number example_session stack true "0002");
    [discriminate | reflexivity | reflexivity | cbn; lia].
Defined.

(** ** The name under which a variable can be evaluated *)

(** X10: the [evaluateName] that [convertAvmValue] gives the element at
    position [i] of the stack or of the scratch space is a hover expression
    for that element: evaluating it right after answers with the same value,
    type and presentation hint.  For a byte string the evaluation creates
    one more handle, the one after the handle of the variable; for a uint64
    the reference is 0 both times. *)
Theorem evaluateName_round_trip :
  forall (s s1 : Session.t) (scope : AvmValueScope) (i : nat) (v : AvmValue.t)
         (rv : DapVariable.t),
    values_of scope s !! i = Some v ->
    Z.of_nat (length (values_of scope s)) < 2 ^ 32 ->
    convertAvmValue scope v (JS.Int (Z.of_nat i)) s = Ok (rv, s1) ->
    exists (expression : string) (rv2 : DapVariable.t) (s2 : Session.t),
      DapVariable.evaluateName rv = Some expression
      /\ evaluateRequest (EvaluateArguments.mk expression) s1
         = Ok (tt, respond s2 (value_body rv2))
      /\ DapVariable.value rv2 = DapVariable.value rv
      /\ DapVariable.type rv2 = DapVariable.type rv
      /\ DapVariable.presentationHint rv2 = DapVariable.presentationHint rv
      /\ DapVariable.variablesReference rv2
         = (if AvmValue.type v =? 1 then DapVariable.variablesReference rv + 1 else 0).
Proof.
  intros s s1 scope i v rv Hv Hn Hc.
  pose proof (lookup_lt_Some _ _ _ Hv) as Hi.
  assert (Hrt : Session._runtime s1 = Session._runtime s).
  { revert Hc. unfold convertAvmValue. destruct (AvmValue.type v =? 1).
    - unfold bind, createHandle, ret; cbn. now intros [= _ <-].
    - unfold ret. now intros [= _ <-]. }
  assert (Hvals : values_of scope s1 = values_of scope s).
  { unfold values_of. now rewrite Hrt. }
  assert (Hname : DapVariable.evaluateName rv
                  = Some (scope_name scope +:+ "[" +:+ JS.decimal (Z.of_nat i) +:+ "]")).
  { revert Hc. unfold convertAvmValue. rewrite toString_small by lia.
    destruct (AvmValue.type v =? 1).
    - unfold bind, createHandle, ret; cbn. now intros [= <- _].
    - unfold ret. now intros [= <- _]. }
  assert (Hh : hover_index (scope_name scope +:+ "[" +:+ JS.decimal (Z.of_nat i) +:+ "]")
               = Some (scope, JS.Int (Z.of_nat i))).
  { rewrite <- (of_Z_small (Z.of_nat i)) by lia.
    destruct scope; [apply hover_index_stack_decimal | apply hover_index_scratch_decimal; lia]. }
  destruct (evaluate_element s1 _ scope (Z.of_nat i) Hh) as (v2 & rv2 & s2 & Hv2 & Hc2 & He).
  - unfold in_range.
    destruct scope; fold (values_of stack s1); fold (values_of scratch s1);
      rewrite Hvals; apply andb_true_iff; split;
      [apply Z.leb_le | apply Z.ltb_lt | apply Z.leb_le | apply Z.ltb_lt]; lia.
  - rewrite Hvals. lia.
  - unfold position in Hv2, Hc2. replace (Z.of_nat i <? 0) with false in * by cmp.
    rewrite Hvals, Nat2Z.id, Hv in Hv2. injection Hv2 as <-.
    eexists _, rv2, s2. split; [exact Hname|]. split; [exact He|].
    revert Hc Hc2. unfold convertAvmValue. destruct (AvmValue.type v =? 1).
    + unfold bind, createHandle, ret; cbn. intros [= <- <-] [= <- _]. cbn.
      repeat split; reflexivity.
    + unfold ret. intros [= <- <-] [= <- _]. repeat split; reflexivity.
Qed.

(** The byte string [b"1!"] at position 2 of the example stack, hovered
    over after it has been converted. *)
Lemma evaluateName_round_trip_witness :
  exists (expression : string) (rv2 : DapVariable.t) (s2 : Session.t),
    DapVariable.evaluateName (fst example_converted) = Some expression
    /\ evaluateRequest (EvaluateArguments.mk expression) (snd example_converted)
       = Ok (tt, respond s2 (value_body rv2))
    /\ DapVariable.value rv2 = DapVariable.value (fst example_converted)
    /\ DapVariable.type rv2 = DapVariable.type (fst example_converted)
    /\ DapVariable.presentationHint rv2 = DapVariable.presentationHint (fst example_converted)
    /\ DapVariable.variablesReference rv2
       = DapVariable.variablesReference (fst example_converted) + 1.
Proof.
  apply (evaluateName_round_trip example_session (snd example_converted) stack 2
           (avm_bytes [x31; x21]) (fst example_converted));
    [reflexivity | cbn; lia | reflexivity].
Defined.

(** ** The handle table *)

(** [continues] is reflexive and transitive. *)
Lemma continues_refl (s : Session.t) : continues s s.
Proof. unfold continues. split; [|split; [|split; [|split]]]; auto; lia. Qed.

Lemma continues_trans (s1 s2 s3 : Session.t) :
  continues s1 s2 -> continues s2 s3 -> continues s1 s3.
Proof.
  intros (R1 & S1 & N1 & G1 & W1) (R2 & S2 & N2 & G2 & W2).
  unfold continues. split; [congruence|]. split; [congruence|].
  split; [lia|]. split; [|auto].
  intros handle Hlt. rewrite G2 by lia. now apply G1.
Qed.

(** The primitives of the handler monad keep the session going. *)
Lemma keeps_ret {A : Type} (a : A) : keeps (ret a).
Proof. intros s s' a' [= _ <-]. apply continues_refl. Qed.

Lemma keeps_throw {A : Type} (msg : string) : keeps (@throw A msg).
Proof. intros s s' a H. discriminate H. Qed.

Lemma keeps_bind {A B : Type} (m : M A) (k : A -> M B) :
  keeps m -> (forall a : A, keeps (k a)) -> keeps (bind m k).
Proof.
  intros Hm Hk s s' b. unfold bind.
  destruct (m s) as [[a s1]|err] eqn:E; [|discriminate].
  intros H. exact (continues_trans _ _ _ (Hm _ _ _ E) (Hk a _ _ _ H)).
Qed.

Lemma keeps_send (m : Message) : keeps (send m).
Proof.
  intros s s' a [= _ <-]. unfold continues; cbn.
  split; [|split; [|split; [|split]]]; auto; lia.
Qed.

Lemma keeps_console_log (line : string) : keeps (console_log line).
Proof.
  intros s s' a [= _ <-]. unfold continues; cbn.
  split; [|split; [|split; [|split]]]; auto; lia.
Qed.

Lemma keeps_getStackValues : keeps getStackValues.
Proof. intros s s' a [= _ <-]. apply continues_refl. Qed.

Lemma keeps_getScratchValues : keeps getScratchValues.
Proof. intros s s' a [= _ <-]. apply continues_refl. Qed.

Lemma keeps_getHandle (handle : Z) : keeps (getHandle handle).
Proof. intros s s' a [= _ <-]. apply continues_refl. Qed.

Lemma keeps_defined {A : Type} (x : option A) (property : string) :
  keeps (defined x property).
Proof. destruct x; [apply keeps_ret | apply keeps_throw]. Qed.

(** A new handle is the next one; the older ones are kept. *)
Lemma keeps_createHandle (value : HandleValue) : keeps (createHandle value).
Proof.
  intros s s' a. unfold createHandle, Handles.create. intros [= _ <-].
  unfold continues, Handles.get; cbn. split; [reflexivity|]. split; [reflexivity|].
  split; [lia|]. split.
  - intros handle Hlt. apply lookup_insert_ne. lia.
  - intros [Hstart Hwf]. unfold handles_wf, Handles.get in *. cbn.
    split; [lia|]. intros handle.
    destruct (Z.eq_dec handle (Handles._nextHandle (Session._variableHandles s))) as [->|Hne].
    + rewrite lookup_insert_eq. split; [lia | eauto].
    + rewrite lookup_insert_ne by congruence. rewrite Hwf. lia.
Qed.

Lemma keeps_convertAvmValue (scope : AvmValueScope) (v : AvmValue.t) (index : JS.number) :
  keeps (convertAvmValue scope v index).
Proof.
  unfold convertAvmValue. destruct (AvmValue.type v =? 1).
  - apply keeps_bind; [apply keeps_createHandle | intros; apply keeps_ret].
  - apply keeps_ret.
Qed.

Lemma keeps_map_indexed {A B : Type} (f : A -> JS.number -> M B) (l : list A) (i : nat) :
  (forall (x : A) (index : JS.number), keeps (f x index)) -> keeps (map_indexed f i l).
Proof.
  intros Hf. revert i. induction l as [|x l IH]; intros i; cbn [map_indexed].
  - apply keeps_ret.
  - apply keeps_bind; [apply Hf|]. intros y.
    apply keeps_bind; [apply IH|]. intros ys. apply keeps_ret.
Qed.

(** The steps of a handler that keep the session going. *)
Create HintDb keeps.
#[local] Hint Resolve keeps_ret keeps_throw keeps_send keeps_console_log
  keeps_getStackValues keeps_getScratchValues keeps_getHandle keeps_defined
  keeps_createHandle keeps_convertAvmValue : keeps.

(** One step through the body of a handler. *)
Ltac keeps_step :=
  match goal with
  | |- keeps (bind _ _) => apply keeps_bind; [|intros]
  | |- keeps (sendResponse _) => apply keeps_send
  | |- keeps (sendEvent _) => apply keeps_send
  | |- keeps (map_indexed _ _ _) => apply keeps_map_indexed; intros
  | |- keeps (match ?x with _ => _ end) => destruct x
  | |- keeps (let '(_, _) := ?x in _) => destruct x
  | |- keeps _ => solve [auto with keeps]
  end.

(** Every handler keeps the session going. *)
Lemma keeps_initializeRequest (b : option Capabilities.t) : keeps (initializeRequest b).
Proof. unfold initializeRequest. repeat keeps_step. Qed.

Lemma keeps_disconnectRequest (args : DisconnectArguments.t) : keeps (disconnectRequest args).
Proof. unfold disconnectRequest. repeat keeps_step. Qed.

Lemma keeps_breakpointLocationsRequest (args : BreakpointLocationsArguments.t) :
  keeps (breakpointLocationsRequest args).
Proof. unfold breakpointLocationsRequest. repeat keeps_step. Qed.

Lemma keeps_scopesRequest : keeps scopesRequest.
Proof. unfold scopesRequest. repeat keeps_step. Qed.

Lemma keeps_variablesRequest
    (limitArray : forall A : Type, list A -> option Z -> option Z -> list A)
    (args : VariablesArguments.t) :
  keeps (variablesRequest limitArray args).
Proof. unfold variablesRequest. repeat keeps_step. Qed.

Lemma keeps_evaluateRequest (args : EvaluateArguments.t) : keeps (evaluateRequest args).
Proof. unfold evaluateRequest. repeat keeps_step. Qed.

(** X12: the handle table only grows.  A new session has a well-formed
    table (no handle yet, the first one will be 1000), and through any
    sequence of initialize, disconnect, breakpoint-locations, scopes,
    variables and evaluate requests that return, the runtime stays at its
    stop, [shutdown()] is not called, every handle handed out keeps standing
    for the same thing, new handles lie above the old ones, and the table
    stays well formed: it holds exactly the handles from 1000 up to the next
    one, so that 0, the reference of a variable without children, is never a
    handle. *)
Theorem handle_table_invariant :
  (forall runtime : Runtime.t,
      handles_wf (Session._variableHandles (Session.create runtime)))
  /\ (forall (limitArray : forall A : Type, list A -> option Z -> option Z -> list A)
             (s s' : Session.t),
        rtc (request limitArray) s s' -> continues s s').
Proof.
  split.
  - intros runtime. unfold handles_wf, Handles.get; cbn. split; [lia|].
    intros handle. rewrite lookup_empty. split; [intros [x Hx]; discriminate | lia].
  - intros limitArray s s' H. induction H as [s|s s1 s' Hstep _ IH].
    + apply continues_refl.
    + refine (continues_trans _ _ _ _ IH).
      destruct Hstep as [b s s1 H|a s s1 H|a s s1 H|s s1 H|a s s1 H|a s s1 H].
      * exact (keeps_initializeRequest b _ _ _ H).
      * exact (keeps_disconnectRequest a _ _ _ H).
      * exact (keeps_breakpointLocationsRequest a _ _ _ H).
      * exact (keeps_scopesRequest _ _ _ H).
      * exact (keeps_variablesRequest limitArray a _ _ _ H).
      * exact (keeps_evaluateRequest a _ _ _ H).
Qed.

(** The example session after a scopes request and the expansion of
    "Execution State". *)
Lemma handle_table_invariant_witness :
  continues example_session example_expanded
  /\ handles_wf (Session._variableHandles example_expanded).
Proof.
  assert (H : continues example_session example_expanded).
  { apply (proj2 handle_table_invariant (fun _ l _ _ => l)).
    apply (rtc_l _ _ example_scoped); [apply request_scopes; reflexivity|].
    apply rtc_once.
    apply (request_variables _ (VariablesArguments.mk 1000 None None None)). reflexivity. }
  split; [exact H|].
  apply H. apply (proj1 handle_table_invariant).
Defined.

(** ** Listing the stack and the scratch space *)

(** One conversion: the variable, the handle of a byte string (the next one
    of the table), and a session that continues the one before. *)
Lemma convertAvmValue_converted (scope : AvmValueScope) (v : AvmValue.t)
    (index : JS.number) (s : Session.t) :
  exists (rv : DapVariable.t) (s' : Session.t),
    convertAvmValue scope v index s = Ok (rv, s')
    /\ Session.sent s' = Session.sent s
    /\ Session.console s' = Session.console s
    /\ converted scope v index s' rv
    /\ ((AvmValue.type v =? 1) = true ->
        DapVariable.variablesReference rv
        = Handles._nextHandle (Session._variableHandles s)).
Proof.
  unfold convertAvmValue, converted, rendering. destruct (AvmValue.type v =? 1).
  - unfold bind, createHandle, ret, Handles.get; cbn. eexists _, _.
    split; [reflexivity|]. cbn. rewrite lookup_insert_eq. repeat split; reflexivity.
  - unfold ret. eexists _, _. split; [reflexivity|]. cbn.
    repeat split; try reflexivity. discriminate.
Qed.

(** A conversion stays what it was in a session that continues. *)
Lemma converted_continues (scope : AvmValueScope) (v : AvmValue.t) (index : JS.number)
    (s s' : Session.t) (rv : DapVariable.t) :
  converted scope v index s rv ->
  ((AvmValue.type v =? 1) = true ->
   DapVariable.variablesReference rv < Handles._nextHandle (Session._variableHandles s)) ->
  continues s s' ->
  converted scope v index s' rv.
Proof.
  intros (H1 & H2 & H3 & H4 & H5) Hlt (_ & _ & _ & Hget & _).
  unfold converted. repeat split; try assumption.
  destruct (AvmValue.type v =? 1); [|exact H5].
  rewrite Hget; [exact H5 | now apply Hlt].
Qed.

(** [array.map] with [convertAvmValue]: one variable per element, in order,
    each converted with its position. *)
Lemma map_indexed_converted (scope : AvmValueScope) (values : list AvmValue.t) :
  forall (i : nat) (s : Session.t),
  exists (variables : list DapVariable.t) (s' : Session.t),
    map_indexed (convertAvmValue scope) i values s = Ok (variables, s')
    /\ Session.sent s' = Session.sent s
    /\ Session.console s' = Session.console s
    /\ continues s s'
    /\ length variables = length values
    /\ forall (j : nat) (v : AvmValue.t),
         values !! j = Some v ->
         exists rv : DapVariable.t,
           variables !! j = Some rv
           /\ converted scope v (JS.Int (Z.of_nat (i + j))) s' rv
           /\ ((AvmValue.type v =? 1) = true ->
               Handles._nextHandle (Session._variableHandles s)
               <= DapVariable.variablesReference rv
               < Handles._nextHandle (Session._variableHandles s')).
Proof.
  induction values as [|x values IH]; intros i s; cbn [map_indexed].
  - exists [], s. unfold ret.
    split; [reflexivity|]. split; [reflexivity|]. split; [reflexivity|].
    split; [apply continues_refl|]. split; [reflexivity|].
    intros j v Hj. discriminate Hj.
  - destruct (convertAvmValue_converted scope x (JS.Int (Z.of_nat i)) s)
      as (y & s1 & Hc & Hs1 & Hl1 & Hy & Hr).
    pose proof (keeps_convertAvmValue _ _ _ _ _ _ Hc) as K1.
    destruct (IH (S i) s1) as (ys & s' & Hm & Hs' & Hl' & K2 & Hlen & Hall).
    exists (y :: ys), s'. unfold bind, ret. rewrite Hc, Hm.
    split; [reflexivity|]. split; [congruence|]. split; [congruence|].
    split; [exact (continues_trans _ _ _ K1 K2)|].
    split; [cbn; now rewrite Hlen|].
    assert (Hnext : (AvmValue.type x =? 1) = true ->
                    Handles._nextHandle (Session._variableHandles s1)
                    = Handles._nextHandle (Session._variableHandles s) + 1).
    { intros Ht. revert Hc. unfold convertAvmValue. rewrite Ht.
      unfold bind, createHandle, ret; cbn. now intros [= _ <-]. }
    intros [|j] v Hj.
    + injection Hj as <-. exists y. split; [reflexivity|].
      rewrite Nat.add_0_r. split.
      * apply (converted_continues _ _ _ s1); [exact Hy| |exact K2].
        intros Ht. rewrite (Hr Ht), (Hnext Ht). lia.
      * intros Ht. rewrite (Hr Ht).
        destruct K2 as (_ & _ & Hle & _). rewrite (Hnext Ht) in Hle. lia.
    + destruct (Hall j v Hj) as (rv & Hrv & Hconv & Href).
      exists rv. split; [exact Hrv|].
      replace (i + S j)%nat with (S i + j)%nat by lia. split; [exact Hconv|].
      intros Ht. specialize (Href Ht).
      destruct K1 as (_ & _ & Hle & _). lia.
Qed.

(** The branch of [variablesRequest] for the handle of the stack or of the
    scratch space. *)
Lemma variablesRequest_scope
    (limitArray : forall A : Type, list A -> option Z -> option Z -> list A)
    (s : Session.t) (args : VariablesArguments.t) (scope : AvmValueScope) :
  Handles.get (Session._variableHandles s) (VariablesArguments.variablesReference args)
  = Some (of_scope scope) ->
  variablesRequest limitArray args s =
  if negb (filter_is (VariablesArguments.filter args) named) then
    match map_indexed (convertAvmValue scope) 0 (values_of scope s) s with
    | Ok (variables, s') =>
        Ok (tt, respond s' (body_variables
                              (limitArray _ variables (VariablesArguments.start args)
                                          (VariablesArguments.count args))))
    | Throw err => Throw err
    end
  else Ok (tt, respond s (body_variables [])).
Proof.
  intros Hget. unfold variablesRequest, bind, getHandle. rewrite Hget.
  destruct scope; unfold getStackValues, getScratchValues; cbn [values_of];
    destruct (negb (filter_is (VariablesArguments.filter args) named));
    try reflexivity;
    match goal with |- context [map_indexed ?f ?i ?l ?s] =>
      destruct (map_indexed f i l s) as [[variables s']|err] end;
    reflexivity.
Qed.

(** X13: the handle of the stack (or of the scratch space) lists the
    array.  Under the filter [named] the answer is empty, although the stack
    variable announces one named child.  Otherwise the answer is
    [limitArray] of one variable per element, in order: the variable at
    position [i] is named [i], can be evaluated as [<scope>[i]], carries
    the summary value of the element ([0x] and hexadecimal digits, or the
    decimal number) and its type, and has reference 0 for a uint64 and for a
    byte string a new handle that stands for position [i] of the array.
    The response is the only message sent. *)
Theorem variablesRequest_lists_scope :
  forall (limitArray : forall A : Type, list A -> option Z -> option Z -> list A)
         (s : Session.t) (args : VariablesArguments.t) (scope : AvmValueScope),
    Handles.get (Session._variableHandles s) (VariablesArguments.variablesReference args)
    = Some (of_scope scope) ->
    (VariablesArguments.filter args = Some named ->
     variablesRequest limitArray args s = Ok (tt, respond s (body_variables [])))
    /\ (VariablesArguments.filter args <> Some named ->
        exists (variables : list DapVariable.t) (s' : Session.t),
          variablesRequest limitArray args s
          = Ok (tt, respond s'
                      (body_variables
                         (limitArray _ variables (VariablesArguments.start args)
                                     (VariablesArguments.count args))))
          /\ Session.sent s' = Session.sent s
          /\ continues s s'
          /\ length variables = length (values_of scope s)
          /\ forall (i : nat) (v : AvmValue.t),
               values_of scope s !! i = Some v ->
               exists rv : DapVariable.t,
                 variables !! i = Some rv
                 /\ converted scope v (JS.Int (Z.of_nat i)) s' rv
                 /\ ((AvmValue.type v =? 1) = true ->
                     Handles._nextHandle (Session._variableHandles s)
                     <= DapVariable.variablesReference rv)).
Proof.
  intros limitArray s args scope Hget.
  rewrite (variablesRequest_scope limitArray s args scope Hget). split.
  - intros ->. reflexivity.
  - intros Hf.
    assert (Hn : negb (filter_is (VariablesArguments.filter args) named) = true).
    { destruct (VariablesArguments.filter args) as [[]|]; try reflexivity. congruence. }
    rewrite Hn.
    destruct (map_indexed_converted scope (values_of scope s) 0 s)
      as (variables & s' & Hm & Hs & _ & K & Hlen & Hall).
    exists variables, s'. rewrite Hm.
    split; [reflexivity|]. split; [exact Hs|]. split; [exact K|]. split; [exact Hlen|].
    intros i v Hv. destruct (Hall i v Hv) as (rv & Hrv & Hconv & Href).
    exists rv. split; [exact Hrv|]. split; [exact Hconv|].
    intros Ht. apply (Href Ht).
Qed.

(** The stack of the example session, through the handle 1002. *)
Lemma variablesRequest_lists_scope_witness :
  exists (variables : list DapVariable.t) (s' : Session.t),
    variablesRequest (fun _ l _ _ => l) (VariablesArguments.mk 1002 None None None)
                     example_expanded
    = Ok (tt, respond s' (body_variables variables))
    /\ Session.sent s' = Session.sent example_expanded
    /\ continues example_expanded s'
    /\ length variables = 4%nat
    /\ forall (i : nat) (v : AvmValue.t),
         values_of stack example_expanded !! i = Some v ->
         exists rv : DapVariable.t,
           variables !! i = Some rv
           /\ converted stack v (JS.Int (Z.of_nat i)) s' rv
           /\ ((AvmValue.type v =? 1) = true ->
               1004 <= DapVariable.variablesReference rv).
Proof.
  apply (variablesRequest_lists_scope (fun _ l _ _ => l) example_expanded
           (VariablesArguments.mk 1002 None None None) stack);
    [reflexivity | discriminate].
Defined.

(** ** References across stops *)

(** A reference is expanded by reading the array at the current stop. *)
Lemma variablesRequest_reference
    (limitArray : forall A : Type, list A -> option Z -> option Z -> list A)
    (s : Session.t) (args : VariablesArguments.t) (r : AvmValueReference.t) :
  Handles.get (Session._variableHandles s) (VariablesArguments.variablesReference args)
  = Some (of_reference r) ->
  variablesRequest limitArray args s =
  match array_get (values_of (AvmValueReference.scope r) s) (AvmValueReference.index r) with
  | Some v =>
      Ok (tt, respond s (body_variables
                           (limitArray _ (expandAvmValue v (VariablesArguments.filter args))
                                       (VariablesArguments.start args)
                                       (VariablesArguments.count args))))
  | None => Throw (mkError "Cannot read properties of undefined (reading 'type')")
  end.
Proof.
  intros Hget. unfold variablesRequest, bind, getHandle. rewrite Hget.
  destruct r as [[] index]; cbn [AvmValueReference.scope AvmValueReference.index values_of];
    unfold getStackValues, getScratchValues;
    match goal with |- context [array_get ?l ?i] => destruct (array_get l i) end;
    reflexivity.
Qed.

(** X14: the handle of a byte string stands for a position, not for a
    value, and outlives the stop at which it was made.  Once the runtime is
    at another stop, a variables request with that handle expands whatever
    is at the position now; if the array has become too short for the
    position, the handler throws a [TypeError] on reading [type] of
    [undefined] and sends no response. *)
Theorem reference_follows_the_runtime :
  forall (limitArray : forall A : Type, list A -> option Z -> option Z -> list A)
         (s s1 : Session.t) (scope : AvmValueScope) (i : nat) (v : AvmValue.t)
         (rv : DapVariable.t) (runtime : Runtime.t)
         (filter : option Filter) (start count : option Z),
    AvmValue.type v = 1 ->
    convertAvmValue scope v (JS.Int (Z.of_nat i)) s = Ok (rv, s1) ->
    let s2 := at_stop s1 runtime in
    variablesRequest limitArray
      (VariablesArguments.mk (DapVariable.variablesReference rv) filter start count) s2
    = match values_of scope s2 !! i with
      | Some v' =>
          Ok (tt, respond s2 (body_variables
                                (limitArray _ (expandAvmValue v' filter) start count)))
      | None => Throw (mkError "Cannot read properties of undefined (reading 'type')")
      end.
Proof.
  intros limitArray s s1 scope i v rv runtime filter start count Ht Hc s2.
  rewrite (variablesRequest_reference limitArray s2 _
             (AvmValueReference.mk scope (JS.Int (Z.of_nat i)))).
  - cbn [AvmValueReference.scope AvmValueReference.index VariablesArguments.filter
         VariablesArguments.start VariablesArguments.count].
    unfold array_get. replace (0 <=? Z.of_nat i) with true by cmp.
    now rewrite Nat2Z.id.
  - revert Hc. unfold convertAvmValue. rewrite Ht. cbn.
    unfold bind, createHandle, ret; cbn. intros [= <- <-].
    unfold Handles.get; cbn. apply lookup_insert_eq.
Qed.

(** The handle of [b"1!"] at position 2 of the example stack, used when
    the stack holds two values only. *)
Lemma reference_follows_the_runtime_witness :
  variablesRequest (fun _ l _ _ => l)
    (VariablesArguments.mk (DapVariable.variablesReference (fst example_converted))
                           None None None)
    (at_stop (snd example_converted) example_runtime_before)
  = Throw (mkError "Cannot read properties of undefined (reading 'type')").
Proof.
  apply (reference_follows_the_runtime (fun _ l _ _ => l) example_session
           (snd example_converted) stack 2 (avm_bytes [x31; x21])
           (fst example_converted) example_runtime_before None None None);
    reflexivity.
Defined.

(** ** The hints of a byte string and its children *)

(** X11: the hints [convertAvmValue] gives about the children of a byte
    string, against the children [expandAvmValue] returns.  The hint
    [indexedVariables] is the number of indexed children.  The hint
    [namedVariables] (2, or 3 when the bytes are printable) never is the
    number of named children: an empty byte string has the one child
    [length]; any other has one more than the hint, the [length], and two
    more when it has 32 bytes and so an [address]. *)
Theorem hints_and_children :
  forall (scope : AvmValueScope) (v : AvmValue.t) (index : JS.number)
         (s s' : Session.t) (rv : DapVariable.t),
  let bytes := default [] (AvmValue.bytes v) in
  let hint := if Utils.isAsciiPrintable bytes then 3 else 2 in
  AvmValue.type v = 1 ->
  convertAvmValue scope v index s = Ok (rv, s') ->
  DapVariable.indexedVariables rv
  = Some (Z.of_nat (length (expandAvmValue v (Some indexed))))
  /\ DapVariable.namedVariables rv = Some hint
  /\ Z.of_nat (length (expandAvmValue v (Some named)))
     = (if Nat.eqb (length bytes) 0 then 1
        else hint + 1 + (if Nat.eqb (length bytes) 32 then 1 else 0))
  /\ DapVariable.namedVariables rv
     <> Some (Z.of_nat (length (expandAvmValue v (Some named)))).
Proof.
  intros scope v index s s' rv bytes hint Ht Hc.
  revert Hc. unfold convertAvmValue. rewrite Ht. cbn.
  unfold bind, createHandle, ret; cbn. intros [= <- _]. cbn.
  unfold expandAvmValue. rewrite Ht. cbn. fold bytes. fold hint.
  split; [now rewrite length_imap|]. split; [reflexivity|].
  assert (Hnamed : forall n : Z, Some hint <> Some n <-> n <> hint)
    by (intros n; split; congruence).
  rewrite Hnamed. unfold hint.
  destruct (Utils.isAsciiPrintable bytes), (Nat.eqb_spec (length bytes) 0),
    (Nat.eqb_spec (length bytes) 32); cbn; split; lia.
Qed.

(** The byte string [b"1!"]: hinted 3 named children, expanded to 4. *)
Lemma hints_and_children_witness :
  DapVariable.indexedVariables (fst example_converted) = Some 2
  /\ DapVariable.namedVariables (fst example_converted) = Some 3
  /\ Z.of_nat (length (expandAvmValue (avm_bytes [x31; x21]) (Some named))) = 4
  /\ DapVariable.namedVariables (fst example_converted)
     <> Some (Z.of_nat (length (expandAvmValue (avm_bytes [x31; x21]) (Some named)))).
Proof.
  apply (hints_and_children stack (avm_bytes [x31; x21]) (JS.Int 2) example_session
           (snd example_converted) (fst example_converted)); reflexivity.
Defined.

(** ** From the execution state to the elements *)

(** The branch of [variablesRequest] for the handle of the execution
    state: two handles are created, for the stack and for the scratch
    space, and the two variables that carry them are sent. *)
Lemma execution_expansion
    (limitArray : forall A : Type, list A -> option Z -> option Z -> list A)
    (s : Session.t) (args : VariablesArguments.t) :
  Handles.get (Session._variableHandles s) (VariablesArguments.variablesReference args)
  = Some execution ->
  exists (h1 h2 : Z) (s1 : Session.t),
    variablesRequest limitArray args s
    = Ok (tt, respond s1 (body_variables
        [ {| DapVariable.name := "stack";
             DapVariable.value :=
               if Nat.eqb (length (values_of stack s)) 0 then "[]" else "[...]";
             DapVariable.type := Some "array";
             DapVariable.variablesReference := h1;
             DapVariable.namedVariables := Some 1;
             DapVariable.indexedVariables := Some (Z.of_nat (length (values_of stack s)));
             DapVariable.presentationHint := Some data_hint;
             DapVariable.evaluateName := None |};
          {| DapVariable.name := "scratch";
             DapVariable.value := "[...]";
             DapVariable.type := Some "array";
             DapVariable.variablesReference := h2;
             DapVariable.namedVariables := None;
             DapVariable.indexedVariables := Some 256;
             DapVariable.presentationHint := Some data_hint;
             DapVariable.evaluateName := None |} ]))
    /\ Session.sent s1 = Session.sent s
    /\ continues s s1
    /\ Handles.get (Session._variableHandles s1) h1 = Some (of_scope stack)
    /\ Handles.get (Session._variableHandles s1) h2 = Some (of_scope scratch).
Proof.
  intros Hget.
  set (h := Handles._nextHandle (Session._variableHandles s)).
  destruct (createHandle (of_scope stack) s) as [[h1 sa]|] eqn:E1; [|discriminate E1].
  destruct (createHandle (of_scope scratch) sa) as [[h2 s1]|] eqn:E2; [|discriminate E2].
  pose proof (continues_trans _ _ _ (keeps_createHandle _ _ _ _ E1)
                (keeps_createHandle _ _ _ _ E2)) as K.
  exists h1, h2, s1. split.
  { unfold variablesRequest, bind at 1 2, getHandle. rewrite Hget.
    unfold bind, getStackValues. rewrite E1, E2. reflexivity. }
  split; [|split; [exact K|]];
    revert E1 E2; unfold createHandle, Handles.create, Handles.get; cbn;
    intros [= <- <-] [= <- <-]; cbn; fold h; [reflexivity|].
  split; [|apply lookup_insert_eq].
  rewrite lookup_insert_ne by lia. apply lookup_insert_eq.
Qed.

(** X15: the handle of the execution state expands to the two variables
    [stack] and [scratch], whatever the filter, start and count of the
    request.  Their references are new handles for the two arrays; the
    value of [stack] is [[]] for an empty stack and [[...]] otherwise, the
    value of [scratch] always [[...]]; [stack] announces as many indexed
    children as the stack has values, which is the number of variables its
    handle lists next (before [limitArray]), and [scratch] announces 256
    whatever the length of the scratch array; [stack] announces one named
    child, but its handle lists none under the filter [named]. *)
Theorem execution_state_children :
  forall (limitArray : forall A : Type, list A -> option Z -> option Z -> list A)
         (s : Session.t) (args : VariablesArguments.t),
    Handles.get (Session._variableHandles s) (VariablesArguments.variablesReference args)
    = Some execution ->
    exists (stackVar scratchVar : DapVariable.t) (s1 : Session.t),
      variablesRequest limitArray args s
      = Ok (tt, respond s1 (body_variables [stackVar; scratchVar]))
      /\ Session.sent s1 = Session.sent s
      /\ continues s s1
      /\ Handles.get (Session._variableHandles s1) (DapVariable.variablesReference stackVar)
         = Some (of_scope stack)
      /\ Handles.get (Session._variableHandles s1) (DapVariable.variablesReference scratchVar)
         = Some (of_scope scratch)
      /\ DapVariable.value stackVar
         = (if Nat.eqb (length (values_of stack s)) 0 then "[]" else "[...]")
      /\ DapVariable.value scratchVar = "[...]"
      /\ DapVariable.indexedVariables stackVar = Some (Z.of_nat (length (values_of stack s)))
      /\ DapVariable.indexedVariables scratchVar = Some 256
      /\ DapVariable.namedVariables stackVar = Some 1
      /\ (forall (filter : option Filter) (start count : option Z),
            filter <> Some named ->
            exists (variables : list DapVariable.t) (s2 : Session.t),
              variablesRequest limitArray
                (VariablesArguments.mk (DapVariable.variablesReference stackVar)
                                       filter start count)
                (respond s1 (body_variables [stackVar; scratchVar]))
              = Ok (tt, respond s2 (body_variables (limitArray _ variables start count)))
              /\ DapVariable.indexedVariables stackVar = Some (Z.of_nat (length variables)))
      /\ (forall start count : option Z,
            variablesRequest limitArray
              (VariablesArguments.mk (DapVariable.variablesReference stackVar)
                                     (Some named) start count)
              (respond s1 (body_variables [stackVar; scratchVar]))
            = Ok (tt, respond (respond s1 (body_variables [stackVar; scratchVar]))
                        (body_variables []))).
Proof.
  intros limitArray s args Hget.
  destruct (execution_expansion limitArray s args Hget)
    as (h1 & h2 & s1 & H & Hsent & K & G1 & G2).
  eexists _, _, s1. split; [exact H|].
  cbn [DapVariable.variablesReference DapVariable.value DapVariable.indexedVariables
       DapVariable.namedVariables].
  split; [exact Hsent|]. split; [exact K|]. split; [exact G1|]. split; [exact G2|].
  split; [reflexivity|]. split; [reflexivity|]. split; [reflexivity|].
  split; [reflexivity|]. split; [reflexivity|]. split.
  - intros filter start count Hf.
    rewrite (variablesRequest_scope limitArray (respond s1 _)
               (VariablesArguments.mk h1 filter start count) stack G1).
    cbn [VariablesArguments.filter VariablesArguments.start VariablesArguments.count].
    replace (negb (filter_is filter named)) with true
      by (destruct filter as [[]|]; try reflexivity; congruence).
    match goal with |- context [map_indexed ?f ?i ?l ?s0] =>
      destruct (map_indexed_converted stack l i s0)
        as (variables & s2 & Hm & _ & _ & _ & Hlen & _) end.
    exists variables, s2. rewrite Hm. split; [reflexivity|].
    rewrite Hlen. unfold values_of, respond; cbn.
    destruct K as (Hr & _). now rewrite Hr.
  - intros start count.
    now rewrite (variablesRequest_scope limitArray (respond s1 _)
                   (VariablesArguments.mk h1 (Some named) start count) stack G1).
Qed.

(** "Execution State" of the example session, through the handle 1000. *)
Lemma execution_state_children_witness :
  exists (stackVar scratchVar : DapVariable.t) (s1 : Session.t),
    variablesRequest (fun _ l _ _ => l) (VariablesArguments.mk 1000 None None None)
                     example_scoped
    = Ok (tt, respond s1 (body_variables [stackVar; scratchVar]))
    /\ Handles.get (Session._variableHandles s1) (DapVariable.variablesReference stackVar)
       = Some (of_scope stack)
    /\ DapVariable.indexedVariables stackVar = Some 4
    /\ DapVariable.indexedVariables scratchVar = Some 256.
Proof.
  destruct (execution_state_children (fun _ l _ _ => l) example_scoped
              (VariablesArguments.mk 1000 None None None) eq_refl)
    as (stackVar & scratchVar & s1 & H & _ & _ & G & _ & _ & _ & H1 & H2 & _).
  exists stackVar, scratchVar, s1. repeat split; assumption.
Defined.

(** ** Every reference is answered

    X16: a variables request returns with exactly one response, which
    holds a list of variables, for every reference but one that stands for
    a position beyond the end of its array at the current stop; the session
    it leaves continues the one before.  A reference that is no handle (0
    for one) and the handle of the on-chain state are answered with the
    empty list. *)
Theorem variablesRequest_returns_unless_stale :
  forall (limitArray : forall A : Type, list A -> option Z -> option Z -> list A)
         (s : Session.t) (args : VariablesArguments.t),
  let v := Handles.get (Session._variableHandles s)
                       (VariablesArguments.variablesReference args) in
  (forall r : AvmValueReference.t,
      v = Some (of_reference r) ->
      is_Some (array_get (values_of (AvmValueReference.scope r) s)
                         (AvmValueReference.index r))) ->
  (exists (variables : list DapVariable.t) (s' : Session.t),
      variablesRequest limitArray args s = Ok (tt, respond s' (body_variables variables))
      /\ Session.sent s' = Session.sent s
      /\ continues s s')
  /\ (v = None \/ v = Some chain ->
      variablesRequest limitArray args s = Ok (tt, respond s (body_variables []))).
Proof.
  intros limitArray s args v Hfresh. split.
  - destruct v as [[| |scope|r]|] eqn:Ev; subst v.
    + destruct (execution_expansion limitArray s args Ev)
        as (h1 & h2 & s1 & H & Hs & K & _).
      eexists _, s1. split; [exact H|]. split; [exact Hs | exact K].
    + exists [], s. split; [|split; [reflexivity | apply continues_refl]].
      unfold variablesRequest, bind, getHandle. rewrite Ev. reflexivity.
    + rewrite (variablesRequest_scope limitArray s args scope Ev).
      destruct (negb (filter_is (VariablesArguments.filter args) named)).
      * destruct (map_indexed_converted scope (values_of scope s) 0 s)
          as (variables & s' & Hm & Hs & _ & K & _).
        eexists _, s'. rewrite Hm. split; [reflexivity|]. split; [exact Hs | exact K].
      * exists [], s. split; [reflexivity|].
        split; [reflexivity | apply continues_refl].
    + destruct (Hfresh r eq_refl) as [value Hvalue].
      eexists _, s. split; [|split; [reflexivity | apply continues_refl]].
      rewrite (variablesRequest_reference limitArray s args r Ev), Hvalue. reflexivity.
    + exists [], s. split; [|split; [reflexivity | apply continues_refl]].
      unfold variablesRequest, bind, getHandle. rewrite Ev. reflexivity.
  - intros [Hv|Hv]; unfold variablesRequest, bind, getHandle; fold v; rewrite Hv;
      reflexivity.
Qed.

(** The reference 0 in the example session. *)
Lemma variablesRequest_returns_unless_stale_witness :
  (exists (variables : list DapVariable.t) (s' : Session.t),
      variablesRequest (fun _ l _ _ => l) (VariablesArguments.mk 0 None None None)
                       example_expanded
      = Ok (tt, respond s' (body_variables variables))
      /\ Session.sent s' = Session.sent example_expanded
      /\ continues example_expanded s')
  /\ (Handles.get (Session._variableHandles example_expanded) 0 = None
      \/ Handles.get (Session._variableHandles example_expanded) 0 = Some chain ->
      variablesRequest (fun _ l _ _ => l) (VariablesArguments.mk 0 None None None)
                       example_expanded
      = Ok (tt, respond example_expanded (body_variables []))).
Proof.
  apply (variablesRequest_returns_unless_stale (fun _ l _ _ => l) example_expanded
           (VariablesArguments.mk 0 None None None)).
  intros r H. vm_compute in H. discriminate H.
Defined.

(** ** From the listing of an array to the children of a byte string *)

(** X17: a variables request that lists the stack or the scratch space
    hands out, for every byte string in the array, a reference that a
    following variables request resolves to that byte string: the answer is
    [limitArray] of its expansion under the filter of the second request.
    The reference of an early element is still good after the later
    elements have been converted. *)
Theorem listed_byte_strings_expand :
  forall (limitArray : forall A : Type, list A -> option Z -> option Z -> list A)
         (s : Session.t) (args : VariablesArguments.t) (scope : AvmValueScope),
    Handles.get (Session._variableHandles s) (VariablesArguments.variablesReference args)
    = Some (of_scope scope) ->
    VariablesArguments.filter args <> Some named ->
    exists (variables : list DapVariable.t) (s1 : Session.t),
      variablesRequest limitArray args s = Ok (tt, s1)
      /\ Session.sent s1
         = Session.sent s
           ++ [Response (body_variables
                           (limitArray _ variables (VariablesArguments.start args)
                                       (VariablesArguments.count args)))]
      /\ forall (i : nat) (v : AvmValue.t) (rv : DapVariable.t)
                (filter : option Filter) (start count : option Z),
           values_of scope s !! i = Some v ->
           AvmValue.type v = 1 ->
           variables !! i = Some rv ->
           variablesRequest limitArray
             (VariablesArguments.mk (DapVariable.variablesReference rv) filter start count)
             s1
           = Ok (tt, respond s1 (body_variables
                                   (limitArray _ (expandAvmValue v filter) start count))).
Proof.
  intros limitArray s args scope Hget Hf.
  rewrite (variablesRequest_scope limitArray s args scope Hget).
  replace (negb (filter_is (VariablesArguments.filter args) named)) with true
    by (destruct (VariablesArguments.filter args) as [[]|]; try reflexivity; congruence).
  destruct (map_indexed_converted scope (values_of scope s) 0 s)
    as (variables & s' & Hm & Hs & _ & K & _ & Hall).
  rewrite Hm. eexists variables, _. split; [reflexivity|].
  split; [cbn; now rewrite Hs|].
  intros i v rv filter start count Hv Ht Hrv.
  destruct (Hall i v Hv) as (rv' & Hrv' & (_ & _ & _ & _ & Href) & _).
  rewrite Hrv in Hrv'. injection Hrv' as <-.
  rewrite Ht in Href. cbn in Href.
  rewrite (variablesRequest_reference limitArray _
             (VariablesArguments.mk (DapVariable.variablesReference rv) filter start count)
             (AvmValueReference.mk scope (JS.Int (Z.of_nat i)))); [|exact Href].
  cbn [AvmValueReference.scope AvmValueReference.index VariablesArguments.filter
       VariablesArguments.start VariablesArguments.count].
  assert (Hvals : forall body, values_of scope (respond s' body) = values_of scope s).
  { intros body. destruct K as (Hr & _). unfold values_of, respond; cbn. now rewrite Hr. }
  rewrite Hvals. unfold array_get. replace (0 <=? Z.of_nat i) with true by cmp.
  now rewrite Nat2Z.id, Hv.
Qed.

(** The stack of the example session, listed through the handle 1002, and
    the byte string [b"1!"] at position 2. *)
Lemma listed_byte_strings_expand_witness :
  exists (variables : list DapVariable.t) (s1 : Session.t),
    variablesRequest (fun _ l _ _ => l) (VariablesArguments.mk 1002 None None None)
                     example_expanded
    = Ok (tt, s1)
    /\ Session.sent s1
       = Session.sent example_expanded ++ [Response (body_variables variables)]
    /\ forall rv : DapVariable.t,
         variables !! 2%nat = Some rv ->
         variablesRequest (fun _ l _ _ => l)
           (VariablesArguments.mk (DapVariable.variablesReference rv) None None None) s1
         = Ok (tt, respond s1 (body_variables (expandAvmValue (avm_bytes [x31; x21]) None))).
Proof.
  destruct (listed_byte_strings_expand (fun _ l _ _ => l) example_expanded
              (VariablesArguments.mk 1002 None None None) stack)
    as (variables & s1 & H & Hs & Hall); [reflexivity | discriminate |].
  exists variables, s1. split; [exact H|]. split; [exact Hs|].
  intros rv Hrv.
  apply (Hall 2%nat (avm_bytes [x31; x21]) rv None None None);
    [reflexivity | reflexivity | exact Hrv].
Defined.

(** ** The children of a byte string have no children *)

(** Every element of [imap f l] is an [f i x]. *)
Lemma Forall_imap_intro {A B : Type} (P : B -> Prop) (f : nat -> A -> B) (l : list A) :
  (forall (i : nat) (x : A), P (f i x)) -> Forall P (imap f l).
Proof.
  revert f. induction l as [|x l IH]; intros f H; cbn; constructor.
  - apply H.
  - apply IH. intros i y. apply H.
Qed.

(** X18: every variable [expandAvmValue] returns is a leaf: it has
    reference 0, no hints and no [evaluateName], so that it can be neither
    expanded nor evaluated; its type is [string] (a rendering or the
    address), [number] (the length) or [uint8] (one byte). *)
Theorem expandAvmValue_children_are_leaves :
  forall (v : AvmValue.t) (filter : option Filter),
    Forall (fun child : DapVariable.t =>
              DapVariable.variablesReference child = 0
              /\ DapVariable.namedVariables child = None
              /\ DapVariable.indexedVariables child = None
              /\ DapVariable.evaluateName child = None
              /\ exists name type value : string,
                   child = leaf name type value
                   /\ (type = "string" \/ type = "number" \/ type = "uint8"))
           (expandAvmValue v filter).
Proof.
  intros v filter.
  set (P := fun child : DapVariable.t =>
              DapVariable.variablesReference child = 0
              /\ DapVariable.namedVariables child = None
              /\ DapVariable.indexedVariables child = None
              /\ DapVariable.evaluateName child = None
              /\ exists name type value : string,
                   child = leaf name type value
                   /\ (type = "string" \/ type = "number" \/ type = "uint8")).
  assert (Hleaf : forall name type value : string,
             type = "string" \/ type = "number" \/ type = "uint8" ->
             P (leaf name type value)).
  { intros name type value Ht. unfold P. repeat split.
    exists name, type, value. split; [reflexivity | exact Ht]. }
  clearbody P. unfold expandAvmValue.
  destruct (negb (AvmValue.type v =? 1)); [constructor|].
  set (bytes := default [] (AvmValue.bytes v)).
  assert (Hindexed :
            Forall P (imap (fun i b => leaf (JS.toString (JS.Int (Z.of_nat i))) "uint8"
                                            (JS.toString (JS.Int (Z.of_N (Byte.to_N b)))))
                           bytes))
    by (apply Forall_imap_intro; intros i b; apply Hleaf; auto).
  assert (Hnamed : forall formats : list Buffer.BufferEncoding,
             Forall P (map (fun format => leaf (Buffer.encoding_name format) "string"
                                               (Buffer.toString bytes format)) formats)).
  { intros formats. apply Forall_map, List.Forall_forall. intros format _. apply Hleaf. auto. }
  destruct (negb (filter_is filter indexed)), (negb (filter_is filter named));
    cbn [app];
    repeat first [ apply Forall_app; split | exact Hindexed | apply Hnamed
                 | apply Forall_nil_2 | apply Forall_cons; split | apply Hleaf; auto
                 | match goal with |- Forall _ (if ?c then _ else _) => destruct c end ].
Qed.

(** ** Examples *)

(** Numbers print as JavaScript prints them. *)
Example toString_examples :
  JS.toString (JS.of_Z (2 ^ 64)) = "18446744073709552000"
  /\ JS.toString (JS.of_Z (2 ^ 64 - 1)) = "18446744073709552000"
  /\ JS.toString (JS.of_Z 9007199254740993) = "9007199254740992"
  /\ JS.toString (JS.of_Z (10 ^ 21)) = "1e+21"
  /\ JS.toString (JS.of_Z (- 2 ^ 70)) = "-1.1805916207174113e+21"
  /\ JS.toString (JS.of_Z 123456789012345678901234567890) = "1.2345678901234568e+29"
  /\ JS.toString (JS.of_Z (10 ^ 400)) = "Infinity".
Proof. vm_compute. repeat split. Qed.

(** An index far beyond the doubles that hold every integer. *)
Example evaluate_huge_index :
  evaluateRequest (EvaluateArguments.mk "stack[99999999999999999999999]") example_session
  = Ok (tt, respond example_session (message_body "stack[1e+23] out of range")).
Proof. vm_compute. reflexivity. Qed.

(** The address of the key of 32 zero bytes, and of the bytes 0 to 31. *)
Example encodeAddress_examples :
  Algosdk.encodeAddress (repeat x00 32)
  = "AAAAAAAAAAAAAAAAAAAAAAAAAAAAAAAAAAAAAAAAAAAAAAAAAAAAY5HFKQ"
  /\ Algosdk.encodeAddress
       [x00; x01; x02; x03; x04; x05; x06; x07; x08; x09; x0a; x0b; x0c; x0d;
        x0e; x0f; x10; x11; x12; x13; x14; x15; x16; x17; x18; x19; x1a; x1b;
        x1c; x1d; x1e; x1f]
     = "AAAQEAYEAUDAOCAJBIFQYDIOB4IBCEQTCQKRMFYYDENBWHA5DYP7MUPJQE".
Proof. vm_compute. split; reflexivity. Qed.

(** The renderings of a few byte strings. *)
Example buffer_examples :
  Buffer.hex [x00; xff; x1a] = "00ff1a"
  /\ Buffer.base64 [x4d] = "TQ=="
  /\ Buffer.base64 [x4d; x61] = "TWE="
  /\ Buffer.base64 [x4d; x61; x6e] = "TWFu"
  /\ Buffer.base64 [xfb; xff; xbf] = "+/+/"
  /\ Buffer.ascii [x31; xa1] = "1!".
Proof. vm_compute. repeat split. Qed.
